(** * pgbson.c: the PostgreSQL BSON type, embedded and verified

    A shallow embedding of [src/pgbson.c].  The file is a thin layer over two
    collaborators whose code is not part of the repository:

    - libbson ([bson.h]): documents, iterators, the JSON codec;
    - the PostgreSQL server: varlena values, [ereport], [StringInfo],
      timestamps and numerics.

    The functions of [pgbson.c] are translated line by line.  What they call
    in the collaborators is either a field of the interfaces [LibBson] and
    [PgHost] (when only the control flow around the call matters), or a
    definition written out here and marked as modelled (when a property
    depends on what the callee computes). *)

From Stdlib Require Import ZArith List Lia String Ascii Bool DecimalString.
From coqutil Require Import Byte Word.LittleEndianList.
Import ListNotations.
Local Open Scope Z_scope.

Set Warnings "-register-all".

(* ===================================================================== *)
(** * Machine integers *)
(* ===================================================================== *)

(** C integers are [Z] with the wrap-around written out.  PostgreSQL and its
    extensions are built with [-fwrapv], so signed arithmetic wraps in two's
    complement. *)
Module CInt.

(** Reduction to the unsigned [w]-bit range. *)
Definition uwrap (w z : Z) : Z := z mod 2 ^ w.

(** Reduction to the signed [w]-bit range. *)
Definition swrap (w z : Z) : Z := (z + 2 ^ (w - 1)) mod 2 ^ w - 2 ^ (w - 1).

Definition int32 (z : Z) : Z := swrap 32 z.
Definition uint32 (z : Z) : Z := uwrap 32 z.
Definition int64 (z : Z) : Z := swrap 64 z.

Definition is_int32 (z : Z) : Prop := - 2 ^ 31 <= z < 2 ^ 31.
Definition is_int64 (z : Z) : Prop := - 2 ^ 63 <= z < 2 ^ 63.

(** [a + b] and [a << n] on [int]. *)
Definition int_add (a b : Z) : Z := int32 (a + b).
Definition int_shl (a n : Z) : Z := int32 (Z.shiftl a n).

End CInt.

(* ===================================================================== *)
(** * Memory as the code sees it *)
(* ===================================================================== *)

(** A [const uint8_t*] or [const char*] is modelled by the bytes found from
    the pointer to the end of its allocation; reading [n] bytes through it
    is [firstn n]. *)
Definition bytes := list byte.

Definition x00 : byte := Byte.x00.

(** [memcpy(dst, src, n)] into a fresh allocation of [n] bytes. *)
Definition memcpy (src : bytes) (n : Z) : bytes := firstn (Z.to_nat n) src.

(** [strlen]: the number of bytes before the first NUL. *)
Fixpoint strlen_nat (p : bytes) : nat :=
  match p with
  | [] => O
  | c :: p' => if Byte.eqb c x00 then O else S (strlen_nat p')
  end.

Definition strlen (p : bytes) : Z := Z.of_nat (strlen_nat p).

(** The C string a [char*] denotes. *)
Definition cstring_at (p : bytes) : string :=
  string_of_list_byte (firstn (strlen_nat p) p).

(** A [char*] to a NUL-terminated copy of [s]. *)
Definition cstring_ptr (s : string) : bytes := list_byte_of_string s ++ [x00].

(** [strncpy(dst, src, n)]: the [n] bytes it leaves in [dst], the
    characters of [src] up to its NUL, then NULs. *)
Definition strncpy (src : bytes) (n : Z) : bytes :=
  firstn (Z.to_nat n)
    (firstn (strlen_nat src) src ++ repeat x00 (Z.to_nat n)).

(** Modelled from the spec: [bson_strncpy] is libbson's
    ([bson-string.c]), absent from src/.  Section 4.4 has a date rendered
    "via an ISO-8601 formatter" and is silent on the copy; libbson
    documents [bson_strncpy(dst, src, size)] as a [strncpy] whose result
    is always NUL-terminated: nothing when [size] is 0, otherwise
    [strncpy(dst, src, size)] followed by [dst[size - 1] = 0].  The result
    is the [size] bytes it leaves in [dst]. *)
Definition bson_strncpy (src : bytes) (size : Z) : bytes :=
  if size =? 0 then []
  else firstn (Z.to_nat (size - 1)) (strncpy src size) ++ [x00].

(* ===================================================================== *)
(** * PostgreSQL: values and errors *)
(* ===================================================================== *)

(** A varlena value ([bytea], [text]) is modelled by its payload: what
    [VARDATA] points to, of length [VARSIZE_ANY_EXHDR].  The header and its
    short and long forms belong to the server. *)
Definition bytea := bytes.
Definition text := string.

Definition VARHDRSZ : Z := 4.
Definition BSON_VARDATA (x : bytea) : bytes := x.
Definition VARSIZE_ANY_EXHDR (x : bytea) : Z := Z.of_nat (List.length x).

(** The two error codes [pgbson.c] passes to [errcode]. *)
Inductive sqlerrcode : Type :=
| ERRCODE_INVALID_JSON_TEXT
| ERRCODE_INVALID_BINARY_REPRESENTATION.

(** What [ereport(ERROR, (errcode(c), errmsg(..)))] throws: the code and the
    message [errmsg] built, when it could build one. *)
Record ErrorData : Type := mkError {
  err_code : sqlerrcode;
  err_message : option string
}.

(** A computation that may leave through [ereport(ERROR, ...)]. *)
Inductive result (A : Type) : Type :=
| Ok (a : A)
| Raise (e : ErrorData).
Arguments Ok {A} a.
Arguments Raise {A} e.

Definition bind {A B : Type} (m : result A) (k : A -> result B) : result B :=
  match m with
  | Ok a => k a
  | Raise e => Raise e
  end.

Declare Scope pg_scope.
Delimit Scope pg_scope with pg.
Notation "x <- m ;; k" := (bind m (fun x => k))
  (at level 61, m at next level, right associativity) : pg_scope.
Notation "' p <- m ;; k" := (bind m (fun x => let p := x in k))
  (at level 61, p pattern, m at next level, right associativity) : pg_scope.

(** What a SQL-callable function hands back: a value ([PG_RETURN_xxx]) or
    SQL NULL ([PG_RETURN_NULL]), unless it raised. *)
Definition Datum (A : Type) : Type := result (option A).
Definition PG_RETURN {A : Type} (a : A) : Datum A := Ok (Some a).
Definition PG_RETURN_NULL {A : Type} : Datum A := Ok None.

(* ===================================================================== *)
(** * bson_hash (pgbson.c, lines 250-267) *)
(* ===================================================================== *)

(** One turn of the loop body:
    [c = *data++; hash = ((hash << 5) + hash) + c;] with [int hash, c]. *)
Definition bson_hash_step (hash : Z) (byte_read : byte) : Z :=
  let c := byte.unsigned byte_read in
  CInt.int_add (CInt.int_add (CInt.int_shl hash 5) hash) c.

(** [for (uint32 n = 0; n < sz; n++)], reading through [data]. *)
Fixpoint bson_hash_loop (sz : nat) (data : bytes) (hash : Z) : Z :=
  match sz, data with
  | S sz', c :: data' => bson_hash_loop sz' data' (bson_hash_step hash c)
  | _, _ => hash
  end.

Definition bson_hash (aa : bytea) : Datum Z :=
  let data := BSON_VARDATA aa in
  let sz := VARSIZE_ANY_EXHDR aa in
  let hash := 5381 in
  PG_RETURN (bson_hash_loop (Z.to_nat sz) data hash).

(** The hash as the specification words it: seed 5381, multiplier 33,
    [h_{i+1} = h_i * 33 + byte_i] with 32-bit wrap-around, over the bytes in
    order. *)
Definition spec_hash_step (h : Z) (b : byte) : Z :=
  CInt.int32 (h * 33 + byte.unsigned b).

Definition spec_hash (doc : bytes) : Z := fold_left spec_hash_step doc 5381.

(** The same polynomial without any wrap-around. *)
Definition poly33 (doc : bytes) : Z :=
  fold_left (fun h b => h * 33 + byte.unsigned b) doc 5381.

(* ===================================================================== *)
(** * PostgreSQL: error messages, send buffers, timestamps *)
(* ===================================================================== *)

(** [errmsg(fmt, ...)] as [pgbson.c] calls it, with a format and no further
    argument.  The format is copied, [%%] stands for one percent sign, and
    any other conversion asks for an argument that was never passed: what
    the server prints then is not fixed by [pgbson.c] ([None]). *)
Fixpoint errmsg (fmt : string) : option string :=
  match fmt with
  | EmptyString => Some EmptyString
  | String c rest =>
      if Ascii.eqb c "%" then
        match rest with
        | String c' rest' =>
            if Ascii.eqb c' "%" then option_map (String "%") (errmsg rest')
            else None
        | EmptyString => None
        end
      else option_map (String c) (errmsg rest)
  end.

(** [ereport(ERROR, (errcode(code), errmsg(fmt)))]: control leaves the
    function. *)
Definition ereport_ERROR {A : Type} (code : sqlerrcode) (msg : option string)
  : result A :=
  Raise (mkError code msg).

(** [StringInfoData] ([lib/stringinfo.h]): [data] is the buffer the pointer
    field designates. *)
Record StringInfoData : Type := mkStringInfoData {
  si_data : bytes;
  si_len : Z;
  si_maxlen : Z;
  si_cursor : Z
}.

(** A [StringInfo] is a pointer to a [StringInfoData].  Reading a field
    ([buf->len]) reads [buf_struct]; reading bytes through the pointer
    itself (the cast of [buf] to a byte pointer) reads [buf_mem], the
    memory that holds the structure and what follows it. *)
Record StringInfo : Type := mkStringInfo {
  buf_struct : StringInfoData;
  buf_mem : bytes
}.

(** The image of a [StringInfoData] on an LP64 little-endian machine: the
    [data] pointer, then the three [int] fields, then padding and the
    memory that follows ([rest]). *)
Definition StringInfoData_image (data_addr : Z) (s : StringInfoData)
  (rest : bytes) : bytes :=
  le_split 8 data_addr ++ le_split 4 (si_len s) ++ le_split 4 (si_maxlen s)
    ++ le_split 4 (si_cursor s) ++ rest.

(** Modelled from the spec: [pq_begintypsend], [pq_sendbytes] and
    [pq_endtypsend] are the server's ([libpq/pqformat.h]), absent from src/.
    In section 6 the framing is left to the transport, which "may prepend
    its own length headers": the buffer starts with [VARHDRSZ] reserved
    bytes, the payload is appended, and the finished buffer is a varlena
    whose header takes the reserved bytes. *)
Definition pq_begintypsend : StringInfoData :=
  mkStringInfoData (repeat x00 (Z.to_nat VARHDRSZ)) VARHDRSZ 1024 0.

Definition pq_sendbytes (buf : StringInfoData) (data : bytes) (datalen : Z)
  : StringInfoData :=
  mkStringInfoData (si_data buf ++ memcpy data datalen)
    (si_len buf + datalen) (si_maxlen buf) (si_cursor buf).

Definition pq_endtypsend (buf : StringInfoData) : bytea :=
  firstn (Z.to_nat (si_len buf - VARHDRSZ))
    (skipn (Z.to_nat VARHDRSZ) (si_data buf)).

(** [struct tm] and [struct pg_tm], the fields [pgbson.c] touches. *)
Record tm : Type := mk_tm {
  tm_sec : Z; tm_min : Z; tm_hour : Z; tm_mday : Z; tm_mon : Z; tm_year : Z
}.

Definition Timestamp := Z.
Definition fsec_t := Z.

Module Calendar.

(** Days since 1970-01-01 to the proleptic Gregorian (year, month, day),
    years numbered astronomically (year 0 is 1 BC). *)
Definition civil_from_days (z : Z) : Z * Z * Z :=
  let z := z + 719468 in
  let era := z / 146097 in
  let doe := z - era * 146097 in
  let yoe := (doe - doe / 1460 + doe / 36524 - doe / 146096) / 365 in
  let y := yoe + era * 400 in
  let doy := doe - (365 * yoe + yoe / 4 - yoe / 100) in
  let mp := (5 * doy + 2) / 153 in
  let d := doy - (153 * mp + 2) / 5 + 1 in
  let m := if mp <? 10 then mp + 3 else mp - 9 in
  (if m <=? 2 then y + 1 else y, m, d).

(** Modelled from the spec: [gmtime] is the C library's, absent from src/.
    By section 4.3 the whole seconds are mapped "through standard calendar
    (year/month/day/hour/minute/second) decomposition"; the C library
    counts months from 0 and years from 1900. *)
Definition gmtime (t : Z) : tm :=
  let days := t / 86400 in
  let rem := t mod 86400 in
  let '(y, m, d) := civil_from_days days in
  mk_tm (rem mod 60) ((rem / 60) mod 60) (rem / 3600) d (m - 1) (y - 1900).

Definition POSTGRES_EPOCH_JDATE : Z := 2451545.
Definition UNIX_EPOCH_JDATE : Z := 2440588.
Definition USECS_PER_DAY : Z := 86400000000.
Definition USECS_PER_SEC : Z := 1000000.
Definition MIN_TIMESTAMP : Z := -211813488000000000.
Definition END_TIMESTAMP : Z := 9223371331200000000.

Definition IS_VALID_JULIAN (y m d : Z) : bool :=
  ((-4713 <? y) || ((y =? -4713) && (11 <=? m)))
  && ((y <? 5874898) || ((y =? 5874898) && (m <? 6))).

Definition IS_VALID_TIMESTAMP (t : Z) : bool :=
  (MIN_TIMESTAMP <=? t) && (t <? END_TIMESTAMP).

(** Modelled from the spec: [date2j], [time2t] and [tm2timestamp] are the
    server's ([utils/adt/timestamp.c], [datetime.c]), absent from src/.
    By section 4.3 the broken-down time is mapped to "the host's timestamp
    representation", microseconds counted from 2000-01-01.  C division
    truncates ([Z.quot]); [int64] sums wrap. *)
Definition date2j (year month day : Z) : Z :=
  let '(month, year) :=
    if 2 <? month then (month + 1, year + 4800)
    else (month + 13, year + 4799) in
  let century := Z.quot year 100 in
  let julian := year * 365 - 32167 in
  let julian := julian + (Z.quot year 4 - century + Z.quot century 4) in
  julian + (Z.quot (7834 * month) 256 + day).

Definition time2t (hour min sec : Z) (fsec : fsec_t) : Z :=
  (((hour * 60) + min) * 60 + sec) * USECS_PER_SEC + fsec.

(** [tm2timestamp(tm, fsec, NULL, &result)]: the return code and what is
    left in [*result]. *)
Definition tm2timestamp (t : tm) (fsec : fsec_t) : Z * Timestamp :=
  if negb (IS_VALID_JULIAN (tm_year t) (tm_mon t) (tm_mday t)) then (-1, 0)
  else
    let date := date2j (tm_year t) (tm_mon t) (tm_mday t)
                - POSTGRES_EPOCH_JDATE in
    let time := time2t (tm_hour t) (tm_min t) (tm_sec t) fsec in
    let result := CInt.int64 (date * USECS_PER_DAY + time) in
    if negb (Z.quot (CInt.int64 (result - time)) USECS_PER_DAY =? date)
    then (-1, 0)
    else if ((result <? 0) && (0 <? date)) || ((0 <? result) && (date <? -1))
    then (-1, 0)
    else if negb (IS_VALID_TIMESTAMP result) then (-1, 0)
    else (0, result).

End Calendar.

(* ===================================================================== *)
(** * libbson: documents *)
(* ===================================================================== *)

(** The fields of [bson_t] the code relies on: [b->len] and the bytes
    [bson_get_data(b)] points to. *)
Record bson_t : Type := mk_bson_t {
  bson_len : Z;
  bson_data : bytes
}.

Definition bson_get_data (b : bson_t) : bytes := bson_data b.

Definition INT_MAX : Z := 2147483647.

(** The byte at index [i], when the pointer's allocation reaches it. *)
Definition byte_at (p : bytes) (i : Z) : option byte :=
  if i <? 0 then None else nth_error p (Z.to_nat i).

(** Modelled from the spec: [bson_init_static] is libbson's, absent from
    src/.  Section 4.1: "Validates that the declared internal length is
    consistent with length"; section 3: the first four bytes hold the total
    length.  libbson also wants at least five bytes and a final zero byte. *)
Definition bson_header_ok (data : bytes) (length : Z) : bool :=
  negb ((length <? 5) || (INT_MAX <? length))
  && (le_combine (firstn 4 data) =? length)
  && match byte_at data (length - 1) with
     | Some c => Byte.eqb c x00
     | None => false
     end.

(** [bson_init_static(&b, data, length)]: the return code and the content
    of [b] afterwards.  On failure [b] keeps what it held: for a [bson_t]
    declared on the stack, whatever was there ([b_uninit]). *)
Definition bson_init_static (b_uninit : bson_t) (data : bytes) (length : Z)
  : bool * bson_t :=
  if bson_header_ok data length then (true, mk_bson_t length data)
  else (false, b_uninit).

(** A byte string that is a document: [bson_init_static] accepts it. *)
Definition is_document (d : bytea) : Prop :=
  bson_header_ok (BSON_VARDATA d) (VARSIZE_ANY_EXHDR d) = true.

(** [memcmp(p, q, n)]: the difference of the first bytes that differ among
    the first [n]; C fixes its sign only. *)
Fixpoint memcmp (p q : bytes) (n : nat) : Z :=
  match n, p, q with
  | S n', a :: p', b :: q' =>
      if Byte.eqb a b then memcmp p' q' n'
      else byte.unsigned a - byte.unsigned b
  | _, _, _ => 0
  end.

(** Modelled from the spec: [bson_compare] is libbson's, absent from src/.
    What section 4.5 asks for is "a deterministic total order over
    documents"; libbson compares the bytes that follow the length header as
    [memcmp] does and lets the shorter document come first when one is a
    prefix of the other.  Equal lengths return the [memcmp] value itself,
    different lengths -1 or 1. *)
Definition bson_compare (bson other : bson_t) : Z :=
  let data1 := skipn 4 (bson_get_data bson) in
  let len1 := bson_len bson - 4 in
  let data2 := skipn 4 (bson_get_data other) in
  let len2 := bson_len other - 4 in
  if len1 =? len2 then memcmp data1 data2 (Z.to_nat len1)
  else
    let ret := memcmp data1 data2 (Z.to_nat (Z.min len1 len2)) in
    let ret := if ret =? 0 then len1 - len2 else ret in
    if ret <? 0 then -1 else if 0 <? ret then 1 else 0.

(** Modelled from the spec: [bson_equal] is libbson's, absent from src/.
    By section 4.5 it is "exact byte-for-byte equality of the encoded
    form"; libbson computes it as [!bson_compare(bson, other)]. *)
Definition bson_equal (bson other : bson_t) : bool :=
  bson_compare bson other =? 0.

(** [bson_type_t] ([bson-types.h]). *)
Inductive bson_type_t : Type :=
| BSON_TYPE_EOD | BSON_TYPE_DOUBLE | BSON_TYPE_UTF8 | BSON_TYPE_DOCUMENT
| BSON_TYPE_ARRAY | BSON_TYPE_BINARY | BSON_TYPE_UNDEFINED | BSON_TYPE_OID
| BSON_TYPE_BOOL | BSON_TYPE_DATE_TIME | BSON_TYPE_NULL | BSON_TYPE_REGEX
| BSON_TYPE_DBPOINTER | BSON_TYPE_CODE | BSON_TYPE_SYMBOL
| BSON_TYPE_CODEWSCOPE | BSON_TYPE_INT32 | BSON_TYPE_TIMESTAMP
| BSON_TYPE_INT64 | BSON_TYPE_DECIMAL128 | BSON_TYPE_MAXKEY
| BSON_TYPE_MINKEY.

Definition bson_type_eq_dec (a b : bson_type_t) : {a = b} + {a <> b}.
Proof. decide equality. Defined.

Definition bson_type_eqb (a b : bson_type_t) : bool :=
  if bson_type_eq_dec a b then true else false.

(** [bson_error_t], as far as [pgbson.c] reads it. *)
Record bson_error_t : Type := mk_bson_error_t {
  error_domain : Z;
  error_code : Z;
  message : string
}.

(** The remaining entry points of libbson that [pgbson.c] calls.  They are
    kept abstract: the code is verified for every behaviour of theirs.

    A function that returns [bool] and fills an out-parameter on success is
    an [option]; a pointer that may be NULL is an [option bytes]. *)
Class LibBson : Type := {
  bson_iter_t : Type;
  bson_decimal128_t : Type;
  bson_iter_init : bson_t -> option bson_iter_t;
  bson_iter_find_descendant : bson_iter_t -> string -> option bson_iter_t;
  bson_iter_type : bson_iter_t -> bson_type_t;
  (** [bson_iter_utf8(&it, &len)]: the length and the pointer returned. *)
  bson_iter_utf8 : bson_iter_t -> Z * bytes;
  bson_iter_int32 : bson_iter_t -> Z;
  bson_iter_int64 : bson_iter_t -> Z;
  (** A [double] is carried as its 64 bits; [pgbson.c] only passes it on. *)
  bson_iter_double : bson_iter_t -> Z;
  bson_iter_date_time : bson_iter_t -> Z;
  bson_iter_decimal128 : bson_iter_t -> option bson_decimal128_t;
  (** [bson_iter_document(&it, &len, &data)]: [len] and [data]. *)
  bson_iter_document : bson_iter_t -> Z * option bytes;
  bson_iter_array : bson_iter_t -> Z * option bytes;
  (** [bson_iter_binary(&it, &subtype, &len, &data)]. *)
  bson_iter_binary : bson_iter_t -> Z * Z * bytes;
  (** The text [bson_decimal128_to_string] writes, without its NUL. *)
  bson_decimal128_to_string : bson_decimal128_t -> string;
  bson_new_from_json : string -> Z -> bson_t + bson_error_t;
  bson_as_relaxed_extended_json : bson_t -> option string;
  _bson_iso8601_date_format : Z -> string
}.

(** What [pgbson.c] calls in the server and the C library beyond the
    functions modelled above. *)
Class PgHost : Type := {
  Numeric : Type;
  (** [numeric_in(str, typelem, typmod)]. *)
  numeric_in : string -> Z -> Z -> Numeric;
  (** [sprintf] with the formats [%lf], [%d], [%lld] and [%02x]. *)
  sprintf_lf : Z -> string;
  sprintf_d : Z -> string;
  sprintf_lld : Z -> string;
  sprintf_02x : byte -> string
}.

(* ===================================================================== *)
(** * pgbson.c *)
(* ===================================================================== *)

(** In every function below, a parameter named [.._uninit] stands for the
    content of a [bson_t] declared on the stack ("bson_t b; // on stack")
    before [bson_init_static] is called on it.  The code never tests the
    return code of [bson_init_static]. *)

(** Lines 61-72.  [mk_text] copies [strlen(cstr)] bytes. *)
Definition mk_text (cstr : bytes) : text := cstring_at cstr.

(** Lines 75-85. *)
Definition mk_cstring (cstr : bytes) : string := cstring_at cstr.

(** Lines 88-106: a new varlena holding [b->len] bytes copied from
    [bson_get_data(b)]. *)
Definition mk_palloc_bytea (b : bson_t) : bytea :=
  memcpy (bson_get_data b) (bson_len b).

(** Lines 110-114. *)
Definition pgbson_version : Datum text :=
  PG_RETURN (mk_text (cstring_ptr "2.1")).

(** Lines 179-193. *)
Definition bson_send (arg : bytea) : Datum bytea :=
  let data := BSON_VARDATA arg in
  let sz := VARSIZE_ANY_EXHDR arg in
  let buf := pq_begintypsend in
  let buf := pq_sendbytes buf data sz in
  PG_RETURN (pq_endtypsend buf).

(** Lines 197-208.  The bytes handed to [bson_init_static] are those at the
    address of the [StringInfoData] itself, not [buf->data]. *)
Definition bson_recv (b_uninit : bson_t) (buf : StringInfo) : Datum bytea :=
  let '(_, b) :=
    bson_init_static b_uninit (buf_mem buf) (si_len (buf_struct buf)) in
  let aa := mk_palloc_bytea b in
  PG_RETURN aa.

(** Lines 215-229. *)
Definition pgbson_compare (b1_uninit b2_uninit : bson_t) (first second : bytea)
  : Datum Z :=
  let '(_, b1) :=
    bson_init_static b1_uninit (BSON_VARDATA first) (VARSIZE_ANY_EXHDR first) in
  let '(_, b2) :=
    bson_init_static b2_uninit (BSON_VARDATA second) (VARSIZE_ANY_EXHDR second) in
  let cmp := bson_compare b1 b2 in
  PG_RETURN cmp.

(** Lines 233-247. *)
Definition bson_binary_equal (b1_uninit b2_uninit : bson_t)
  (first second : bytea) : Datum bool :=
  let '(_, b1) :=
    bson_init_static b1_uninit (BSON_VARDATA first) (VARSIZE_ANY_EXHDR first) in
  let '(_, b2) :=
    bson_init_static b2_uninit (BSON_VARDATA second) (VARSIZE_ANY_EXHDR second) in
  let cmp := bson_equal b1 b2 in
  PG_RETURN cmp.

(** Lines 353, 354 and 366 of [_cvt_datetime_to_ts]:
    [time_t t_unix = millis_since_epoch/1000;]
    [unsigned t_ms = millis_since_epoch%1000;]
    [fsec = t_ms * 1000;] with [fsec_t] an [int32].
    [time_t] has 64 bits; [/] and [%] truncate towards zero. *)
Definition cvt_t_unix (millis_since_epoch : Z) : Z :=
  Z.quot millis_since_epoch 1000.

Definition cvt_t_ms (millis_since_epoch : Z) : Z :=
  CInt.uint32 (Z.rem millis_since_epoch 1000).

Definition cvt_fsec (millis_since_epoch : Z) : fsec_t :=
  CInt.int32 (CInt.uint32 (cvt_t_ms millis_since_epoch * 1000)).

(** Lines 356-364: the broken-down time handed to [tm2timestamp]. *)
Definition cvt_pg_tm (millis_since_epoch : Z) : tm :=
  let unix_tm := Calendar.gmtime (cvt_t_unix millis_since_epoch) in
  mk_tm (tm_sec unix_tm) (tm_min unix_tm) (tm_hour unix_tm)
    (tm_mday unix_tm) (tm_mon unix_tm + 1) (tm_year unix_tm + 1900).

(** Lines 347-371.  The return code of [tm2timestamp] is dropped. *)
Definition _cvt_datetime_to_ts (millis_since_epoch : Z) : Timestamp :=
  let tt := cvt_pg_tm millis_since_epoch in
  let fsec := cvt_fsec millis_since_epoch in
  let '(_, ts) := Calendar.tm2timestamp tt fsec in
  ts.

Section Accessors.

Context {L : LibBson} {P : PgHost}.
Local Open Scope pg_scope.

(** [text_to_cstring]. *)
Definition text_to_cstring (t : text) : string := t.

(** Lines 118-146. *)
Definition bson_in (jsons : string) : Datum bytea :=
  let slen := Z.of_nat (String.length jsons) in
  match bson_new_from_json jsons slen with
  | inl b =>
      let aa := mk_palloc_bytea b in
      PG_RETURN aa
  | inr err =>
      ereport_ERROR ERRCODE_INVALID_JSON_TEXT (errmsg (message err))
  end.

(** Lines 152-175. *)
Definition bson_out (b_uninit : bson_t) (arg : bytea) : Datum string :=
  let data := BSON_VARDATA arg in
  let sz := VARSIZE_ANY_EXHDR arg in
  let '(_, b) := bson_init_static b_uninit data sz in
  match bson_as_relaxed_extended_json b with
  | Some jsons => PG_RETURN (mk_cstring (cstring_ptr jsons))
  | None => PG_RETURN_NULL
  end.

(** Lines 279-303.  The result is [Some target] when the C function
    returns true, [None] when it returns false. *)
Definition _get_bson_iter (b : bson_t) (dotpath : text) (tt : bson_type_t)
  : result (option bson_iter_t) :=
  match bson_iter_init b with
  | None =>
      ereport_ERROR ERRCODE_INVALID_BINARY_REPRESENTATION
        (errmsg "BSON bytes corrupted")
  | Some iter =>
      let c_dotpath := text_to_cstring dotpath in
      match bson_iter_find_descendant iter c_dotpath with
      | Some target =>
          let ft := bson_iter_type target in
          if negb (bson_type_eqb ft tt) then Ok None else Ok (Some target)
      | None => Ok None
      end
  end.

(** Lines 322-344. *)
Definition bson_get_string (b_uninit : bson_t) (aa : bytea) (dotpath : text)
  : Datum text :=
  let '(_, b) :=
    bson_init_static b_uninit (BSON_VARDATA aa) (VARSIZE_ANY_EXHDR aa) in
  found <- _get_bson_iter b dotpath BSON_TYPE_UTF8 ;;
  match found with
  | Some target =>
      let '(len, val) := bson_iter_utf8 target in
      PG_RETURN (mk_text val)
  | None => PG_RETURN_NULL
  end.

(** Lines 375-395. *)
Definition bson_get_datetime (b_uninit : bson_t) (aa : bytea)
  (dotpath : text) : Datum Timestamp :=
  let '(_, b) :=
    bson_init_static b_uninit (BSON_VARDATA aa) (VARSIZE_ANY_EXHDR aa) in
  found <- _get_bson_iter b dotpath BSON_TYPE_DATE_TIME ;;
  match found with
  | Some target =>
      let millis_since_epoch := bson_iter_date_time target in
      let ts := _cvt_datetime_to_ts millis_since_epoch in
      PG_RETURN ts
  | None => PG_RETURN_NULL
  end.

(** [char strbuf[43]] after [bson_decimal128_to_string(&val, strbuf)]:
    the text and its NUL, as far as they land inside the array.  (C would
    write a longer text past the end.) *)
Definition strbuf_size : Z := 43.

Definition decimal128_strbuf (val : bson_decimal128_t) : bytes :=
  firstn (Z.to_nat strbuf_size)
    (cstring_ptr (bson_decimal128_to_string val)).

(** Lines 400-432. *)
Definition bson_get_decimal128 (b_uninit : bson_t) (aa : bytea)
  (dotpath : text) : Datum Numeric :=
  let '(_, b) :=
    bson_init_static b_uninit (BSON_VARDATA aa) (VARSIZE_ANY_EXHDR aa) in
  found <- _get_bson_iter b dotpath BSON_TYPE_DECIMAL128 ;;
  match found with
  | Some target =>
      match bson_iter_decimal128 target with
      | Some val =>
          let strbuf := decimal128_strbuf val in
          let nm := numeric_in (cstring_at strbuf) 0 (-1) in
          PG_RETURN nm
      | None => PG_RETURN_NULL
      end
  | None => PG_RETURN_NULL
  end.

(** Lines 437-492.  [subdoc_data] starts as the null pointer. *)
Definition bson_get_bson (b_uninit b2_uninit : bson_t) (aa : bytea)
  (dotpath : text) : Datum bytea :=
  let '(_, b) :=
    bson_init_static b_uninit (BSON_VARDATA aa) (VARSIZE_ANY_EXHDR aa) in
  let c_dotpath := text_to_cstring dotpath in
  match bson_iter_init b with
  | None =>
      ereport_ERROR ERRCODE_INVALID_BINARY_REPRESENTATION
        (errmsg "BSON bytes corrupted")
  | Some iter =>
      match bson_iter_find_descendant iter c_dotpath with
      | Some target =>
          let ft := bson_iter_type target in
          let '(subdoc_len, subdoc_data) :=
            match ft with
            | BSON_TYPE_DOCUMENT => bson_iter_document target
            | BSON_TYPE_ARRAY => bson_iter_array target
            | _ => (0, None)
            end in
          match subdoc_data with
          | Some data =>
              let '(_, b2) := bson_init_static b2_uninit data subdoc_len in
              let aa := mk_palloc_bytea b2 in
              PG_RETURN aa
          | None => PG_RETURN_NULL
          end
      | None => PG_RETURN_NULL
      end
  end.

(** Lines 497-512. *)
Definition bson_get_double (b_uninit : bson_t) (aa : bytea) (dotpath : text)
  : Datum Z :=
  let '(_, b) :=
    bson_init_static b_uninit (BSON_VARDATA aa) (VARSIZE_ANY_EXHDR aa) in
  found <- _get_bson_iter b dotpath BSON_TYPE_DOUBLE ;;
  match found with
  | Some target =>
      let dbl := bson_iter_double target in
      PG_RETURN dbl
  | None => PG_RETURN_NULL
  end.

(** Lines 515-530. *)
Definition bson_get_int32 (b_uninit : bson_t) (aa : bytea) (dotpath : text)
  : Datum Z :=
  let '(_, b) :=
    bson_init_static b_uninit (BSON_VARDATA aa) (VARSIZE_ANY_EXHDR aa) in
  found <- _get_bson_iter b dotpath BSON_TYPE_INT32 ;;
  match found with
  | Some target =>
      let val := bson_iter_int32 target in
      PG_RETURN val
  | None => PG_RETURN_NULL
  end.

(** Lines 533-548. *)
Definition bson_get_int64 (b_uninit : bson_t) (aa : bytea) (dotpath : text)
  : Datum Z :=
  let '(_, b) :=
    bson_init_static b_uninit (BSON_VARDATA aa) (VARSIZE_ANY_EXHDR aa) in
  found <- _get_bson_iter b dotpath BSON_TYPE_INT64 ;;
  match found with
  | Some target =>
      let val := bson_iter_int64 target in
      PG_RETURN val
  | None => PG_RETURN_NULL
  end.

(** Lines 551-580.  The subtype is read into a local and not used. *)
Definition bson_get_binary (b_uninit : bson_t) (aa : bytea) (dotpath : text)
  : Datum bytea :=
  let '(_, b) :=
    bson_init_static b_uninit (BSON_VARDATA aa) (VARSIZE_ANY_EXHDR aa) in
  found <- _get_bson_iter b dotpath BSON_TYPE_BINARY ;;
  match found with
  | Some target =>
      let '(subtype, len, data) := bson_iter_binary target in
      let aa2 := memcpy data len in
      PG_RETURN aa2
  | None => PG_RETURN_NULL
  end.

(** Lines 687-699: "\x" and two hexadecimal digits for each byte. *)
Definition hex_dump (data : bytes) (len : Z) : string :=
  String "\" (String "x"
    (fold_right (fun c s => sprintf_02x c ++ s)%string EmptyString
       (memcpy data len))).

(** [char valbuf[64]] after [sprintf(valbuf, ...)] or
    [bson_decimal128_to_string(&val, valbuf)]: the text and its NUL, as
    far as they land inside the array.  (C would write a longer text past
    the end.) *)
Definition valbuf_size : Z := 64.

Definition valbuf_holding (s : string) : bytes :=
  firstn (Z.to_nat valbuf_size) (cstring_ptr s).

(** Lines 650-653: [valbuf] after
    [bson_strncpy (valbuf, str->str, str->len); valbuf[str->len] = 0],
    [str] holding the text [s]. *)
Definition valbuf_after_strncpy (s : string) : bytes :=
  let str_str := cstring_ptr s in
  let str_len := Z.of_nat (String.length s) in
  firstn (Z.to_nat valbuf_size) (bson_strncpy str_str str_len ++ [x00]).

(** Lines 589-722.  [txt] is [None] for the null pointer.  A NULL
    [subdoc_data], which libbson never returns for an element of the
    matching type, lets the initialisation fail here where libbson would
    assert. *)
Definition bson_as_text (b_uninit b2_uninit : bson_t) (aa : bytea)
  (dotpath : text) : Datum text :=
  let '(_, b) :=
    bson_init_static b_uninit (BSON_VARDATA aa) (VARSIZE_ANY_EXHDR aa) in
  match bson_iter_init b with
  | None =>
      ereport_ERROR ERRCODE_INVALID_BINARY_REPRESENTATION
        (errmsg "BSON bytes corrupted")
  | Some iter =>
      let c_dotpath := text_to_cstring dotpath in
      let txt : option bytes :=
        match bson_iter_find_descendant iter c_dotpath with
        | Some target =>
            let ft := bson_iter_type target in
            match ft with
            | BSON_TYPE_UTF8 =>
                let '(len, val) := bson_iter_utf8 target in Some val
            | BSON_TYPE_DOUBLE =>
                Some (valbuf_holding (sprintf_lf (bson_iter_double target)))
            | BSON_TYPE_INT32 =>
                Some (valbuf_holding (sprintf_d (bson_iter_int32 target)))
            | BSON_TYPE_INT64 =>
                Some (valbuf_holding (sprintf_lld (bson_iter_int64 target)))
            | BSON_TYPE_DECIMAL128 =>
                match bson_iter_decimal128 target with
                | Some val =>
                    Some (valbuf_holding (bson_decimal128_to_string val))
                | None => None
                end
            | BSON_TYPE_DATE_TIME =>
                let millis_since_epoch := bson_iter_date_time target in
                let str := _bson_iso8601_date_format millis_since_epoch in
                Some (valbuf_after_strncpy str)
            | BSON_TYPE_DOCUMENT | BSON_TYPE_ARRAY =>
                let '(subdoc_len, subdoc_data) :=
                  if bson_type_eqb ft BSON_TYPE_DOCUMENT
                  then bson_iter_document target
                  else bson_iter_array target in
                let '(_, b) :=
                  match subdoc_data with
                  | Some data => bson_init_static b2_uninit data subdoc_len
                  | None => (false, b2_uninit)
                  end in
                option_map cstring_ptr (bson_as_relaxed_extended_json b)
            | BSON_TYPE_BINARY =>
                let '(subtype, len, data) := bson_iter_binary target in
                Some (cstring_ptr (hex_dump data len))
            | _ => None
            end
        | None => None
        end in
      match txt with
      | Some txt => PG_RETURN (mk_text txt)
      | None => PG_RETURN_NULL
      end
  end.

End Accessors.

(* ===================================================================== *)
(** * A reference libbson *)
(* ===================================================================== *)

(** An executable instance of [LibBson] that walks the binary format, used
    to run the code on concrete documents. *)
Module RefBson.

(** Modelled from the spec: [bson_iter_t] and the functions on it are
    libbson's, absent from src/.  Section 3: an element is a "(key,
    type-tag, value-bytes) triple"; section 4.1: the cursor offers
    "firstElement() and next(cursor) for sequential scan".  [raw] is the
    document, [off] the offset of the current element's type byte, [d1],
    [d2], [d3] offsets inside its value, [next_off] the offset of the
    next element. *)
Record iter : Type := mk_iter {
  raw : bytes;
  len : Z;
  off : Z;
  d1 : Z;
  d2 : Z;
  d3 : Z;
  next_off : Z
}.

Definition type_of_byte (c : byte) : option bson_type_t :=
  match byte.unsigned c with
  | 0 => Some BSON_TYPE_EOD | 1 => Some BSON_TYPE_DOUBLE
  | 2 => Some BSON_TYPE_UTF8 | 3 => Some BSON_TYPE_DOCUMENT
  | 4 => Some BSON_TYPE_ARRAY | 5 => Some BSON_TYPE_BINARY
  | 6 => Some BSON_TYPE_UNDEFINED | 7 => Some BSON_TYPE_OID
  | 8 => Some BSON_TYPE_BOOL | 9 => Some BSON_TYPE_DATE_TIME
  | 10 => Some BSON_TYPE_NULL | 11 => Some BSON_TYPE_REGEX
  | 12 => Some BSON_TYPE_DBPOINTER | 13 => Some BSON_TYPE_CODE
  | 14 => Some BSON_TYPE_SYMBOL | 15 => Some BSON_TYPE_CODEWSCOPE
  | 16 => Some BSON_TYPE_INT32 | 17 => Some BSON_TYPE_TIMESTAMP
  | 18 => Some BSON_TYPE_INT64 | 19 => Some BSON_TYPE_DECIMAL128
  | 127 => Some BSON_TYPE_MAXKEY | 255 => Some BSON_TYPE_MINKEY
  | _ => None
  end.

(** The bytes from offset [o] on. *)
Definition at_off (p : bytes) (o : Z) : bytes := skipn (Z.to_nat o) p.

(** Little-endian reads of 4 and 8 bytes at offset [o]. *)
Definition le32_at (p : bytes) (o : Z) : Z := le_combine (firstn 4 (at_off p o)).
Definition le64_at (p : bytes) (o : Z) : Z := le_combine (firstn 8 (at_off p o)).

Definition is_nul_at (p : bytes) (o : Z) : bool :=
  match byte_at p o with
  | Some c => Byte.eqb c x00
  | None => false
  end.

Definition iter_init (b : bson_t) : option iter :=
  if bson_len b <? 5 then None
  else Some (mk_iter (bson_get_data b) (bson_len b) 0 0 0 0 4).

(** The offset just after the first NUL found in [o, len). *)
Fixpoint after_nul (fuel : nat) (p : bytes) (len o : Z) : option Z :=
  match fuel with
  | O => None
  | S fuel' =>
      if o <? len then
        if is_nul_at p o then Some (o + 1)
        else after_nul fuel' p len (o + 1)
      else None
  end.

(** Where the element that starts at [o] (after its key) ends, with the
    offsets [d2] and [d3]; [None] when the value does not fit.  The
    deprecated types DBPointer and code-with-scope are not covered. *)
Definition value_extent (p : bytes) (len o : Z) (ty : bson_type_t)
  : option (Z * Z * Z) :=
  match ty with
  | BSON_TYPE_DATE_TIME | BSON_TYPE_DOUBLE | BSON_TYPE_INT64
  | BSON_TYPE_TIMESTAMP => Some (o + 8, 0, 0)
  | BSON_TYPE_CODE | BSON_TYPE_SYMBOL | BSON_TYPE_UTF8 =>
      if len <=? o + 4 then None
      else
        let l := le32_at p o in
        if len - (o + 4) <? l then None
        else if (l =? 0) || (len <=? o + 4 + l) then None
        else if negb (is_nul_at p (o + 4 + l - 1)) then None
        else Some (o + 4 + l, o + 4, 0)
  | BSON_TYPE_BINARY =>
      if len - 4 <=? o then None
      else
        let l := le32_at p o in
        if len - o - 4 <=? l then None
        else if (byte.unsigned (nth (Z.to_nat (o + 4)) p x00) =? 2)
                && ((l <? 4) || negb (le32_at p (o + 5) + 4 =? l))
        then None
        else Some (o + 5 + l, o + 4, o + 5)
  | BSON_TYPE_ARRAY | BSON_TYPE_DOCUMENT =>
      if len <=? o + 4 then None
      else
        let l := le32_at p o in
        if (len <? l) || (len - o <? l) then None
        else Some (o + l, o + 4, 0)
  | BSON_TYPE_OID => Some (o + 12, 0, 0)
  | BSON_TYPE_BOOL =>
      if len <=? o then None
      else if 1 <? byte.unsigned (nth (Z.to_nat o) p x00) then None
      else Some (o + 1, 0, 0)
  | BSON_TYPE_REGEX =>
      match after_nul (List.length p) p len o with
      | Some o2 =>
          match after_nul (List.length p) p len o2 with
          | Some o3 => Some (o3, o2, 0)
          | None => None
          end
      | None => None
      end
  | BSON_TYPE_INT32 => Some (o + 4, 0, 0)
  | BSON_TYPE_DECIMAL128 => Some (o + 16, 0, 0)
  | BSON_TYPE_MAXKEY | BSON_TYPE_MINKEY | BSON_TYPE_NULL
  | BSON_TYPE_UNDEFINED => Some (o, 0, 0)
  | BSON_TYPE_DBPOINTER | BSON_TYPE_CODEWSCOPE | BSON_TYPE_EOD => None
  end.

(** [bson_iter_next]: the cursor on the next element, [None] at the end
    of the document or when the bytes do not parse. *)
Definition iter_next (it : iter) : option iter :=
  let p := raw it in
  let o0 := next_off it in
  match after_nul (List.length p) p (len it) (o0 + 1) with
  | None => None
  | Some o =>
      match byte_at p o0 with
      | None => None
      | Some tag =>
          match type_of_byte tag with
          | None => None
          | Some ty =>
              match value_extent p (len it) o ty with
              | None => None
              | Some (next, d2', d3') =>
                  if len it <=? next then None
                  else Some (mk_iter p (len it) o0 o d2' d3' next)
              end
          end
      end
  end.

Definition iter_type (it : iter) : bson_type_t :=
  match byte_at (raw it) (off it) with
  | Some tag =>
      match type_of_byte tag with
      | Some ty => ty
      | None => BSON_TYPE_EOD
      end
  | None => BSON_TYPE_EOD
  end.

(** [bson_iter_key]: a pointer to the key, a C string. *)
Definition iter_key (it : iter) : bytes := at_off (raw it) (off it + 1).

(** Advance until the element's key is [key]. *)
Fixpoint find_key (fuel : nat) (it : iter) (key : string) : option iter :=
  match fuel with
  | O => None
  | S fuel' =>
      match iter_next it with
      | None => None
      | Some it' =>
          if String.eqb (cstring_at (iter_key it')) key then Some it'
          else find_key fuel' it' key
      end
  end.

(** [bson_iter_recurse]: a cursor on the embedded document or array. *)
Definition iter_recurse (it : iter) : option iter :=
  match iter_type it with
  | BSON_TYPE_DOCUMENT | BSON_TYPE_ARRAY =>
      let p := at_off (raw it) (d1 it) in
      Some (mk_iter p (le32_at p 0) 0 0 0 0 4)
  | _ => None
  end.

(** The path up to its first dot, and what follows the dot if there is
    one. *)
Fixpoint split_dot (dotkey : string) : string * option string :=
  match dotkey with
  | EmptyString => (EmptyString, None)
  | String "." rest => (EmptyString, Some rest)
  | String c rest =>
      let '(seg, tail) := split_dot rest in (String c seg, tail)
  end.

(** Modelled from the spec: [bson_iter_find_descendant] is libbson's,
    absent from src/.  Section 4.2: "split the path on [.]; ... for
    each segment, scan the current level's elements for a matching key
    ...; if the matched element's type is itself Document or Array,
    descend into it ..., otherwise (this was the last segment) return
    it." *)
Fixpoint find_descendant (fuel : nat) (it : iter) (dotkey : string)
  : option iter :=
  match fuel with
  | O => None
  | S fuel' =>
      let '(seg, tail) := split_dot dotkey in
      match find_key (List.length (raw it)) it seg with
      | None => None
      | Some found =>
          match tail with
          | None => Some found
          | Some rest =>
              match iter_recurse found with
              | Some child => find_descendant fuel' child rest
              | None => None
              end
          end
      end
  end.

Definition iter_find_descendant (it : iter) (dotkey : string) : option iter :=
  find_descendant (S (String.length dotkey)) it dotkey.

Definition holds (it : iter) (ty : bson_type_t) : bool :=
  bson_type_eqb (iter_type it) ty.

Definition iter_int32 (it : iter) : Z :=
  if holds it BSON_TYPE_INT32 then CInt.int32 (le32_at (raw it) (d1 it))
  else 0.

Definition iter_int64 (it : iter) : Z :=
  if holds it BSON_TYPE_INT64 then CInt.int64 (le64_at (raw it) (d1 it))
  else 0.

Definition iter_double (it : iter) : Z :=
  if holds it BSON_TYPE_DOUBLE then le64_at (raw it) (d1 it) else 0.

Definition iter_date_time (it : iter) : Z :=
  if holds it BSON_TYPE_DATE_TIME then CInt.int64 (le64_at (raw it) (d1 it))
  else 0.

Definition iter_utf8 (it : iter) : Z * bytes :=
  if holds it BSON_TYPE_UTF8
  then (Z.max 0 (le32_at (raw it) (d1 it) - 1), at_off (raw it) (d2 it))
  else (0, []).

(** A decimal128 as its low and high 64-bit words. *)
Definition decimal128 : Type := Z * Z.

Definition iter_decimal128 (it : iter) : option decimal128 :=
  if holds it BSON_TYPE_DECIMAL128
  then Some (le64_at (raw it) (d1 it), le64_at (raw it) (d1 it + 8))
  else None.

Definition iter_document (it : iter) : Z * option bytes :=
  if holds it BSON_TYPE_DOCUMENT
  then (le32_at (raw it) (d1 it), Some (at_off (raw it) (d1 it)))
  else (0, None).

Definition iter_array (it : iter) : Z * option bytes :=
  if holds it BSON_TYPE_ARRAY
  then (le32_at (raw it) (d1 it), Some (at_off (raw it) (d1 it)))
  else (0, None).

(** Subtype 2, the deprecated binary, carries a second length in front of
    its bytes; libbson steps over it. *)
Definition iter_binary (it : iter) : Z * Z * bytes :=
  if holds it BSON_TYPE_BINARY then
    let subtype := byte.unsigned (nth (Z.to_nat (d2 it)) (raw it) x00) in
    let l := le32_at (raw it) (d1 it) in
    if subtype =? 2 then (subtype, l - 4, at_off (raw it) (d3 it + 4))
    else (subtype, l, at_off (raw it) (d3 it))
  else (0, 0, []).

End RefBson.

(** A reference JSON codec for a fragment of extended JSON: objects,
    arrays, strings without escapes, integers, [true], [false], [null].
    The values that extended JSON writes with a type wrapper (date, binary,
    decimal128, double) are part of [jvalue], so that documents holding
    them can be built; the parser does not read the wrappers. *)
Module RefJson.

Local Open Scope string_scope.

Inductive jvalue : Type :=
| JObject (members : list (string * jvalue))
| JArray (items : list jvalue)
| JString (s : string)
| JInteger (z : Z)
| JBool (b : bool)
| JNull
| JDateTime (millis : Z)
| JBinary (subtype : Z) (payload : bytes)
| JDecimal128 (low high : Z)
| JDouble (bits : Z).

Definition dquote : ascii := "034"%char.

(** A parse error: the position and the character found there, [None] at
    the end of the text. *)
Definition perror : Type := Z * option ascii.

Definition presult (A : Type) : Type := (A * string * Z) + perror.

Definition stuck_at (s : string) (pos : Z) : perror :=
  match s with
  | EmptyString => (pos, None)
  | String c _ => (pos, Some c)
  end.

Definition stuck {A : Type} (s : string) (pos : Z) : presult A :=
  inr (stuck_at s pos).

Definition is_space (c : ascii) : bool :=
  Ascii.eqb c " " || Ascii.eqb c "009" || Ascii.eqb c "010"
  || Ascii.eqb c "013".

Definition is_digit (c : ascii) : bool :=
  (48 <=? nat_of_ascii c)%nat && (nat_of_ascii c <=? 57)%nat.

Fixpoint skip_ws (s : string) (pos : Z) : string * Z :=
  match s with
  | String c rest => if is_space c then skip_ws rest (pos + 1) else (s, pos)
  | EmptyString => (s, pos)
  end.

(** The characters up to the closing quote. *)
Fixpoint string_body (s : string) (pos : Z) : presult string :=
  match s with
  | EmptyString => inr (pos, None)
  | String c rest =>
      if Ascii.eqb c dquote then inl (EmptyString, rest, pos + 1)
      else if Ascii.eqb c "\" then inr (pos, Some c)
      else
        match string_body rest (pos + 1) with
        | inl (body, rest', pos') => inl (String c body, rest', pos')
        | inr e => inr e
        end
  end.

Fixpoint digits (s : string) (pos : Z) : string * string * Z :=
  match s with
  | String c rest =>
      if is_digit c then
        let '(ds, rest', pos') := digits rest (pos + 1) in
        (String c ds, rest', pos')
      else (EmptyString, s, pos)
  | EmptyString => (EmptyString, s, pos)
  end.

Definition number (negative : bool) (s : string) (pos : Z) : presult jvalue :=
  let '(ds, rest, pos') := digits s pos in
  match NilZero.uint_of_string ds with
  | Some u =>
      let n := Z.of_uint u in
      inl (JInteger (if negative then - n else n), rest, pos')
  | None => stuck s pos
  end.

(** The literal [lit], the first character of which was read already. *)
Fixpoint literal (lit : string) (v : jvalue) (s : string) (pos : Z)
  : presult jvalue :=
  match lit with
  | EmptyString => inl (v, s, pos)
  | String c lit' =>
      match s with
      | String c' rest =>
          if Ascii.eqb c c' then literal lit' v rest (pos + 1)
          else stuck s pos
      | EmptyString => stuck s pos
      end
  end.

Section Containers.

(** The parser of one value, supplied by [value] below. *)
Variable pv : string -> Z -> presult jvalue.

(** Members after the opening brace or a comma. *)
Fixpoint members (fuel : nat) (s : string) (pos : Z)
  (acc : list (string * jvalue)) : presult (list (string * jvalue)) :=
  match fuel with
  | O => stuck s pos
  | S fuel' =>
      let '(s, pos) := skip_ws s pos in
      match s with
      | String c rest =>
          if Ascii.eqb c dquote then
            match string_body rest (pos + 1) with
            | inr e => inr e
            | inl (key, s, pos) =>
                let '(s, pos) := skip_ws s pos in
                match s with
                | String ":"%char rest =>
                    match pv rest (pos + 1) with
                    | inr e => inr e
                    | inl (v, s, pos) =>
                        let '(s, pos) := skip_ws s pos in
                        match s with
                        | String ","%char rest =>
                            members fuel' rest (pos + 1) (acc ++ [(key, v)])%list
                        | String "}"%char rest =>
                            inl ((acc ++ [(key, v)])%list, rest, pos + 1)
                        | _ => stuck s pos
                        end
                    end
                | _ => stuck s pos
                end
            end
          else stuck s pos
      | EmptyString => stuck s pos
      end
  end.

(** Items after the opening bracket or a comma. *)
Fixpoint items (fuel : nat) (s : string) (pos : Z) (acc : list jvalue)
  : presult (list jvalue) :=
  match fuel with
  | O => stuck s pos
  | S fuel' =>
      match pv s pos with
      | inr e => inr e
      | inl (v, s, pos) =>
          let '(s, pos) := skip_ws s pos in
          match s with
          | String ","%char rest => items fuel' rest (pos + 1) (acc ++ [v])%list
          | String "]"%char rest => inl ((acc ++ [v])%list, rest, pos + 1)
          | _ => stuck s pos
          end
      end
  end.

End Containers.

Fixpoint value (fuel : nat) (s : string) (pos : Z) : presult jvalue :=
  match fuel with
  | O => stuck s pos
  | S fuel' =>
      let '(s, pos) := skip_ws s pos in
      match s with
      | EmptyString => inr (pos, None)
      | String c rest =>
          if Ascii.eqb c "{" then
            match skip_ws rest (pos + 1) with
            | (String "}"%char rest', pos') => inl (JObject [], rest', pos' + 1)
            | (s', pos') =>
                match members (value fuel') fuel' s' pos' [] with
                | inl (ms, s'', pos'') => inl (JObject ms, s'', pos'')
                | inr e => inr e
                end
            end
          else if Ascii.eqb c "[" then
            match skip_ws rest (pos + 1) with
            | (String "]"%char rest', pos') => inl (JArray [], rest', pos' + 1)
            | (s', pos') =>
                match items (value fuel') fuel' s' pos' [] with
                | inl (vs, s'', pos'') => inl (JArray vs, s'', pos'')
                | inr e => inr e
                end
            end
          else if Ascii.eqb c dquote then
            match string_body rest (pos + 1) with
            | inl (str, s', pos') => inl (JString str, s', pos')
            | inr e => inr e
            end
          else if Ascii.eqb c "-" then number true rest (pos + 1)
          else if is_digit c then number false s pos
          else if Ascii.eqb c "t" then literal "rue" (JBool true) rest (pos + 1)
          else if Ascii.eqb c "f" then literal "alse" (JBool false) rest (pos + 1)
          else if Ascii.eqb c "n" then literal "ull" JNull rest (pos + 1)
          else inr (pos, Some c)
      end
  end.

(** A whole text: one object and nothing after it. *)
Definition parse (text : string) : list (string * jvalue) + perror :=
  let '(s0, pos0) := skip_ws text 0 in
  match s0 with
  | String "{"%char _ =>
      match value (S (String.length text)) text 0 with
      | inl (JObject ms, rest, pos) =>
          match skip_ws rest pos with
          | (EmptyString, _) => inl ms
          | (String c _, pos') => inr (pos', Some c)
          end
      | inl (_, _, _) => inr (pos0, None)
      | inr e => inr e
      end
  | _ => inr (stuck_at s0 pos0)
  end.

End RefJson.

(** Modelled from the spec: [bson_decimal128_to_string] is libbson's
    ([bson-decimal128.c]), absent from src/.  Section 4.3: "a canonical
    decimal string representation (bounded to 43 characters)".  This is
    the string conversion of the decimal128 format, for a value given by
    its low and high 64-bit words: a sign; [Infinity] or [NaN]; otherwise
    the digits of the coefficient, at most 34 of them (a coefficient above
    [10^34 - 1] is not canonical and reads as zero), in plain notation
    when the exponent is 0, with a decimal point when it is negative and
    the scientific exponent at least -6, in scientific notation
    otherwise. *)
Module Decimal128.

(** The character of the last decimal digit of [z]. *)
Definition digit (z : Z) : ascii :=
  ascii_of_nat (48 + Z.to_nat (z mod 10)).

(** The decimal digits of [z], the highest first, at most [width] of
    them. *)
Fixpoint digits (width : nat) (z : Z) : string :=
  match width with
  | O => EmptyString
  | S width' =>
      if z <? 10 then String (digit z) EmptyString
      else (digits width' (z / 10) ++ String (digit z) EmptyString)%string
  end.

Fixpoint zeros (count : nat) : string :=
  match count with
  | O => EmptyString
  | S count' => String "0" (zeros count')
  end.

(** The digits [from, from + count) of [s]. *)
Definition sub_digits (s : string) (from count : Z) : string :=
  substring (Z.to_nat from) (Z.to_nat count) s.

(** The largest canonical coefficient: 34 digits. *)
Definition coefficient_max : Z := 10 ^ 34 - 1.

(** The biased exponent and the coefficient, for a value that is
    neither an infinity nor a NaN. *)
Definition fields (low high : Z) : Z * Z :=
  let combination := Z.land (Z.shiftr high 58) 31 in
  let '(biased, coefficient) :=
    if Z.shiftr combination 3 =? 3
    then (Z.land (Z.shiftr high 47) 16383, 0)
    else (Z.land (Z.shiftr high 49) 16383,
          Z.land high (2 ^ 49 - 1) * 2 ^ 64 + low) in
  (biased,
   if (0 <=? coefficient) && (coefficient <=? coefficient_max)
   then coefficient else 0).

(** The digits [ds] of the coefficient with the exponent applied. *)
Definition notation (ds : string) (exponent : Z) : string :=
  let n := Z.of_nat (String.length ds) in
  let scientific_exponent := n - 1 + exponent in
  if (scientific_exponent <? -6) || (0 <? exponent) then
    (sub_digits ds 0 1
     ++ (if (1 <? n)%Z then "." ++ sub_digits ds 1 (n - 1)%Z else "")
     ++ "E" ++ (if (scientific_exponent <? 0)%Z then "-" else "+")
     ++ digits 4 (Z.abs scientific_exponent))%string
  else if 0 <=? exponent then ds
  else
    let radix_position := n + exponent in
    if 0 <? radix_position then
      (sub_digits ds 0 radix_position ++ "."
       ++ sub_digits ds radix_position (n - radix_position)%Z)%string
    else ("0." ++ zeros (Z.to_nat (- radix_position)%Z) ++ ds)%string.

Definition to_string (v : Z * Z) : string :=
  let '(low, high) := v in
  let sign := (if Z.testbit high 63 then "-" else "")%string in
  let combination := Z.land (Z.shiftr high 58) 31 in
  if (Z.shiftr combination 3 =? 3) && (combination =? 30)
  then (sign ++ "Infinity")%string
  else if (Z.shiftr combination 3 =? 3) && (combination =? 31)
  then "NaN"%string
  else
    let '(biased, coefficient) := fields low high in
    (sign ++ notation (digits 34 coefficient) (biased - 6176)%Z)%string.

End Decimal128.

(** The binary encoding, and the instances that tie the reference library
    together. *)
Module Ref.

Import RefJson.

Definition byte_of (z : Z) : byte := byte.of_Z z.

Definition key_bytes (key : string) : bytes := list_byte_of_string key ++ [x00].

(** A document around the bytes of its elements: the total length in four
    little-endian bytes, the elements, a zero byte. *)
Definition wrap_document (elements : bytes) : bytes :=
  le_split 4 (Z.of_nat (List.length elements) + 5) ++ elements ++ [x00].

Definition decimal (z : Z) : string := NilZero.string_of_int (Z.to_int z).

(** The type byte and the value bytes of a JSON value.  An integer that
    fits 32 bits becomes an int32, another one an int64; the keys of an
    array are its indices in decimal; a binary of the deprecated subtype 2
    repeats its length in front of the payload. *)
Fixpoint encode_value (v : jvalue) : byte * bytes :=
  match v with
  | JInteger z =>
      if (- 2 ^ 31 <=? z) && (z <? 2 ^ 31) then (byte_of 16, le_split 4 z)
      else (byte_of 18, le_split 8 z)
  | JString s =>
      (byte_of 2,
       le_split 4 (Z.of_nat (String.length s) + 1)
         ++ list_byte_of_string s ++ [x00])
  | JBool b => (byte_of 8, [if b then byte_of 1 else x00])
  | JNull => (byte_of 10, [])
  | JDateTime millis => (byte_of 9, le_split 8 millis)
  | JBinary subtype payload =>
      let n := Z.of_nat (List.length payload) in
      (byte_of 5,
       if subtype =? 2
       then le_split 4 (n + 4) ++ [byte_of subtype] ++ le_split 4 n ++ payload
       else le_split 4 n ++ [byte_of subtype] ++ payload)
  | JDecimal128 low high => (byte_of 19, le_split 8 low ++ le_split 8 high)
  | JDouble bits => (byte_of 1, le_split 8 bits)
  | JObject members =>
      (byte_of 3,
       wrap_document
         ((fix encode_members (ms : list (string * jvalue)) : bytes :=
             match ms with
             | [] => []
             | (key, v') :: ms' =>
                 let '(tag, payload) := encode_value v' in
                 tag :: key_bytes key ++ payload ++ encode_members ms'
             end) members))
  | JArray items =>
      (byte_of 4,
       wrap_document
         ((fix encode_items (i : Z) (vs : list jvalue) : bytes :=
             match vs with
             | [] => []
             | v' :: vs' =>
                 let '(tag, payload) := encode_value v' in
                 tag :: key_bytes (decimal i) ++ payload
                   ++ encode_items (i + 1) vs'
             end) 0 items))
  end.

Definition encode_document (members : list (string * jvalue)) : bytes :=
  snd (encode_value (JObject members)).

(** The diagnostic for a text that does not parse.  It quotes the
    offending character and its position, as libbson's does; the reason
    libbson appends is not reproduced. *)
Definition parse_error_message (e : perror) : string :=
  match e with
  | (pos, Some c) =>
      ("Got parse error at " ++ String dquote (String c (String dquote
         (", position " ++ decimal pos))))%string
  | (_, None) => "Incomplete JSON"%string
  end.

(** Modelled from the spec: [bson_new_from_json] is libbson's, absent
    from src/.  Section 4.4: "parse(text) -> Document | ParseError ...
    Any malformed input fails with a diagnostic message". *)
Definition new_from_json (data : string) (len : Z) : bson_t + bson_error_t :=
  match parse data with
  | inl members =>
      let doc := encode_document members in
      inl (mk_bson_t (Z.of_nat (List.length doc)) doc)
  | inr e => inr (mk_bson_error_t 1 1 (parse_error_message e))
  end.

Import RefBson.

Definition quoted (s : string) : string :=
  String dquote (s ++ String dquote EmptyString).

(** The elements that follow [it], rendered and separated by commas;
    [None] when an element is outside the fragment.  [sub] renders an
    embedded document or array. *)
Fixpoint render_elements (sub : iter -> option string) (fuel : nat)
  (it : iter) (with_keys first : bool) : option string :=
  match fuel with
  | O => None
  | S fuel' =>
      match iter_next it with
      | None => Some ""%string
      | Some e =>
          let key := cstring_at (iter_key e) in
          let shown :=
            match iter_type e with
            | BSON_TYPE_INT32 => Some (decimal (iter_int32 e))
            | BSON_TYPE_INT64 => Some (decimal (iter_int64 e))
            | BSON_TYPE_UTF8 => Some (quoted (cstring_at (snd (iter_utf8 e))))
            | BSON_TYPE_BOOL =>
                Some (if is_nul_at (raw e) (d1 e) then "false" else "true")%string
            | BSON_TYPE_NULL => Some "null"%string
            | BSON_TYPE_DOCUMENT | BSON_TYPE_ARRAY => sub e
            | _ => None
            end in
          match shown, render_elements sub fuel' e with_keys false with
          | Some v, Some rest =>
              Some ((if first then "" else ",") ++ " "
                    ++ (if with_keys then quoted key ++ " : " else "")
                    ++ v ++ rest)%string
          | _, _ => None
          end
      end
  end.

Fixpoint render_container (depth : nat) (e : iter) : option string :=
  match depth with
  | O => None
  | S depth' =>
      match iter_recurse e with
      | None => None
      | Some child =>
          let is_array := bson_type_eqb (iter_type e) BSON_TYPE_ARRAY in
          match render_elements (render_container depth')
                  (List.length (raw child)) child (negb is_array) true with
          | Some body =>
              Some ((if is_array then "[" else "{") ++ body ++ " "
                    ++ (if is_array then "]" else "}"))%string
          | None => None
          end
      end
  end.

(** Modelled from the spec: [bson_as_relaxed_extended_json] is
    libbson's, absent from src/.  Section 4.4: "render(document) -> text:
    renders a binary Document back to the relaxed flavor of extended
    JSON". *)
Definition as_relaxed_extended_json (b : bson_t) : option string :=
  match iter_init b with
  | None => None
  | Some it =>
      let depth := List.length (raw it) in
      match render_elements (render_container depth) depth it true true with
      | Some body => Some ("{" ++ body ++ " }")%string
      | None => None
      end
  end.

Definition pad (width : nat) (z : Z) : string :=
  let s := decimal z in
  (string_of_list_ascii (repeat "0"%char (width - String.length s)) ++ s)%string.

(** Modelled from the spec: [_bson_iso8601_date_format] is libbson's,
    absent from src/.  Section 4.4: "DateTime via an ISO-8601
    formatter". *)
Definition iso8601_date_format (msec_since_epoch : Z) : string :=
  let t := Calendar.gmtime (Z.quot msec_since_epoch 1000) in
  let msecs_part := Z.rem msec_since_epoch 1000 in
  (decimal (tm_year t + 1900)%Z ++ "-" ++ pad 2 (tm_mon t + 1)%Z ++ "-"
   ++ pad 2 (tm_mday t) ++ "T" ++ pad 2 (tm_hour t) ++ ":"
   ++ pad 2 (tm_min t) ++ ":" ++ pad 2 (tm_sec t)
   ++ (if (msecs_part =? 0)%Z then "Z" else "." ++ pad 3 msecs_part ++ "Z"))%string.

(** The text libbson writes for a decimal128, given by its low and high
    words. *)
Definition decimal128_to_string (v : decimal128) : string :=
  Decimal128.to_string v.

#[export] Instance lib : LibBson := {|
  bson_iter_t := iter;
  bson_decimal128_t := decimal128;
  bson_iter_init := iter_init;
  bson_iter_find_descendant := iter_find_descendant;
  bson_iter_type := iter_type;
  bson_iter_utf8 := iter_utf8;
  bson_iter_int32 := iter_int32;
  bson_iter_int64 := iter_int64;
  bson_iter_double := iter_double;
  bson_iter_date_time := iter_date_time;
  bson_iter_decimal128 := iter_decimal128;
  bson_iter_document := iter_document;
  bson_iter_array := iter_array;
  bson_iter_binary := iter_binary;
  bson_decimal128_to_string := decimal128_to_string;
  bson_new_from_json := new_from_json;
  bson_as_relaxed_extended_json := as_relaxed_extended_json;
  _bson_iso8601_date_format := iso8601_date_format
|}.

Definition hex_digit (z : Z) : ascii :=
  ascii_of_nat (Z.to_nat (if z <? 10 then 48 + z else 87 + z)).

(** A reference host.  A numeric keeps the decimal text it was read
    from; a double is shown by its 64 bits, the decimal rendering of
    floating point being outside this model. *)
#[export] Instance host : PgHost := {|
  Numeric := string;
  numeric_in := fun str _ _ => str;
  sprintf_lf := fun bits => ("double:" ++ decimal bits)%string;
  sprintf_d := decimal;
  sprintf_lld := decimal;
  sprintf_02x := fun c =>
    String (hex_digit (byte.unsigned c / 16))
      (String (hex_digit (byte.unsigned c mod 16)) EmptyString)
|}.

(** The content of a stack slot before initialisation, for examples. *)
Definition stack_junk : bson_t := mk_bson_t 0 [].

End Ref.

(* ===================================================================== *)
(** * Vocabulary of the statements *)
(* ===================================================================== *)

(** The [bson_t] an accessor works on: what the unchecked
    [bson_init_static] left in the stack slot. *)
Definition stored_view (b_uninit : bson_t) (aa : bytea) : bson_t :=
  snd (bson_init_static b_uninit (BSON_VARDATA aa) (VARSIZE_ANY_EXHDR aa)).

(** The view [bson_init_static] builds over a document. *)
Definition view (d : bytea) : bson_t :=
  mk_bson_t (VARSIZE_ANY_EXHDR d) (BSON_VARDATA d).

(** The error every accessor raises on a buffer it cannot iterate. *)
Definition corrupt_error : ErrorData :=
  mkError ERRCODE_INVALID_BINARY_REPRESENTATION (Some "BSON bytes corrupted"%string).

(** The error a [Datum] carries, if it is one. *)
Definition raised {A : Type} (r : Datum A) : option ErrorData :=
  match r with
  | Raise e => Some e
  | Ok _ => None
  end.

(** The lexicographic comparison of two byte strings, bytes taken as
    unsigned, a proper prefix coming first. *)
Fixpoint lex_compare (p q : bytes) : comparison :=
  match p, q with
  | [], [] => Eq
  | [], _ :: _ => Lt
  | _ :: _, [] => Gt
  | a :: p', b :: q' =>
      if Byte.eqb a b then lex_compare p' q'
      else byte.unsigned a ?= byte.unsigned b
  end.

(** The core of [bson_compare] on two byte strings of known length. *)
Definition compare_bytes (p q : bytes) : Z :=
  let len1 := Z.of_nat (List.length p) in
  let len2 := Z.of_nat (List.length q) in
  if len1 =? len2 then memcmp p q (Z.to_nat len1)
  else
    let ret := memcmp p q (Z.to_nat (Z.min len1 len2)) in
    let ret := if ret =? 0 then len1 - len2 else ret in
    if ret <? 0 then -1 else if 0 <? ret then 1 else 0.

(** A text without percent sign. *)
Fixpoint no_percent (s : string) : bool :=
  match s with
  | EmptyString => true
  | String c rest => negb (Ascii.eqb c "%") && no_percent rest
  end.

(** A text without NUL, as every C string is. *)
Definition nul_free (s : string) : bool :=
  forallb (fun c => negb (Byte.eqb c x00)) (list_byte_of_string s).

(** The milliseconds whose instant the server's timestamp can hold. *)
Definition timestamp_in_range (millis : Z) : Prop :=
  Calendar.MIN_TIMESTAMP <= 1000 * millis - 946684800000000
  < Calendar.END_TIMESTAMP.

(** The timestamp of [millis] split by floor division: whole seconds and
    a remainder in [0, 1000) turned into microseconds, counted from
    2000-01-01 as the server does. *)
Definition floor_split_timestamp (millis : Z) : Timestamp :=
  (millis / 1000 - 946684800) * 1000000 + (millis mod 1000) * 1000.

(** The seven typed accessors and the type each asks for. *)
Inductive typed_accessor : Type :=
| GetString | GetInt32 | GetInt64 | GetDouble | GetDecimal128 | GetDatetime
| GetBinary.

Definition requested_type (acc : typed_accessor) : bson_type_t :=
  match acc with
  | GetString => BSON_TYPE_UTF8
  | GetInt32 => BSON_TYPE_INT32
  | GetInt64 => BSON_TYPE_INT64
  | GetDouble => BSON_TYPE_DOUBLE
  | GetDecimal128 => BSON_TYPE_DECIMAL128
  | GetDatetime => BSON_TYPE_DATE_TIME
  | GetBinary => BSON_TYPE_BINARY
  end.

Section Vocabulary.

Context {L : LibBson} {P : PgHost}.

(** The accessor [acc] returns SQL NULL. *)
Definition returns_null (acc : typed_accessor) (b_uninit : bson_t)
  (aa : bytea) (dotpath : text) : Prop :=
  match acc with
  | GetString => bson_get_string b_uninit aa dotpath = PG_RETURN_NULL
  | GetInt32 => bson_get_int32 b_uninit aa dotpath = PG_RETURN_NULL
  | GetInt64 => bson_get_int64 b_uninit aa dotpath = PG_RETURN_NULL
  | GetDouble => bson_get_double b_uninit aa dotpath = PG_RETURN_NULL
  | GetDecimal128 => bson_get_decimal128 b_uninit aa dotpath = PG_RETURN_NULL
  | GetDatetime => bson_get_datetime b_uninit aa dotpath = PG_RETURN_NULL
  | GetBinary => bson_get_binary b_uninit aa dotpath = PG_RETURN_NULL
  end.

(** The error the accessor [acc] raised, if it raised one. *)
Definition accessor_raised (acc : typed_accessor) (b_uninit : bson_t)
  (aa : bytea) (dotpath : text) : option ErrorData :=
  match acc with
  | GetString => raised (bson_get_string b_uninit aa dotpath)
  | GetInt32 => raised (bson_get_int32 b_uninit aa dotpath)
  | GetInt64 => raised (bson_get_int64 b_uninit aa dotpath)
  | GetDouble => raised (bson_get_double b_uninit aa dotpath)
  | GetDecimal128 => raised (bson_get_decimal128 b_uninit aa dotpath)
  | GetDatetime => raised (bson_get_datetime b_uninit aa dotpath)
  | GetBinary => raised (bson_get_binary b_uninit aa dotpath)
  end.

(** The buffer can be iterated and the path leads to [target]. *)
Definition resolves_to (b : bson_t) (dotpath : text) (target : bson_iter_t)
  : Prop :=
  exists iter, bson_iter_init b = Some iter
    /\ bson_iter_find_descendant iter (text_to_cstring dotpath) = Some target.

(** The buffer can be iterated, and the path leads nowhere or to an
    element of another type than [tt]. *)
Definition no_element_of_type (b : bson_t) (dotpath : text) (tt : bson_type_t)
  : Prop :=
  exists iter, bson_iter_init b = Some iter
    /\ match bson_iter_find_descendant iter (text_to_cstring dotpath) with
       | None => True
       | Some target => bson_iter_type target <> tt
       end.

End Vocabulary.

(** The element types [bson_as_text] has a case for (lines 617-704). *)
Definition as_text_renders (ft : bson_type_t) : bool :=
  match ft with
  | BSON_TYPE_UTF8 | BSON_TYPE_DOUBLE | BSON_TYPE_INT32 | BSON_TYPE_INT64
  | BSON_TYPE_DECIMAL128 | BSON_TYPE_DATE_TIME | BSON_TYPE_DOCUMENT
  | BSON_TYPE_ARRAY | BSON_TYPE_BINARY => true
  | _ => false
  end.

(** A text without its last character. *)
Fixpoint without_last (s : string) : string :=
  match s with
  | EmptyString => EmptyString
  | String c EmptyString => EmptyString
  | String c rest => String c (without_last rest)
  end.

(** The text and its NUL fit [valbuf]. *)
Definition fits_valbuf (s : string) : Prop :=
  Z.of_nat (String.length s) + 1 <= valbuf_size.

(** The renderer reads the [bson_len b] bytes of [b] and nothing behind
    them: a view into a longer buffer renders as the view over a copy of
    its own bytes does. *)
Definition renders_its_own_bytes {L : LibBson} (b : bson_t) : Prop :=
  bson_as_relaxed_extended_json b
  = bson_as_relaxed_extended_json (view (mk_palloc_bytea b)).

(** The element the path leads to in [b], when it is an embedded document
    or array, is one [bson_init_static] accepts. *)
Definition embedded_accepted {L : LibBson} (b : bson_t) (dotpath : text)
  : Prop :=
  forall iter target,
    bson_iter_init b = Some iter ->
    bson_iter_find_descendant iter (text_to_cstring dotpath) = Some target ->
    match bson_iter_type target with
    | BSON_TYPE_DOCUMENT =>
        exists len data,
          bson_iter_document target = (len, Some data)
          /\ bson_header_ok data len = true
    | BSON_TYPE_ARRAY =>
        exists len data,
          bson_iter_array target = (len, Some data)
          /\ bson_header_ok data len = true
    | _ => True
    end.

(** The two hexadecimal digits of every byte of [payload], in order, as the
    host's [sprintf] writes them. *)
Definition hex_digits {P : PgHost} (payload : bytes) : string :=
  fold_right (fun c s => sprintf_02x c ++ s)%string EmptyString payload.

(** Every byte of [payload] is written as two characters, none of them
    NUL. *)
Definition two_digits_each {P : PgHost} (payload : bytes) : bool :=
  forallb (fun c => nul_free (sprintf_02x c)
                    && (String.length (sprintf_02x c) =? 2)%nat) payload.

Module CalendarCheck.

(** Year of era, month and day for a day of era in [0, 146097). *)
Definition civil_of_doe (doe : Z) : Z * Z * Z :=
  let yoe := (doe - doe / 1460 + doe / 36524 - doe / 146096) / 365 in
  let doy := doe - (365 * yoe + yoe / 4 - yoe / 100) in
  let mp := (5 * doy + 2) / 153 in
  let d := doy - (153 * mp + 2) / 5 + 1 in
  let m := if mp <? 10 then mp + 3 else mp - 9 in
  (yoe, m, d).

(** [date2j] for a year counted from the March that opens era -12. *)
Definition julian_of (yoe m d : Z) : Z :=
  let month := if 2 <? m then m + 1 else m + 13 in
  yoe * 365 - 32167 + (yoe / 4 - yoe / 100 + yoe / 100 / 4)
  + (7834 * month / 256 + d).

(** What is checked for every day of one era. *)
Definition era_day_ok (doe : Z) : bool :=
  let '(yoe, m, d) := civil_of_doe doe in
  (julian_of yoe m d =? doe - 32044)
  && (0 <=? yoe) && (yoe <=? 399) && (1 <=? m) && (m <=? 12)
  && (1 <=? d) && (d <=? 31)
  && ((doe <? 32044)
      || Calendar.IS_VALID_JULIAN
           (yoe - 4800 + (if m <=? 2 then 1 else 0)) m d).

(** The days of an era that precede its year [y]; eras start on a first of
    March. *)
Definition days_before_year (y : Z) : Z := 365 * y + y / 4 - y / 100.

(** What [civil_from_days] divides by 365 to find the year of era. *)
Definition year_numerator (doe : Z) : Z :=
  doe - doe / 1460 + doe / 36524 - doe / 146096.

(** The first and the last day of year [y] are sent to [y]. *)
Definition year_ok (y : Z) : bool :=
  (365 * y <=? year_numerator (days_before_year y))
  && (year_numerator (days_before_year (y + 1) - 1) <? 365 * (y + 1))
  && (days_before_year y <? days_before_year (y + 1)).

(** The month number [date2j] works with and the day offset agree for the
    month [mp] counted from March. *)
Definition month_ok (mp : Z) : bool :=
  7834 * (mp + 4) / 256 - (153 * mp + 2) / 5 =? 122.
(** [f] holds on 0, 1, ..., n - 1. *)
Definition all_below_step (f : Z -> bool) (s : Z * bool) : Z * bool :=
  (fst s + 1, snd s && f (fst s)).

Definition all_below (n : positive) (f : Z -> bool) : bool :=
  snd (Pos.iter (all_below_step f) (0, true) n).

(** The days the server's timestamps reach, counted from 1970-01-01. *)
Definition day_in_range (z : Z) : Prop := -2440588 <= z < 106762940.

(** The broken-down time [_cvt_datetime_to_ts] builds from [gmtime]'s. *)
Definition shifted (u : tm) : tm :=
  mk_tm (tm_sec u) (tm_min u) (tm_hour u) (tm_mday u) (tm_mon u + 1)
    (tm_year u + 1900).

End CalendarCheck.

(** Documents and cursors the statements are run on. *)
Module Samples.

Import RefJson.
Local Open Scope string_scope.

(** [{"a": {"b": [10, 20, 30]}}], the document of the specification's
    path-resolution example, built and spelled out. *)
Definition nested : bytea :=
  Ref.encode_document
    [("a", JObject [("b", JArray [JInteger 10; JInteger 20; JInteger 30])])].

Definition nested_bytes : bytea :=
  map byte.of_Z
    [42; 0; 0; 0; 3; 97; 0; 34; 0; 0; 0; 4; 98; 0; 26; 0; 0; 0; 16; 48; 0;
     10; 0; 0; 0; 16; 49; 0; 20; 0; 0; 0; 16; 50; 0; 30; 0; 0; 0; 0; 0; 0].

(** The array [[10, 20, 30]] embedded in it. *)
Definition nested_array : bytea :=
  map byte.of_Z
    [26; 0; 0; 0; 16; 48; 0; 10; 0; 0; 0; 16; 49; 0; 20; 0; 0; 0; 16; 50; 0;
     30; 0; 0; 0; 0].

Definition nested_start : RefBson.iter := RefBson.mk_iter nested 42 0 0 0 0 4.

(** The cursor on [a.b]. *)
Definition nested_array_target : RefBson.iter :=
  RefBson.mk_iter (RefBson.at_off nested 7) 34 4 7 11 0 33.

(** A DateTime half a second before the epoch. *)
Definition dated : bytea := Ref.encode_document [("d", JDateTime (-500))].

Definition dated_target : RefBson.iter := RefBson.mk_iter dated 16 4 7 0 0 15.

(** A binary of the user-defined subtype 128. *)
Definition blob_payload : bytes := [Byte.x01; Byte.x02; Byte.x03].

Definition blob : bytea := Ref.encode_document [("k", JBinary 128 blob_payload)].

Definition blob_target : RefBson.iter := RefBson.mk_iter blob 16 4 7 11 12 15.

(** The decimal128 1.5: coefficient 15, exponent -1. *)
Definition price : bytea :=
  Ref.encode_document [("p", JDecimal128 15 3476215962376601600)].

Definition price_target : RefBson.iter := RefBson.mk_iter price 24 4 7 0 0 23.

(** Three small documents in increasing order. *)
Definition one : bytea := Ref.encode_document [("a", JInteger 1)].
Definition two : bytea := Ref.encode_document [("a", JInteger 2)].
Definition three : bytea := Ref.encode_document [("b", JInteger 1)].

(** The empty document, as a message waiting in a [StringInfo] whose
    buffer sits at an aligned address. *)
Definition empty_document : bytea := Ref.encode_document [].

Definition waiting_struct : StringInfoData :=
  mkStringInfoData empty_document 5 1024 0.

Definition waiting : StringInfo :=
  mkStringInfo waiting_struct
    (StringInfoData_image 139905871352376 waiting_struct (repeat x00 4)).

(** A JSON text written with apostrophes where JSON has double quotes. *)
Fixpoint json (s : string) : string :=
  match s with
  | EmptyString => EmptyString
  | String c rest =>
      String (if Ascii.eqb c "'" then dquote else c) (json rest)
  end.

(** [nested] without its last byte. *)
Definition truncated : bytea := removelast nested.

(** A text that is not JSON, and the diagnostic the reference parser
    gives for it. *)
Definition percent_text : string := "%".

Definition percent_diagnostic : bson_error_t :=
  mk_bson_error_t 1 1 (Ref.parse_error_message (0, Some "%"%char)).

(** A string with a NUL inside: [ab], NUL, [cd]. *)
Definition cut_text : string := "ab" ++ String Ascii.zero "cd".

Definition cut : bytea := Ref.encode_document [("s", JString cut_text)].

Definition cut_target : RefBson.iter := RefBson.mk_iter cut 18 4 7 11 0 17.

(** A boolean and a null. *)
Definition flags : bytea :=
  Ref.encode_document [("t", JBool true); ("n", JNull)].

(** A DateTime far beyond the range of the server's timestamps. *)
Definition far : bytea := Ref.encode_document [("d", JDateTime (2 ^ 62))].

Definition far_target : RefBson.iter := RefBson.mk_iter far 16 4 7 0 0 15.

(** An int64 and the double 1.5, given by its bits. *)
Definition wide : bytea :=
  Ref.encode_document
    [("n", JInteger (2 ^ 40)); ("x", JDouble 4609434218613702656)].

Definition wide_start : RefBson.iter := RefBson.mk_iter wide 27 0 0 0 0 4.

(** A DateTime of 2022: 2022-01-01T12:00:00.123Z. *)
Definition stamped : bytea :=
  Ref.encode_document [("d", JDateTime 1641038400123)].

Definition stamped_target : RefBson.iter :=
  RefBson.mk_iter stamped 16 4 7 0 0 15.

(** The same field holding 256 and holding 1. *)
Definition big : bytea := Ref.encode_document [("a", JInteger 256)].

End Samples.

(* ===================================================================== *)
(* ===================================================================== *)
(** * Part II: what the code does *)
(* ===================================================================== *)
(* ===================================================================== *)

(* ===================================================================== *)
(** * Wrap-around arithmetic *)
(* ===================================================================== *)

Lemma int32_add_l (a b : Z) : CInt.int32 (CInt.int32 a + b) = CInt.int32 (a + b).
Proof.
  unfold CInt.int32, CInt.swrap. f_equal.
  replace ((a + 2 ^ (32 - 1)) mod 2 ^ 32 - 2 ^ (32 - 1) + b + 2 ^ (32 - 1))
    with ((a + 2 ^ (32 - 1)) mod 2 ^ 32 + b) by lia.
  rewrite Z.add_mod_idemp_l by (cbv; discriminate).
  f_equal. lia.
Qed.

Lemma int32_small (z : Z) : CInt.is_int32 z -> CInt.int32 z = z.
Proof.
  unfold CInt.is_int32, CInt.int32, CInt.swrap. intros Hz.
  change (2 ^ (32 - 1)) with 2147483648 in *.
  change (2 ^ 31) with 2147483648 in *.
  change (2 ^ 32) with 4294967296 in *.
  rewrite Z.mod_small; lia.
Qed.

Lemma int32_range (z : Z) : CInt.is_int32 (CInt.int32 z).
Proof.
  unfold CInt.is_int32, CInt.int32, CInt.swrap.
  change (2 ^ (32 - 1)) with 2147483648.
  change (2 ^ 31) with 2147483648.
  change (2 ^ 32) with 4294967296.
  pose proof (Z.mod_pos_bound (z + 2147483648) 4294967296). lia.
Qed.

Lemma int64_small (z : Z) : CInt.is_int64 z -> CInt.int64 z = z.
Proof.
  unfold CInt.is_int64, CInt.int64, CInt.swrap. intros Hz.
  change (2 ^ (64 - 1)) with 9223372036854775808 in *.
  change (2 ^ 63) with 9223372036854775808 in *.
  change (2 ^ 64) with 18446744073709551616 in *.
  rewrite Z.mod_small; lia.
Qed.

Lemma int32_uint32 (z : Z) : CInt.int32 (CInt.uint32 z) = CInt.int32 z.
Proof.
  unfold CInt.int32, CInt.uint32, CInt.swrap, CInt.uwrap. f_equal.
  rewrite Z.add_mod_idemp_l by (cbv; discriminate). reflexivity.
Qed.

Lemma uint32_mul_l (a b : Z) : CInt.uint32 (CInt.uint32 a * b) = CInt.uint32 (a * b).
Proof.
  unfold CInt.uint32, CInt.uwrap.
  rewrite Z.mul_mod_idemp_l by (cbv; discriminate). reflexivity.
Qed.

(* ===================================================================== *)
(** * bson_hash *)
(* ===================================================================== *)

Lemma bson_hash_step_spec (h : Z) (c : byte) :
  bson_hash_step h c = spec_hash_step h c.
Proof.
  unfold bson_hash_step, spec_hash_step, CInt.int_add, CInt.int_shl.
  rewrite Z.shiftl_mul_pow2 by lia.
  rewrite int32_add_l, <- Z.add_assoc, int32_add_l. f_equal.
  change (2 ^ 5) with 32. lia.
Qed.

Lemma bson_hash_loop_fold (data : bytes) (h : Z) :
  bson_hash_loop (List.length data) data h = fold_left spec_hash_step data h.
Proof.
  revert h. induction data as [|c data IH]; intros h; simpl.
  - reflexivity.
  - rewrite bson_hash_step_spec. apply IH.
Qed.

Lemma int32_congruent (a : Z) : exists q, CInt.int32 a = a + 2 ^ 32 * q.
Proof.
  unfold CInt.int32, CInt.swrap.
  exists (- ((a + 2 ^ (32 - 1)) / 2 ^ 32)).
  pose proof (Z.div_mod (a + 2 ^ (32 - 1)) (2 ^ 32)) as Hdm.
  assert (Hnz : 2 ^ 32 <> 0) by (cbv; discriminate).
  specialize (Hdm Hnz). lia.
Qed.

Lemma int32_shift (a q : Z) : CInt.int32 (a + 2 ^ 32 * q) = CInt.int32 a.
Proof.
  unfold CInt.int32, CInt.swrap. f_equal.
  replace (a + 2 ^ 32 * q + 2 ^ (32 - 1)) with (a + 2 ^ (32 - 1) + q * 2 ^ 32) by lia.
  apply Z.mod_add. cbv; discriminate.
Qed.

Lemma int32_mul_add_l (a k c : Z) :
  CInt.int32 (CInt.int32 a * k + c) = CInt.int32 (a * k + c).
Proof.
  destruct (int32_congruent a) as [q ->].
  replace ((a + 2 ^ 32 * q) * k + c) with (a * k + c + 2 ^ 32 * (q * k)) by lia.
  apply int32_shift.
Qed.

Lemma spec_hash_poly_from (data : bytes) (h p : Z) :
  CInt.int32 p = h ->
  fold_left spec_hash_step data h
  = CInt.int32 (fold_left (fun h b => h * 33 + byte.unsigned b) data p).
Proof.
  revert h p. induction data as [|c data IH]; intros h p Hp; simpl.
  - congruence.
  - apply IH. unfold spec_hash_step. subst h.
    symmetry. apply int32_mul_add_l.
Qed.

(** C5.  [bson_hash] returns the polynomial rolling hash with seed 5381 and
    multiplier 33, reduced to 32 bits at every step, over all the bytes of
    the stored document in order; it is the 32-bit reduction of the
    polynomial computed without wrap-around. *)
Theorem bson_hash_is_rolling_hash (aa : bytea) :
  bson_hash aa = PG_RETURN (spec_hash aa)
  /\ spec_hash aa = CInt.int32 (poly33 aa)
  /\ CInt.is_int32 (spec_hash aa).
Proof.
  assert (H1 : bson_hash aa = PG_RETURN (spec_hash aa)).
  { unfold bson_hash, VARSIZE_ANY_EXHDR, BSON_VARDATA, spec_hash.
    rewrite Nat2Z.id, bson_hash_loop_fold. reflexivity. }
  assert (H2 : spec_hash aa = CInt.int32 (poly33 aa)).
  { unfold spec_hash, poly33. apply spec_hash_poly_from.
    apply int32_small. unfold CInt.is_int32. lia. }
  repeat split; try assumption.
  - rewrite H2. apply int32_range.
  - rewrite H2. apply int32_range.
Qed.

(* ===================================================================== *)
(** * Documents and their views *)
(* ===================================================================== *)

Lemma bson_init_static_document (u : bson_t) (d : bytea) :
  is_document d ->
  bson_init_static u (BSON_VARDATA d) (VARSIZE_ANY_EXHDR d) = (true, view d).
Proof.
  unfold is_document, bson_init_static. intros ->. reflexivity.
Qed.

Lemma is_document_length (d : bytea) :
  is_document d -> 5 <= Z.of_nat (List.length d).
Proof.
  unfold is_document, bson_header_ok, VARSIZE_ANY_EXHDR, BSON_VARDATA.
  intros Hd. apply andb_prop in Hd as [Hd _]. apply andb_prop in Hd as [Hd _].
  apply negb_true_iff, orb_false_iff in Hd as [Hd _]. lia.
Qed.

Lemma is_document_header (d : bytea) :
  is_document d -> le_combine (firstn 4 d) = Z.of_nat (List.length d).
Proof.
  unfold is_document, bson_header_ok, VARSIZE_ANY_EXHDR, BSON_VARDATA.
  intros Hd. apply andb_prop in Hd as [Hd _]. apply andb_prop in Hd as [_ Hd].
  lia.
Qed.

(* ===================================================================== *)
(** * memcmp and the order of documents *)
(* ===================================================================== *)

Lemma byte_eqb_refl (a : byte) : Byte.eqb a a = true.
Proof. apply Byte.byte_dec_lb. reflexivity. Qed.

Lemma byte_eqb_sym (a b : byte) : Byte.eqb a b = Byte.eqb b a.
Proof.
  destruct (Byte.eqb a b) eqn:E.
  - apply Byte.byte_dec_bl in E. subst. symmetry. apply byte_eqb_refl.
  - destruct (Byte.eqb b a) eqn:E'; [|reflexivity].
    apply Byte.byte_dec_bl in E'. subst. rewrite byte_eqb_refl in E. discriminate.
Qed.

Lemma byte_neq_unsigned (a b : byte) :
  Byte.eqb a b = false -> byte.unsigned a <> byte.unsigned b.
Proof.
  intros E Hu. apply byte.unsigned_inj in Hu. subst.
  rewrite byte_eqb_refl in E. discriminate.
Qed.

Lemma compare_bytes_cons (a b : byte) (p q : bytes) :
  compare_bytes (a :: p) (b :: q)
  = if Byte.eqb a b then compare_bytes p q
    else if (List.length p =? List.length q)%nat
         then byte.unsigned a - byte.unsigned b
         else if byte.unsigned a - byte.unsigned b <? 0 then -1 else 1.
Proof.
  unfold compare_bytes. cbn [List.length].
  replace (Z.of_nat (S (List.length p)) =? Z.of_nat (S (List.length q)))
    with (Z.of_nat (List.length p) =? Z.of_nat (List.length q))
    by (destruct (Z.eqb_spec (Z.of_nat (List.length p)) (Z.of_nat (List.length q)));
        destruct (Z.eqb_spec (Z.of_nat (S (List.length p))) (Z.of_nat (S (List.length q))));
        try reflexivity; lia).
  replace (Z.to_nat (Z.min (Z.of_nat (S (List.length p))) (Z.of_nat (S (List.length q)))))
    with (S (Z.to_nat (Z.min (Z.of_nat (List.length p)) (Z.of_nat (List.length q)))))
    by lia.
  rewrite !Nat2Z.id. cbn [memcmp].
  replace (Z.of_nat (S (List.length p)) - Z.of_nat (S (List.length q)))
    with (Z.of_nat (List.length p) - Z.of_nat (List.length q)) by lia.
  destruct (Byte.eqb a b) eqn:Eab.
  - reflexivity.
  - pose proof (byte_neq_unsigned a b Eab) as Hne.
    destruct (Z.eqb_spec (Z.of_nat (List.length p)) (Z.of_nat (List.length q))) as [Hl|Hl].
    + replace (List.length p =? List.length q)%nat with true
        by (symmetry; apply Nat.eqb_eq; lia).
      reflexivity.
    + replace (List.length p =? List.length q)%nat with false
        by (symmetry; apply Nat.eqb_neq; lia).
      destruct (Z.eqb_spec (byte.unsigned a - byte.unsigned b) 0); [lia|].
      destruct (Z.ltb_spec (byte.unsigned a - byte.unsigned b) 0); [reflexivity|].
      destruct (Z.ltb_spec 0 (byte.unsigned a - byte.unsigned b)); [reflexivity|lia].
Qed.

(** The sign of [compare_bytes] is the lexicographic comparison. *)
Lemma compare_bytes_sign (p q : bytes) :
  (compare_bytes p q ?= 0) = lex_compare p q.
Proof.
  revert q. induction p as [|a p IH]; intros [|b q].
  - reflexivity.
  - unfold compare_bytes. cbn [List.length].
    destruct (Z.eqb_spec (Z.of_nat 0) (Z.of_nat (S (List.length q)))); [lia|].
    replace (Z.to_nat (Z.min (Z.of_nat 0) (Z.of_nat (S (List.length q))))) with O by lia.
    cbn [memcmp]. change (0 =? 0) with true. cbv iota.
    destruct (Z.ltb_spec (Z.of_nat 0 - Z.of_nat (S (List.length q))) 0); [reflexivity|lia].
  - unfold compare_bytes. cbn [List.length].
    destruct (Z.eqb_spec (Z.of_nat (S (List.length p))) (Z.of_nat 0)); [lia|].
    replace (Z.to_nat (Z.min (Z.of_nat (S (List.length p))) (Z.of_nat 0))) with O by lia.
    cbn [memcmp]. change (0 =? 0) with true. cbv iota.
    destruct (Z.ltb_spec (Z.of_nat (S (List.length p)) - Z.of_nat 0) 0); [lia|].
    destruct (Z.ltb_spec 0 (Z.of_nat (S (List.length p)) - Z.of_nat 0)); [reflexivity|lia].
  - rewrite compare_bytes_cons. cbn [lex_compare].
    destruct (Byte.eqb a b) eqn:Eab; [apply IH|].
    pose proof (byte_neq_unsigned a b Eab) as Hne.
    destruct (List.length p =? List.length q)%nat.
    + destruct (Z.compare_spec (byte.unsigned a) (byte.unsigned b)) as [|Hlt|Hgt];
        [lia| |].
      * apply Z.compare_lt_iff. lia.
      * apply Z.compare_gt_iff. lia.
    + destruct (Z.ltb_spec (byte.unsigned a - byte.unsigned b) 0).
      * symmetry. apply Z.compare_lt_iff. lia.
      * symmetry. apply Z.compare_gt_iff. lia.
Qed.

Lemma lex_compare_refl (p : bytes) : lex_compare p p = Eq.
Proof.
  induction p as [|a p IH]; [reflexivity|].
  cbn [lex_compare]. rewrite byte_eqb_refl. exact IH.
Qed.

Lemma lex_compare_eq (p q : bytes) : lex_compare p q = Eq -> p = q.
Proof.
  revert q. induction p as [|a p IH]; intros [|b q] Hc; cbn [lex_compare] in Hc;
    try reflexivity; try discriminate.
  destruct (Byte.eqb a b) eqn:Eab.
  - apply Byte.byte_dec_bl in Eab. subst. f_equal. apply IH. exact Hc.
  - apply Z.compare_eq in Hc. apply byte_neq_unsigned in Eab. contradiction.
Qed.

Lemma lex_compare_antisym (p q : bytes) :
  lex_compare q p = CompOpp (lex_compare p q).
Proof.
  revert q. induction p as [|a p IH]; intros [|b q]; try reflexivity.
  cbn [lex_compare]. rewrite (byte_eqb_sym b a).
  destruct (Byte.eqb a b); [apply IH|].
  apply Z.compare_antisym.
Qed.

Lemma lex_compare_trans (p q r : bytes) :
  lex_compare p q = Lt -> lex_compare q r = Lt -> lex_compare p r = Lt.
Proof.
  revert q r. induction p as [|a p IH]; intros [|b q] [|c r] Hpq Hqr;
    cbn [lex_compare] in *; try reflexivity; try discriminate.
  destruct (Byte.eqb a b) eqn:Eab; destruct (Byte.eqb b c) eqn:Ebc.
  - apply Byte.byte_dec_bl in Eab, Ebc. subst. rewrite byte_eqb_refl.
    eapply IH; eassumption.
  - apply Byte.byte_dec_bl in Eab. subst. rewrite Ebc. exact Hqr.
  - apply Byte.byte_dec_bl in Ebc. subst. rewrite Eab. exact Hpq.
  - rewrite Z.compare_lt_iff in Hpq, Hqr.
    destruct (Byte.eqb a c) eqn:Eac.
    + apply Byte.byte_dec_bl in Eac. subst. lia.
    + apply Z.compare_lt_iff. lia.
Qed.

(** [bson_compare] on the views of two documents. *)
Lemma bson_compare_views (a b : bytea) :
  is_document a -> is_document b ->
  bson_compare (view a) (view b) = compare_bytes (skipn 4 a) (skipn 4 b).
Proof.
  intros Ha Hb. apply is_document_length in Ha, Hb.
  unfold bson_compare, view, compare_bytes, bson_get_data, VARSIZE_ANY_EXHDR,
    BSON_VARDATA. cbn [bson_len bson_data].
  rewrite !length_skipn.
  replace (Z.of_nat (List.length a - 4)) with (Z.of_nat (List.length a) - 4) by lia.
  replace (Z.of_nat (List.length b - 4)) with (Z.of_nat (List.length b) - 4) by lia.
  reflexivity.
Qed.

Lemma pgbson_compare_documents (u1 u2 : bson_t) (a b : bytea) :
  is_document a -> is_document b ->
  pgbson_compare u1 u2 a b = PG_RETURN (compare_bytes (skipn 4 a) (skipn 4 b)).
Proof.
  intros Ha Hb. unfold pgbson_compare.
  rewrite (bson_init_static_document u1 a Ha), (bson_init_static_document u2 b Hb).
  rewrite bson_compare_views by assumption. reflexivity.
Qed.

Lemma bson_binary_equal_documents (u1 u2 : bson_t) (a b : bytea) :
  is_document a -> is_document b ->
  bson_binary_equal u1 u2 a b
  = PG_RETURN (compare_bytes (skipn 4 a) (skipn 4 b) =? 0).
Proof.
  intros Ha Hb. unfold bson_binary_equal, bson_equal.
  rewrite (bson_init_static_document u1 a Ha), (bson_init_static_document u2 b Hb).
  rewrite bson_compare_views by assumption. reflexivity.
Qed.

(** Two documents that compare equal are the same bytes: the elements by
    [memcmp], the header because it holds the length. *)
Lemma compare_zero_same_bytes (a b : bytea) :
  is_document a -> is_document b ->
  compare_bytes (skipn 4 a) (skipn 4 b) = 0 -> a = b.
Proof.
  intros Ha Hb Hc.
  assert (Hbody : skipn 4 a = skipn 4 b).
  { apply lex_compare_eq. rewrite <- compare_bytes_sign, Hc. reflexivity. }
  assert (Hlen : List.length a = List.length b).
  { pose proof (is_document_length a Ha). pose proof (is_document_length b Hb).
    apply (f_equal (@List.length byte)) in Hbody. rewrite !length_skipn in Hbody. lia. }
  assert (Hhead : firstn 4 a = firstn 4 b).
  { apply le_combine_inj.
    - rewrite !length_firstn. lia.
    - rewrite (is_document_header a Ha), (is_document_header b Hb). lia. }
  rewrite <- (firstn_skipn 4 a), <- (firstn_skipn 4 b). congruence.
Qed.

(** [bson_binary_equal] on documents is equality of their bytes. *)
Lemma bson_binary_equal_iff (u1 u2 : bson_t) (a b : bytea) :
  is_document a -> is_document b ->
  (bson_binary_equal u1 u2 a b = PG_RETURN true <-> a = b).
Proof.
  intros Ha Hb. rewrite bson_binary_equal_documents by assumption. split.
  - intros Heq. apply compare_zero_same_bytes; try assumption.
    unfold PG_RETURN in Heq. injection Heq as Heq. apply Z.eqb_eq. exact Heq.
  - intros ->. f_equal. f_equal. apply Z.eqb_eq.
    apply Z.compare_eq. rewrite compare_bytes_sign. apply lex_compare_refl.
Qed.

(** C4.  When [bson_binary_equal] answers true on two documents, [bson_hash]
    gives them the same hash. *)
Theorem equal_documents_hash_alike (u1 u2 : bson_t) (a b : bytea) :
  is_document a -> is_document b ->
  bson_binary_equal u1 u2 a b = PG_RETURN true ->
  bson_hash a = bson_hash b.
Proof.
  intros Ha Hb Heq. apply bson_binary_equal_iff in Heq; try assumption.
  subst. reflexivity.
Qed.

(** C7.  On documents, [bson_binary_equal d d] is true and
    [pgbson_compare d d] is 0; [pgbson_compare a b] is positive exactly
    when [pgbson_compare b a] is negative; and "less" is transitive, as are
    "greater" and "not greater".  [u i] is what the i-th stack slot held. *)
Theorem pgbson_compare_is_an_order (u : nat -> bson_t) (a b c : bytea) :
  is_document a -> is_document b -> is_document c ->
  bson_binary_equal (u 0%nat) (u 1%nat) a a = PG_RETURN true
  /\ pgbson_compare (u 2%nat) (u 3%nat) a a = PG_RETURN 0
  /\ (exists x y,
        pgbson_compare (u 4%nat) (u 5%nat) a b = PG_RETURN x
        /\ pgbson_compare (u 6%nat) (u 7%nat) b a = PG_RETURN y
        /\ (0 < x <-> y < 0) /\ (x < 0 <-> 0 < y) /\ (x = 0 <-> y = 0))
  /\ (exists x y z,
        pgbson_compare (u 8%nat) (u 9%nat) a b = PG_RETURN x
        /\ pgbson_compare (u 10%nat) (u 11%nat) b c = PG_RETURN y
        /\ pgbson_compare (u 12%nat) (u 13%nat) a c = PG_RETURN z
        /\ (x < 0 -> y < 0 -> z < 0)
        /\ (0 < x -> 0 < y -> 0 < z)
        /\ (x <= 0 -> y <= 0 -> z <= 0)).
Proof.
  intros Ha Hb Hc.
  split; [apply bson_binary_equal_iff; auto|].
  split.
  { rewrite pgbson_compare_documents by assumption. f_equal. f_equal.
    apply Z.compare_eq. rewrite compare_bytes_sign. apply lex_compare_refl. }
  split.
  { exists (compare_bytes (skipn 4 a) (skipn 4 b)),
           (compare_bytes (skipn 4 b) (skipn 4 a)).
    rewrite !pgbson_compare_documents by assumption.
    split; [reflexivity|]. split; [reflexivity|].
    pose proof (compare_bytes_sign (skipn 4 a) (skipn 4 b)) as Hab.
    pose proof (compare_bytes_sign (skipn 4 b) (skipn 4 a)) as Hba.
    rewrite (lex_compare_antisym (skipn 4 a) (skipn 4 b)), <- Hab in Hba.
    destruct (Z.compare_spec (compare_bytes (skipn 4 a) (skipn 4 b)) 0);
      destruct (Z.compare_spec (compare_bytes (skipn 4 b) (skipn 4 a)) 0);
      cbn in Hba; try discriminate; lia. }
  exists (compare_bytes (skipn 4 a) (skipn 4 b)),
         (compare_bytes (skipn 4 b) (skipn 4 c)),
         (compare_bytes (skipn 4 a) (skipn 4 c)).
  rewrite !pgbson_compare_documents by assumption.
  split; [reflexivity|]. split; [reflexivity|]. split; [reflexivity|].
  pose proof (compare_bytes_sign (skipn 4 a) (skipn 4 b)) as Hab.
  pose proof (compare_bytes_sign (skipn 4 b) (skipn 4 c)) as Hbc.
  pose proof (compare_bytes_sign (skipn 4 a) (skipn 4 c)) as Hac.
  assert (Hlt : forall p q r, compare_bytes p q < 0 -> compare_bytes q r < 0 ->
                              compare_bytes p r < 0).
  { intros p q r Hpq Hqr. rewrite <- Z.compare_lt_iff.
    rewrite compare_bytes_sign.
    apply (lex_compare_trans p q r); rewrite <- compare_bytes_sign;
      rewrite Z.compare_lt_iff; assumption. }
  assert (Hopp : forall p q, 0 < compare_bytes p q <-> compare_bytes q p < 0).
  { intros p q.
    pose proof (compare_bytes_sign p q) as H1.
    pose proof (compare_bytes_sign q p) as H2.
    rewrite (lex_compare_antisym p q), <- H1 in H2.
    destruct (Z.compare_spec (compare_bytes p q) 0);
      destruct (Z.compare_spec (compare_bytes q p) 0);
      cbn in H2; try discriminate; lia. }
  assert (Hzero : forall p q, compare_bytes p q = 0 -> p = q).
  { intros p q Hz. apply lex_compare_eq. rewrite <- compare_bytes_sign, Hz.
    reflexivity. }
  split; [apply Hlt|]. split.
  - intros Hx Hy. apply Hopp. apply (Hlt _ (skipn 4 b)); apply Hopp; assumption.
  - intros Hx Hy.
    destruct (Z.eq_dec (compare_bytes (skipn 4 a) (skipn 4 b)) 0) as [Hx0|Hx0].
    + rewrite (Hzero _ _ Hx0). exact Hy.
    + destruct (Z.eq_dec (compare_bytes (skipn 4 b) (skipn 4 c)) 0) as [Hy0|Hy0].
      * rewrite <- (Hzero _ _ Hy0). exact Hx.
      * assert (compare_bytes (skipn 4 a) (skipn 4 c) < 0); [|lia].
        apply (Hlt _ (skipn 4 b)); lia.
Qed.

(* ===================================================================== *)
(** * gmtime and tm2timestamp *)
(* ===================================================================== *)

Module CalendarFacts.
Import Calendar CalendarCheck.

Lemma all_below_nat (f : Z -> bool) (k : nat) :
  fst (Nat.iter k (all_below_step f) (0, true)) = Z.of_nat k
  /\ (snd (Nat.iter k (all_below_step f) (0, true)) = true ->
      forall i, 0 <= i < Z.of_nat k -> f i = true).
Proof.
  induction k as [|k [IHfst IHsnd]].
  - split; [reflexivity|]. intros _ i Hi. lia.
  - rewrite Nat.iter_succ.
    set (s := Nat.iter k (all_below_step f) (0, true)) in *.
    unfold all_below_step. cbn [fst snd].
    split; [lia|].
    intros Hs i Hi. apply andb_prop in Hs as [Hs Hf].
    destruct (Z.eq_dec i (Z.of_nat k)) as [->|Hne].
    + rewrite <- IHfst. exact Hf.
    + apply IHsnd; [exact Hs|lia].
Qed.

Lemma all_below_spec (n : positive) (f : Z -> bool) :
  all_below n f = true -> forall i, 0 <= i < Z.pos n -> f i = true.
Proof.
  unfold all_below. rewrite Pos2Nat.inj_iter. intros Hs i Hi.
  destruct (all_below_nat f (Pos.to_nat n)) as [_ Hall].
  apply Hall; [exact Hs|]. rewrite positive_nat_Z. exact Hi.
Qed.

Lemma years_ok : all_below 400 year_ok = true.
Proof. vm_compute. reflexivity. Qed.

Lemma months_ok : all_below 12 month_ok = true.
Proof. vm_compute. reflexivity. Qed.

(** Before the last day of the era the numerator grows with the day. *)
Lemma year_numerator_monotone (a b : Z) :
  0 <= a <= b -> b < 146096 -> year_numerator a <= year_numerator b.
Proof.
  intros Hab Hb. unfold year_numerator.
  rewrite (Z.div_small a 146096), (Z.div_small b 146096) by lia.
  pose proof (Z.div_le_mono a b 36524 ltac:(lia) ltac:(lia)).
  pose proof (Z.div_mod a 1460 ltac:(lia)).
  pose proof (Z.div_mod b 1460 ltac:(lia)).
  pose proof (Z.mod_pos_bound a 1460 ltac:(lia)).
  pose proof (Z.mod_pos_bound b 1460 ltac:(lia)).
  lia.
Qed.

(** A day before the last one lies in some year of the era. *)
Lemma year_exists (n : nat) (doe : Z) :
  0 <= doe < days_before_year (Z.of_nat n) ->
  exists y, 0 <= y < Z.of_nat n
            /\ days_before_year y <= doe < days_before_year (y + 1).
Proof.
  induction n as [|n IH]; intros Hdoe.
  - unfold days_before_year in Hdoe. cbn in Hdoe. lia.
  - destruct (Z_lt_ge_dec doe (days_before_year (Z.of_nat n))) as [Hlt|Hge].
    + destruct IH as (y & Hy & Hin); [lia|]. exists y. split; [lia|exact Hin].
    + exists (Z.of_nat n). split; [lia|].
      replace (Z.of_nat n + 1) with (Z.of_nat (S n)) by lia. lia.
Qed.

(** The year of era and the day of year of every day of an era. *)
Lemma year_of_era (doe : Z) :
  0 <= doe < 146097 ->
  let yoe := year_numerator doe / 365 in
  0 <= yoe <= 399 /\ 0 <= doe - days_before_year yoe <= 365.
Proof.
  intros Hdoe. cbv zeta.
  destruct (Z.eq_dec doe 146096) as [->|Hlast].
  - vm_compute. repeat split; discriminate.
  - destruct (year_exists 400 doe) as (y & Hy & Hin).
    { change (days_before_year (Z.of_nat 400)) with 146096. lia. }
    change (Z.of_nat 400) with 400 in Hy.
    pose proof (all_below_spec 400 year_ok years_ok y ltac:(lia)) as Hok.
    unfold year_ok in Hok.
    apply andb_prop in Hok as [Hok Hgrow]. apply andb_prop in Hok as [Hlo Hhi].
    assert (Hy1 : days_before_year (y + 1) <= 146096).
    { unfold days_before_year.
      pose proof (Z.div_mod (y + 1) 4 ltac:(lia)).
      pose proof (Z.mod_pos_bound (y + 1) 4 ltac:(lia)).
      pose proof (Z.div_mod (y + 1) 100 ltac:(lia)).
      pose proof (Z.mod_pos_bound (y + 1) 100 ltac:(lia)).
      lia. }
    assert (Hy0 : 0 <= days_before_year y).
    { unfold days_before_year.
      pose proof (Z.div_mod y 4 ltac:(lia)).
      pose proof (Z.mod_pos_bound y 4 ltac:(lia)).
      pose proof (Z.div_mod y 100 ltac:(lia)).
      pose proof (Z.mod_pos_bound y 100 ltac:(lia)).
      lia. }
    pose proof (year_numerator_monotone (days_before_year y) doe
                  ltac:(lia) ltac:(lia)) as Hm1.
    pose proof (year_numerator_monotone doe (days_before_year (y + 1) - 1)
                  ltac:(lia) ltac:(lia)) as Hm2.
    assert (Hyoe : year_numerator doe / 365 = y).
    { symmetry. apply (Z.div_unique _ _ _ (year_numerator doe - 365 * y)); lia. }
    rewrite Hyoe. split; [lia|].
    split; [lia|].
    assert (days_before_year (y + 1) - days_before_year y <= 366); [|lia].
    unfold days_before_year.
    pose proof (Z.div_mod (y + 1) 4 ltac:(lia)).
    pose proof (Z.mod_pos_bound (y + 1) 4 ltac:(lia)).
    pose proof (Z.div_mod y 4 ltac:(lia)).
    pose proof (Z.mod_pos_bound y 4 ltac:(lia)).
    pose proof (Z.div_le_mono y (y + 1) 100 ltac:(lia) ltac:(lia)).
    lia.
Qed.

(** What [civil_of_doe] yields on a day of an era: the date [date2j]
    sends back to that day, valid when the era is the first one the
    server accepts and the day is past the start of its range. *)
Lemma era_day_ok_at (doe : Z) : 0 <= doe < 146097 -> era_day_ok doe = true.
Proof.
  intros Hdoe. pose proof (year_of_era doe Hdoe) as Hyear. cbv zeta in Hyear.
  unfold era_day_ok, civil_of_doe.
  change (doe - doe / 1460 + doe / 36524 - doe / 146096)
    with (year_numerator doe).
  set (yoe := year_numerator doe / 365) in *.
  change (365 * yoe + yoe / 4 - yoe / 100) with (days_before_year yoe).
  destruct Hyear as [Hyoe Hdoy].
  set (doy := doe - days_before_year yoe) in *.
  assert (Hmp : 0 <= (5 * doy + 2) / 153 < 12).
  { split; [apply Z.div_pos; lia|apply Z.div_lt_upper_bound; lia]. }
  pose proof (all_below_spec 12 month_ok months_ok _ Hmp) as Hmonth.
  unfold month_ok in Hmonth. apply Z.eqb_eq in Hmonth.
  set (mp := (5 * doy + 2) / 153) in *.
  assert (Hq : yoe / 100 / 4 = 0).
  { apply Z.div_small. split; [apply Z.div_pos; lia|].
    apply Z.div_lt_upper_bound; lia. }
  assert (Hmonth' : (if 2 <? (if mp <? 10 then mp + 3 else mp - 9)
                     then (if mp <? 10 then mp + 3 else mp - 9) + 1
                     else (if mp <? 10 then mp + 3 else mp - 9) + 13) = mp + 4).
  { destruct (Z.ltb_spec mp 10).
    - destruct (Z.ltb_spec 2 (mp + 3)); lia.
    - destruct (Z.ltb_spec 2 (mp - 9)); lia. }
  assert (Hm : 1 <= (if mp <? 10 then mp + 3 else mp - 9) <= 12)
    by (destruct (Z.ltb_spec mp 10); lia).
  assert (Hd5 : 0 <= (153 * mp + 2) / 5) by (apply Z.div_pos; lia).
  assert (Hjul : julian_of yoe (if mp <? 10 then mp + 3 else mp - 9)
                   (doy - (153 * mp + 2) / 5 + 1) = doe - 32044).
  { unfold julian_of. rewrite Hmonth', Hq.
    unfold doy, days_before_year in *. lia. }
  rewrite Hjul, Z.eqb_refl. cbn [andb].
  assert (Hday : 1 <= doy - (153 * mp + 2) / 5 + 1 <= 31).
  { pose proof (Z.div_mod (5 * doy + 2) 153 ltac:(lia)) as Hdm.
    pose proof (Z.mod_pos_bound (5 * doy + 2) 153 ltac:(lia)).
    fold mp in Hdm.
    pose proof (Z.div_mod (153 * mp + 2) 5 ltac:(lia)).
    pose proof (Z.mod_pos_bound (153 * mp + 2) 5 ltac:(lia)).
    lia. }
  repeat (apply andb_true_intro; split); try (apply Z.leb_le; lia).
  destruct (Z.ltb_spec doe 32044) as [|Hstart]; [reflexivity|]. cbn [orb].
  assert (Hy87 : 87 <= yoe).
  { unfold doy, days_before_year in Hdoy.
    pose proof (Z.div_mod yoe 4 ltac:(lia)).
    pose proof (Z.mod_pos_bound yoe 4 ltac:(lia)).
    pose proof (Z.div_pos yoe 100 ltac:(lia) ltac:(lia)).
    lia. }
  unfold IS_VALID_JULIAN.
  apply andb_true_intro. split.
  - destruct (Z.eq_dec yoe 87) as [H87|H87].
    + assert (Hdoy87 : 268 <= doy).
      { unfold doy. rewrite H87. change (days_before_year 87) with 31776. lia. }
      assert (Hmp8 : 8 <= mp).
      { unfold mp. apply Z.div_le_lower_bound; lia. }
      rewrite H87.
      destruct (Z.ltb_spec mp 10).
      * destruct (Z.leb_spec (mp + 3) 2); [lia|].
        replace (87 - 4800 + 0) with (-4713) by lia.
        apply orb_true_intro. right.
        apply andb_true_intro. split; [reflexivity|apply Z.leb_le; lia].
      * destruct (Z.leb_spec (mp - 9) 2); [|lia].
        apply orb_true_intro. left. reflexivity.
    + apply orb_true_intro. left. apply Z.ltb_lt.
      destruct ((if mp <? 10 then mp + 3 else mp - 9) <=? 2); lia.
  - apply orb_true_intro. left. apply Z.ltb_lt.
    destruct ((if mp <? 10 then mp + 3 else mp - 9) <=? 2); lia.
Qed.

Lemma civil_from_days_eq (z : Z) :
  civil_from_days z
  = let era := (z + 719468) / 146097 in
    let '(yoe, m, d) := civil_of_doe ((z + 719468) mod 146097) in
    (yoe + era * 400 + (if m <=? 2 then 1 else 0), m, d).
Proof.
  unfold civil_from_days, civil_of_doe. cbv zeta.
  rewrite (Z.mod_eq (z + 719468) 146097) by lia.
  replace (z + 719468 - 146097 * ((z + 719468) / 146097))
    with (z + 719468 - (z + 719468) / 146097 * 146097) by lia.
  set (doe := z + 719468 - (z + 719468) / 146097 * 146097).
  set (yoe := (doe - doe / 1460 + doe / 36524 - doe / 146096) / 365).
  set (doy := doe - (365 * yoe + yoe / 4 - yoe / 100)).
  set (mp := (5 * doy + 2) / 153).
  destruct ((if mp <? 10 then mp + 3 else mp - 9) <=? 2); f_equal; f_equal; lia.
Qed.

Lemma era_quotients (yoe e : Z) :
  (yoe + e * 400) / 4 = yoe / 4 + e * 100
  /\ (yoe + e * 400) / 100 = yoe / 100 + e * 4
  /\ (yoe + e * 400) / 100 / 4 = yoe / 100 / 4 + e.
Proof.
  assert (H4 : (yoe + e * 400) / 4 = yoe / 4 + e * 100).
  { replace (yoe + e * 400) with (yoe + (e * 100) * 4) by lia.
    apply Z.div_add. lia. }
  assert (H100 : (yoe + e * 400) / 100 = yoe / 100 + e * 4).
  { replace (yoe + e * 400) with (yoe + (e * 4) * 100) by lia.
    apply Z.div_add. lia. }
  repeat split; try assumption.
  rewrite H100. apply Z.div_add. lia.
Qed.

(** Shifting the year by whole eras shifts the Julian day by whole eras. *)
Lemma date2j_era (yoe m d e : Z) :
  0 <= yoe -> 0 <= e -> 1 <= m <= 12 ->
  date2j (yoe + (e - 12) * 400 + (if m <=? 2 then 1 else 0)) m d
  = julian_of yoe m d + 146097 * e.
Proof.
  intros Hy He Hm. unfold date2j, julian_of.
  destruct (Z.ltb_spec 2 m) as [H2|H2].
  - destruct (Z.leb_spec m 2) as [H2'|_]; [lia|].
    replace (yoe + (e - 12) * 400 + 0 + 4800) with (yoe + e * 400) by lia.
    rewrite (Z.quot_div_nonneg (yoe + e * 400) 100) by lia.
    rewrite (Z.quot_div_nonneg (yoe + e * 400) 4) by lia.
    rewrite (Z.quot_div_nonneg ((yoe + e * 400) / 100) 4)
      by (try apply Z.div_pos; lia).
    destruct (era_quotients yoe e) as (Hq4 & Hq100 & Hq400).
    rewrite Hq400, Hq4, Hq100.
    rewrite (Z.quot_div_nonneg (7834 * _) 256) by lia.
    lia.
  - destruct (Z.leb_spec m 2) as [_|H2']; [|lia].
    replace (yoe + (e - 12) * 400 + 1 + 4799) with (yoe + e * 400) by lia.
    rewrite (Z.quot_div_nonneg (yoe + e * 400) 100) by lia.
    rewrite (Z.quot_div_nonneg (yoe + e * 400) 4) by lia.
    rewrite (Z.quot_div_nonneg ((yoe + e * 400) / 100) 4)
      by (try apply Z.div_pos; lia).
    destruct (era_quotients yoe e) as (Hq4 & Hq100 & Hq400).
    rewrite Hq400, Hq4, Hq100.
    rewrite (Z.quot_div_nonneg (7834 * _) 256) by lia.
    lia.
Qed.

(** [date2j] inverts [civil_from_days], and the date passes
    [IS_VALID_JULIAN]. *)
Lemma date2j_civil_from_days (z : Z) :
  day_in_range z ->
  let '(y, m, d) := civil_from_days z in
  date2j y m d = z + UNIX_EPOCH_JDATE /\ IS_VALID_JULIAN y m d = true.
Proof.
  unfold day_in_range, UNIX_EPOCH_JDATE. intros Hz.
  rewrite civil_from_days_eq. cbv zeta.
  pose proof (Z.mod_pos_bound (z + 719468) 146097 ltac:(lia)) as Hdoe.
  pose proof (Z.div_mod (z + 719468) 146097 ltac:(lia)) as Hdm.
  pose proof (era_day_ok_at _ Hdoe) as Hok. unfold era_day_ok in Hok.
  set (doe := (z + 719468) mod 146097) in *.
  set (era := (z + 719468) / 146097) in *.
  destruct (civil_of_doe doe) as [[yoe m] d].
  repeat (apply andb_prop in Hok as [Hok ?]).
  assert (Hera : -12 <= era <= 735) by lia.
  split.
  - replace (yoe + era * 400) with (yoe + (era + 12 - 12) * 400) by lia.
    rewrite date2j_era by lia. lia.
  - destruct (Z.eq_dec era (-12)) as [He|He].
    + match goal with H : (_ || _) = true |- _ =>
        apply orb_prop in H as [H|H] end.
      * lia.
      * subst era. rewrite He.
        replace (yoe + -12 * 400 + (if m <=? 2 then 1 else 0))
          with (yoe - 4800 + (if m <=? 2 then 1 else 0)) by lia.
        assumption.
    + unfold IS_VALID_JULIAN.
      assert (Hadj : 0 <= (if m <=? 2 then 1 else 0) <= 1)
        by (destruct (m <=? 2); lia).
      apply andb_true_intro. split; apply orb_true_intro; left; lia.
Qed.

(** Hours, minutes and seconds of [gmtime] add up to the second of the
    day. *)
Lemma time2t_gmtime (t : Z) (fsec : fsec_t) :
  let u := gmtime t in
  time2t (tm_hour u) (tm_min u) (tm_sec u) fsec
  = (t mod 86400) * USECS_PER_SEC + fsec.
Proof.
  unfold gmtime, time2t. destruct (civil_from_days (t / 86400)) as [[y m] d].
  cbn [tm_hour tm_min tm_sec]. f_equal. f_equal.
  pose proof (Z.mod_pos_bound t 86400 ltac:(lia)) as Hr.
  set (r := t mod 86400) in *.
  pose proof (Z.div_mod r 60 ltac:(lia)).
  pose proof (Z.div_mod (r / 60) 60 ltac:(lia)).
  replace (r / 3600) with (r / 60 / 60) by (rewrite Z.div_div by lia; reflexivity).
  lia.
Qed.

(** [tm2timestamp] after [gmtime]: the microseconds from 2000-01-01 to
    second [t] of the Unix era, plus [fsec]. *)
Lemma tm2timestamp_gmtime (t : Z) (fsec : fsec_t) :
  day_in_range (t / 86400) ->
  -1000000 < fsec < 1000000 ->
  MIN_TIMESTAMP <= (t - 946684800) * 1000000 + fsec < END_TIMESTAMP ->
  tm2timestamp (shifted (gmtime t)) fsec
  = (0, (t - 946684800) * 1000000 + fsec).
Proof.
  intros Hday Hfsec Hrange.
  pose proof (time2t_gmtime t fsec) as Htime. cbv zeta in Htime.
  pose proof (date2j_civil_from_days (t / 86400) Hday) as Hdate.
  unfold tm2timestamp, shifted. cbn [tm_year tm_mon tm_mday tm_hour tm_min tm_sec].
  rewrite Htime. clear Htime.
  unfold gmtime. destruct (civil_from_days (t / 86400)) as [[y m] d].
  cbn [tm_year tm_mon tm_mday].
  replace (m - 1 + 1) with m by lia.
  replace (y - 1900 + 1900) with y by lia.
  destruct Hdate as [Hj Hvalid]. rewrite Hvalid, Hj. cbn [negb].
  pose proof (Z.mod_pos_bound t 86400 ltac:(lia)) as Hr.
  pose proof (Z.div_mod t 86400 ltac:(lia)) as Hdm.
  unfold day_in_range in Hday.
  unfold UNIX_EPOCH_JDATE, POSTGRES_EPOCH_JDATE, USECS_PER_DAY, USECS_PER_SEC,
    MIN_TIMESTAMP, END_TIMESTAMP in *.
  set (z := t / 86400) in *. set (r := t mod 86400) in *.
  assert (Hres : (z + 2440588 - 2451545) * 86400000000 + (r * 1000000 + fsec)
                 = (t - 946684800) * 1000000 + fsec) by lia.
  rewrite Hres.
  rewrite (int64_small ((t - 946684800) * 1000000 + fsec))
    by (unfold CInt.is_int64; change (2 ^ 63) with 9223372036854775808; lia).
  replace ((t - 946684800) * 1000000 + fsec - (r * 1000000 + fsec))
    with ((z + 2440588 - 2451545) * 86400000000) by lia.
  rewrite int64_small
    by (unfold CInt.is_int64; change (2 ^ 63) with 9223372036854775808; lia).
  rewrite Z.quot_mul by lia. rewrite Z.eqb_refl. cbn [negb].
  unfold IS_VALID_TIMESTAMP, MIN_TIMESTAMP, END_TIMESTAMP.
  set (res := (t - 946684800) * 1000000 + fsec) in *.
  destruct (Z.ltb_spec res 0); destruct (Z.ltb_spec 0 (z + 2440588 - 2451545));
    destruct (Z.ltb_spec 0 res); destruct (Z.ltb_spec (z + 2440588 - 2451545) (-1));
    cbn [andb orb]; try lia;
    destruct (Z.leb_spec (-211813488000000000) res);
    destruct (Z.ltb_spec res 9223371331200000000);
    cbn [andb negb]; try lia; reflexivity.
Qed.
End CalendarFacts.

Import CalendarFacts.

Lemma cvt_fsec_rem (m : Z) : cvt_fsec m = Z.rem m 1000 * 1000.
Proof.
  unfold cvt_fsec, cvt_t_ms.
  rewrite int32_uint32, <- int32_uint32, uint32_mul_l, int32_uint32.
  apply int32_small. unfold CInt.is_int32.
  pose proof (Z.rem_bound_abs m 1000 ltac:(lia)). lia.
Qed.

(** The truncating split and the floor split name the same instant. *)
Lemma trunc_split_is_floor_split (m : Z) :
  (cvt_t_unix m - 946684800) * 1000000 + cvt_fsec m = floor_split_timestamp m.
Proof.
  rewrite cvt_fsec_rem. unfold cvt_t_unix, floor_split_timestamp.
  pose proof (Z.quot_rem' m 1000). pose proof (Z.div_mod m 1000 ltac:(lia)). lia.
Qed.

Lemma floor_split_timestamp_eq (m : Z) :
  floor_split_timestamp m = 1000 * m - 946684800000000.
Proof.
  unfold floor_split_timestamp. pose proof (Z.div_mod m 1000 ltac:(lia)). lia.
Qed.

(** [_cvt_datetime_to_ts] yields the timestamp of the floor split. *)
Lemma cvt_datetime_to_ts_floor (m : Z) :
  timestamp_in_range m -> _cvt_datetime_to_ts m = floor_split_timestamp m.
Proof.
  unfold timestamp_in_range. intros Hrange.
  unfold _cvt_datetime_to_ts, cvt_pg_tm.
  change (mk_tm _ _ _ _ _ _) with (CalendarCheck.shifted (Calendar.gmtime (cvt_t_unix m))).
  pose proof (trunc_split_is_floor_split m) as Hsplit.
  pose proof (floor_split_timestamp_eq m) as Hfloor.
  pose proof (cvt_fsec_rem m) as Hfsec.
  pose proof (Z.rem_bound_abs m 1000 ltac:(lia)) as Hrem.
  pose proof (Z.quot_rem' m 1000) as Hqr.
  assert (Hsign : 0 <= m -> 0 <= Z.rem m 1000)
    by (intros; apply Z.rem_nonneg; lia).
  unfold Calendar.MIN_TIMESTAMP, Calendar.END_TIMESTAMP in Hrange.
  rewrite tm2timestamp_gmtime.
  - exact Hsplit.
  - unfold CalendarCheck.day_in_range, cvt_t_unix in *.
    split.
    + apply Z.div_le_lower_bound; lia.
    + apply Z.div_lt_upper_bound; lia.
  - lia.
  - unfold Calendar.MIN_TIMESTAMP, Calendar.END_TIMESTAMP. lia.
Qed.

(* ===================================================================== *)
(** * errmsg *)
(* ===================================================================== *)

Lemma errmsg_length (fmt out : string) :
  errmsg fmt = Some out -> (String.length out <= String.length fmt)%nat.
Proof.
  remember (String.length fmt) as n eqn:Hn.
  revert fmt out Hn.
  induction n as [n IH] using lt_wf_ind. intros fmt out Hn Hout.
  destruct fmt as [|c rest]; cbn [errmsg] in Hout.
  - injection Hout as <-. cbn. lia.
  - destruct (Ascii.eqb c "%").
    + destruct rest as [|c' rest']; [discriminate|].
      destruct (Ascii.eqb c' "%"); [|discriminate].
      destruct (errmsg rest') as [out'|] eqn:Hrest; [|discriminate].
      cbn [option_map] in Hout. injection Hout as <-.
      cbn [String.length] in *.
      specialize (IH (String.length rest') ltac:(lia) rest' out' eq_refl Hrest).
      lia.
    + destruct (errmsg rest) as [out'|] eqn:Hrest; [|discriminate].
      cbn [option_map] in Hout. injection Hout as <-.
      cbn [String.length] in *.
      specialize (IH (String.length rest) ltac:(lia) rest out' eq_refl Hrest).
      lia.
Qed.

(** [errmsg] hands a format back unchanged exactly when it holds no percent
    sign. *)
Lemma errmsg_verbatim_iff (fmt : string) :
  errmsg fmt = Some fmt <-> no_percent fmt = true.
Proof.
  induction fmt as [|c rest IH]; cbn [errmsg no_percent].
  - split; reflexivity.
  - destruct (Ascii.eqb c "%") eqn:Ec; cbn [negb andb].
    + split; [|discriminate]. intros Hout.
      destruct rest as [|c' rest']; [discriminate|].
      destruct (Ascii.eqb c' "%"); [|discriminate].
      destruct (errmsg rest') as [out'|] eqn:Hrest; [|discriminate].
      cbn [option_map] in Hout. injection Hout as Hout.
      apply errmsg_length in Hrest. subst out'. cbn [String.length] in Hrest. lia.
    + destruct (errmsg rest) as [out'|] eqn:Hrest; cbn [option_map].
      * split.
        -- intros Hout. injection Hout as ->. apply IH. reflexivity.
        -- intros Hnp. apply IH in Hnp. congruence.
      * split; [discriminate|]. intros Hnp. apply IH in Hnp. discriminate.
Qed.

(* ===================================================================== *)
(** * Texts *)
(* ===================================================================== *)

Lemma list_byte_of_string_app (s t : string) :
  list_byte_of_string (s ++ t)
  = (list_byte_of_string s ++ list_byte_of_string t)%list.
Proof.
  unfold list_byte_of_string. rewrite <- map_app. f_equal.
  induction s as [|c s IH]; cbn [append list_ascii_of_string app].
  - reflexivity.
  - rewrite IH. reflexivity.
Qed.

Lemma string_length_app (s t : string) :
  String.length (s ++ t) = (String.length s + String.length t)%nat.
Proof.
  induction s as [|c s IH]; cbn [append String.length]; [reflexivity|].
  rewrite IH. reflexivity.
Qed.

Lemma nul_free_app (s t : string) :
  nul_free (s ++ t) = nul_free s && nul_free t.
Proof. unfold nul_free. rewrite list_byte_of_string_app. apply forallb_app. Qed.

(* ===================================================================== *)
(** * The text of a decimal128 *)
(* ===================================================================== *)

Lemma nul_free_String (c : ascii) (s : string) :
  nul_free (String c s)
  = negb (Byte.eqb (byte_of_ascii c) x00) && nul_free s.
Proof. reflexivity. Qed.

Lemma length_substring (s : string) (from count : nat) :
  (String.length (substring from count s) <= count)%nat.
Proof.
  revert from count. induction s as [|c s IH]; intros [|from] [|count];
    cbn [substring String.length]; try lia.
  - specialize (IH 0%nat count). lia.
  - apply IH.
  - apply IH.
Qed.

Lemma nul_free_substring (s : string) (from count : nat) :
  nul_free s = true -> nul_free (substring from count s) = true.
Proof.
  revert from count. induction s as [|c s IH]; intros [|from] [|count] Hnf;
    cbn [substring]; try reflexivity; try exact Hnf;
    rewrite nul_free_String in Hnf; apply andb_prop in Hnf as [Hc Hs].
  - rewrite nul_free_String, Hc. apply IH. exact Hs.
  - apply IH. exact Hs.
  - apply IH. exact Hs.
Qed.

Module Decimal128Facts.
Import Decimal128.

(** A digit is one of the ten characters from 0 to 9. *)
Lemma nul_free_digit (z : Z) (s : string) :
  nul_free (String (digit z) s) = nul_free s.
Proof.
  rewrite nul_free_String. unfold digit.
  pose proof (Z.mod_pos_bound z 10 ltac:(lia)) as Hd.
  assert (Hk : (Z.to_nat (z mod 10) < 10)%nat) by lia.
  destruct (Z.to_nat (z mod 10)) as [|[|[|[|[|[|[|[|[|[|k]]]]]]]]]];
    try reflexivity.
  lia.
Qed.

Lemma length_digits (width : nat) (z : Z) :
  (String.length (digits width z) <= width)%nat.
Proof.
  revert z. induction width as [|width IH]; intros z; cbn [digits].
  - cbn. lia.
  - destruct (z <? 10); [cbn; lia|].
    rewrite string_length_app. cbn [String.length]. specialize (IH (z / 10)). lia.
Qed.

Lemma nul_free_digits (width : nat) (z : Z) : nul_free (digits width z) = true.
Proof.
  revert z. induction width as [|width IH]; intros z; cbn [digits].
  - reflexivity.
  - destruct (z <? 10).
    + apply nul_free_digit.
    + rewrite nul_free_app, IH, nul_free_digit. reflexivity.
Qed.

Lemma length_zeros (count : nat) : String.length (zeros count) = count.
Proof. induction count as [|count IH]; cbn [zeros String.length]; congruence. Qed.

Lemma nul_free_zeros (count : nat) : nul_free (zeros count) = true.
Proof.
  induction count as [|count IH]; [reflexivity|].
  cbn [zeros]. rewrite nul_free_String, IH. reflexivity.
Qed.

(** The digits of the coefficient with the point or the exponent: seven
    characters more at most. *)
Lemma length_notation (ds : string) (exponent : Z) :
  (String.length (notation ds exponent) <= String.length ds + 7)%nat.
Proof.
  unfold notation.
  set (n := Z.of_nat (String.length ds)).
  destruct (Z.ltb_spec (n - 1 + exponent) (-6)) as [Hsci|Hsci]; cbn [orb].
  2: destruct (Z.ltb_spec 0 exponent) as [Hpos|Hpos].
  1, 2:
    rewrite !string_length_app;
    pose proof (length_substring ds (Z.to_nat 0) (Z.to_nat 1));
    pose proof (length_substring ds (Z.to_nat 1) (Z.to_nat (n - 1)));
    pose proof (length_digits 4 (Z.abs (n - 1 + exponent)));
    unfold sub_digits;
    assert (Hsign : String.length
              (if n - 1 + exponent <? 0 then "-"%string else "+"%string) = 1%nat)
      by (destruct (n - 1 + exponent <? 0); reflexivity);
    rewrite Hsign;
    destruct (Z.ltb_spec 1 n);
      rewrite ?string_length_app; cbn [String.length]; lia.
  destruct (Z.leb_spec 0 exponent) as [_|Hneg]; [lia|].
  destruct (Z.ltb_spec 0 (n + exponent)) as [Hradix|Hradix].
  - rewrite !string_length_app. unfold sub_digits.
    pose proof (length_substring ds (Z.to_nat 0) (Z.to_nat (n + exponent))).
    pose proof (length_substring ds (Z.to_nat (n + exponent))
                  (Z.to_nat (n - (n + exponent)))).
    cbn [String.length]. lia.
  - rewrite !string_length_app, length_zeros. cbn [String.length]. lia.
Qed.

Lemma nul_free_notation (ds : string) (exponent : Z) :
  nul_free ds = true -> nul_free (notation ds exponent) = true.
Proof.
  intros Hnf. unfold notation, sub_digits.
  repeat match goal with
  | |- context [if ?c then _ else _] => destruct c
  end;
  rewrite ?nul_free_app, ?nul_free_substring, ?nul_free_digits, ?nul_free_zeros,
    ?Hnf by exact Hnf; reflexivity.
Qed.

(** Whatever the 128 bits, the text has at most 42 characters: with its
    NUL it fits the 43 bytes of [BSON_DECIMAL128_STRING]. *)
Lemma length_to_string (v : Z * Z) :
  Z.of_nat (String.length (to_string v)) + 1 <= 43.
Proof.
  destruct v as [low high]. unfold to_string.
  assert (Hsign : (String.length
            (if Z.testbit high 63 then "-"%string else ""%string) <= 1)%nat)
    by (destruct (Z.testbit high 63); cbn; lia).
  destruct (_ && _).
  - rewrite string_length_app. cbn [String.length]. lia.
  - destruct (_ && _); [cbn; lia|].
    destruct (fields low high) as [biased coefficient].
    rewrite string_length_app.
    pose proof (length_notation (digits 34 coefficient) (biased - 6176)).
    pose proof (length_digits 34 coefficient). lia.
Qed.

Lemma nul_free_to_string (v : Z * Z) : nul_free (to_string v) = true.
Proof.
  destruct v as [low high]. unfold to_string.
  assert (Hsign : nul_free (if Z.testbit high 63 then "-"%string else ""%string)
                  = true) by (destruct (Z.testbit high 63); reflexivity).
  destruct (_ && _).
  - rewrite nul_free_app, Hsign. reflexivity.
  - destruct (_ && _); [reflexivity|].
    destruct (fields low high) as [biased coefficient].
    rewrite nul_free_app, Hsign, nul_free_notation; [reflexivity|].
    apply nul_free_digits.
Qed.

End Decimal128Facts.

(* ===================================================================== *)
(** * _get_bson_iter *)
(* ===================================================================== *)

Section AccessorFacts.

Context {L : LibBson} {P : PgHost}.

Lemma get_bson_iter_corrupt (b : bson_t) (dotpath : text) (tt : bson_type_t) :
  bson_iter_init b = None ->
  _get_bson_iter b dotpath tt = Raise corrupt_error.
Proof. unfold _get_bson_iter. intros ->. reflexivity. Qed.

Lemma get_bson_iter_absent (b : bson_t) (dotpath : text) (tt : bson_type_t) :
  no_element_of_type b dotpath tt -> _get_bson_iter b dotpath tt = Ok None.
Proof.
  unfold no_element_of_type, _get_bson_iter. intros (iter & -> & Hfind).
  destruct (bson_iter_find_descendant iter (text_to_cstring dotpath))
    as [target|]; [|reflexivity].
  unfold bson_type_eqb.
  destruct (bson_type_eq_dec (bson_iter_type target) tt); [contradiction|].
  reflexivity.
Qed.

Lemma get_bson_iter_found (b : bson_t) (dotpath : text) (tt : bson_type_t)
  (target : bson_iter_t) :
  resolves_to b dotpath target -> bson_iter_type target = tt ->
  _get_bson_iter b dotpath tt = Ok (Some target).
Proof.
  unfold resolves_to, _get_bson_iter. intros (iter & -> & ->) <-.
  unfold bson_type_eqb.
  destruct (bson_type_eq_dec (bson_iter_type target) (bson_iter_type target));
    [reflexivity|contradiction].
Qed.

(** An error of [_get_bson_iter] is the corruption error, on a buffer that
    cannot be iterated. *)
Lemma get_bson_iter_raise (b : bson_t) (dotpath : text) (tt : bson_type_t)
  (e : ErrorData) :
  _get_bson_iter b dotpath tt = Raise e ->
  e = corrupt_error /\ bson_iter_init b = None.
Proof.
  unfold _get_bson_iter.
  destruct (bson_iter_init b) as [iter|].
  - destruct (bson_iter_find_descendant iter (text_to_cstring dotpath));
      [destruct (negb _)|]; discriminate.
  - intros Hr. injection Hr as <-. split; reflexivity.
Qed.

(** Every typed accessor starts the same way. *)
Ltac open_accessor :=
  unfold bson_get_string, bson_get_int32, bson_get_int64, bson_get_double,
    bson_get_decimal128, bson_get_datetime, bson_get_binary, stored_view in *;
  match goal with
  | |- context [bson_init_static ?u ?d ?n] =>
      destruct (bson_init_static u d n) as [rc b]; cbn [snd] in *
  | H : context [bson_init_static ?u ?d ?n] |- _ =>
      destruct (bson_init_static u d n) as [rc b]; cbn [snd] in *
  end.

(** C1.  Whatever the document and the path, a typed accessor returns SQL
    NULL, and raises nothing, when the path leads to no element or to an
    element whose type is not the one the accessor asks for. *)
Theorem typed_accessor_absent_is_null (acc : typed_accessor)
  (b_uninit : bson_t) (aa : bytea) (dotpath : text) :
  no_element_of_type (stored_view b_uninit aa) dotpath (requested_type acc) ->
  returns_null acc b_uninit aa dotpath
  /\ accessor_raised acc b_uninit aa dotpath = None.
Proof.
  intros Habs.
  destruct acc; unfold returns_null, accessor_raised; cbn [requested_type] in Habs;
    open_accessor; rewrite (get_bson_iter_absent _ _ _ Habs);
    split; reflexivity.
Qed.

(** A buffer that [bson_iter_init] rejects makes every typed accessor raise
    the corruption error. *)
Lemma typed_accessor_corrupt (acc : typed_accessor)
  (b_uninit : bson_t) (aa : bytea) (dotpath : text) :
  bson_iter_init (stored_view b_uninit aa) = None ->
  accessor_raised acc b_uninit aa dotpath = Some corrupt_error.
Proof.
  intros Hinit.
  destruct acc; unfold accessor_raised; open_accessor;
    rewrite (get_bson_iter_corrupt _ _ _ Hinit); reflexivity.
Qed.

(** A typed accessor raises nothing else, and only on such a buffer. *)
Lemma typed_accessor_raise (acc : typed_accessor)
  (b_uninit : bson_t) (aa : bytea) (dotpath : text) (e : ErrorData) :
  accessor_raised acc b_uninit aa dotpath = Some e ->
  e = corrupt_error /\ bson_iter_init (stored_view b_uninit aa) = None.
Proof.
  destruct acc; unfold accessor_raised; open_accessor;
    match goal with
    | |- context [_get_bson_iter ?b ?p ?t] =>
        destruct (_get_bson_iter b p t) as [[target|]|e'] eqn:Hget
    end; cbn [bind raised];
    try (intros Hr; injection Hr as <-; eapply get_bson_iter_raise; eassumption);
    try discriminate.
  - destruct (bson_iter_utf8 target); discriminate.
  - destruct (bson_iter_decimal128 target); discriminate.
  - destruct (bson_iter_binary target) as [[? ?] ?]; discriminate.
Qed.

Lemma bson_get_bson_corrupt (u u2 : bson_t) (aa : bytea) (dotpath : text) :
  bson_iter_init (stored_view u aa) = None ->
  bson_get_bson u u2 aa dotpath = Raise corrupt_error.
Proof.
  unfold bson_get_bson, stored_view.
  destruct (bson_init_static u _ _) as [rc b]. cbn [snd]. intros ->. reflexivity.
Qed.

Lemma bson_as_text_corrupt (u u2 : bson_t) (aa : bytea) (dotpath : text) :
  bson_iter_init (stored_view u aa) = None ->
  bson_as_text u u2 aa dotpath = Raise corrupt_error.
Proof.
  unfold bson_as_text, stored_view.
  destruct (bson_init_static u _ _) as [rc b]. cbn [snd]. intros ->. reflexivity.
Qed.

Lemma bson_get_bson_raise (u u2 : bson_t) (aa : bytea) (dotpath : text)
  (e : ErrorData) :
  bson_get_bson u u2 aa dotpath = Raise e ->
  e = corrupt_error /\ bson_iter_init (stored_view u aa) = None.
Proof.
  unfold bson_get_bson, stored_view.
  destruct (bson_init_static u _ _) as [rc b]. cbn [snd].
  destruct (bson_iter_init b) as [iter|].
  - destruct (bson_iter_find_descendant iter _) as [target|]; [|discriminate].
    destruct (match bson_iter_type target with
              | BSON_TYPE_DOCUMENT => bson_iter_document target
              | BSON_TYPE_ARRAY => bson_iter_array target
              | _ => (0, None)
              end) as [len [data|]]; [|discriminate].
    destruct (bson_init_static u2 data len). discriminate.
  - intros Hr. injection Hr as <-. split; reflexivity.
Qed.

Lemma bson_as_text_raise (u u2 : bson_t) (aa : bytea) (dotpath : text)
  (e : ErrorData) :
  bson_as_text u u2 aa dotpath = Raise e ->
  e = corrupt_error /\ bson_iter_init (stored_view u aa) = None.
Proof.
  unfold bson_as_text, stored_view.
  destruct (bson_init_static u _ _) as [rc b]. cbn [snd].
  destruct (bson_iter_init b) as [iter|].
  - match goal with |- context [match ?t with Some _ => PG_RETURN _ | None => _ end] =>
      destruct t end; discriminate.
  - intros Hr. injection Hr as <-. split; reflexivity.
Qed.

(** [bson_in] raises when, and only when, the parser fails; the message is
    what [errmsg] makes of the parser's diagnostic taken as a format. *)
Lemma bson_in_raise (jsons : string) (e : ErrorData) :
  bson_in jsons = Raise e <->
  exists err,
    bson_new_from_json jsons (Z.of_nat (String.length jsons)) = inr err
    /\ e = mkError ERRCODE_INVALID_JSON_TEXT (errmsg (message err)).
Proof.
  unfold bson_in, ereport_ERROR.
  destruct (bson_new_from_json jsons _) as [b|err]; split.
  - discriminate.
  - intros (err & Herr & _). discriminate.
  - intros Hr. injection Hr as <-. exists err. split; reflexivity.
  - intros (err' & Herr & ->). injection Herr as <-. reflexivity.
Qed.

(** The functions without an [ereport] never raise. *)
Lemma other_functions_never_raise (u u2 : bson_t) (a b : bytea)
  (buf : StringInfo) :
  raised (bson_out u a) = None /\ raised (bson_send a) = None
  /\ raised (bson_recv u buf) = None /\ raised (pgbson_compare u u2 a b) = None
  /\ raised (bson_binary_equal u u2 a b) = None /\ raised (bson_hash a) = None
  /\ raised pgbson_version = None.
Proof.
  unfold bson_out, bson_send, bson_recv, pgbson_compare, bson_binary_equal.
  repeat match goal with
  | |- context [bson_init_static ?u ?d ?n] =>
      destruct (bson_init_static u d n)
  end.
  destruct (bson_as_relaxed_extended_json _); repeat split.
Qed.

(** C3, where the code departs from it.  [bson_in] raises the error of the
    "invalid JSON text" class when the parser fails, but its message is what
    [errmsg] makes of the parser's diagnostic taken as a format: when the
    diagnostic holds a percent sign, the message is not the diagnostic. *)
Theorem bson_in_diagnostic_not_verbatim (jsons : string) (err : bson_error_t) :
  bson_new_from_json jsons (Z.of_nat (String.length jsons)) = inr err ->
  no_percent (message err) = false ->
  exists e, bson_in jsons = Raise e
    /\ err_code e = ERRCODE_INVALID_JSON_TEXT
    /\ err_message e = errmsg (message err)
    /\ err_message e <> Some (message err).
Proof.
  intros Hparse Hpct. eexists. split.
  - apply bson_in_raise. exists err. split; [exact Hparse|reflexivity].
  - cbn [err_code err_message]. repeat split.
    intros Heq. apply errmsg_verbatim_iff in Heq. congruence.
Qed.

(** A diagnostic without percent sign is carried verbatim. *)
Lemma bson_in_diagnostic_verbatim (jsons : string) (err : bson_error_t) :
  bson_new_from_json jsons (Z.of_nat (String.length jsons)) = inr err ->
  no_percent (message err) = true ->
  bson_in jsons
  = Raise (mkError ERRCODE_INVALID_JSON_TEXT (Some (message err))).
Proof.
  intros Hparse Hpct. apply bson_in_raise. exists err.
  split; [exact Hparse|]. f_equal. symmetry. apply errmsg_verbatim_iff. exact Hpct.
Qed.

(* ===================================================================== *)
(** * The typed accessors on an element of their type *)
(* ===================================================================== *)

(** C2, as amended.  On a DateTime element holding [m] milliseconds, with
    [m] inside the range of the server's timestamps, [bson_get_datetime]
    returns the timestamp that the floor split of [m] denotes; the code
    itself splits by truncation: the whole seconds are [m] divided by 1000
    rounded towards zero and the remainder has the sign of [m]. *)
Theorem bson_get_datetime_timestamp (b_uninit : bson_t) (aa : bytea)
  (dotpath : text) (target : bson_iter_t) (m : Z) :
  resolves_to (stored_view b_uninit aa) dotpath target ->
  bson_iter_type target = BSON_TYPE_DATE_TIME ->
  bson_iter_date_time target = m ->
  timestamp_in_range m ->
  bson_get_datetime b_uninit aa dotpath = PG_RETURN (floor_split_timestamp m)
  /\ cvt_t_unix m = Z.quot m 1000
  /\ cvt_fsec m = Z.rem m 1000 * 1000.
Proof.
  intros Hres Hty Hm Hrange. split; [|split; [reflexivity|apply cvt_fsec_rem]].
  open_accessor. rewrite (get_bson_iter_found _ _ _ _ Hres Hty).
  cbn [bind]. rewrite Hm, cvt_datetime_to_ts_floor by assumption. reflexivity.
Qed.

(** C8.  On a Binary element, [bson_get_binary] returns the [len] bytes
    [bson_iter_binary] points to, whatever subtype it reports; the subtype
    appears nowhere in the result. *)
Theorem bson_get_binary_payload (b_uninit : bson_t) (aa : bytea)
  (dotpath : text) (target : bson_iter_t) (subtype len : Z) (data : bytes) :
  resolves_to (stored_view b_uninit aa) dotpath target ->
  bson_iter_type target = BSON_TYPE_BINARY ->
  bson_iter_binary target = (subtype, len, data) ->
  bson_get_binary b_uninit aa dotpath = PG_RETURN (firstn (Z.to_nat len) data).
Proof.
  intros Hres Hty Hbin.
  open_accessor. rewrite (get_bson_iter_found _ _ _ _ Hres Hty).
  cbn [bind]. rewrite Hbin. reflexivity.
Qed.

Lemma length_list_byte_of_string (s : string) :
  List.length (list_byte_of_string s) = String.length s.
Proof.
  unfold list_byte_of_string. rewrite length_map.
  induction s as [|c s IH]; cbn [list_ascii_of_string List.length String.length];
    congruence.
Qed.

Lemma strlen_nat_cstring_ptr (s : string) :
  nul_free s = true -> strlen_nat (cstring_ptr s) = String.length s.
Proof.
  unfold nul_free, cstring_ptr.
  rewrite <- (length_list_byte_of_string s).
  induction (list_byte_of_string s) as [|c l IH]; cbn [forallb app strlen_nat List.length].
  - reflexivity.
  - intros Hnf. apply andb_prop in Hnf as [Hc Hl].
    apply negb_true_iff in Hc. rewrite Hc. f_equal. apply IH. exact Hl.
Qed.

Lemma cstring_at_cstring_ptr (s : string) :
  nul_free s = true -> cstring_at (cstring_ptr s) = s.
Proof.
  intros Hnf. unfold cstring_at. rewrite strlen_nat_cstring_ptr by assumption.
  unfold cstring_ptr. rewrite <- (length_list_byte_of_string s).
  rewrite firstn_app, Nat.sub_diag, firstn_all. cbn [firstn].
  rewrite app_nil_r. apply string_of_list_byte_of_string.
Qed.

(** The C string read back from [strbuf] is the text libbson wrote, when
    the text and its NUL fit the 43 bytes. *)
Lemma decimal128_strbuf_holds (val : bson_decimal128_t) :
  let s := bson_decimal128_to_string val in
  Z.of_nat (String.length s) + 1 <= strbuf_size -> nul_free s = true ->
  cstring_at (decimal128_strbuf val) = s.
Proof.
  cbv zeta. unfold decimal128_strbuf, strbuf_size. intros Hlen Hnf.
  rewrite firstn_all2.
  - apply cstring_at_cstring_ptr. exact Hnf.
  - unfold cstring_ptr. rewrite length_app, length_list_byte_of_string.
    cbn [List.length]. lia.
Qed.

(** C9.  On a Decimal128 element, [bson_get_decimal128] has libbson write
    the canonical text of the value into [strbuf], a buffer of 43 bytes,
    and returns what [numeric_in] makes of the C string in that buffer.
    The canonical text of a decimal128 has at most 42 characters: with its
    terminator it is bounded to 43, the buffer holds it whole, and the
    result is [numeric_in] of the text itself.  The value reaches the
    result through its text only, and whatever libbson writes, no more
    than the 43 bytes of [strbuf] are read. *)
Theorem bson_get_decimal128_through_text (b_uninit : bson_t) (aa : bytea)
  (dotpath : text) (target : bson_iter_t) (val : bson_decimal128_t)
  (words : Z * Z) :
  resolves_to (stored_view b_uninit aa) dotpath target ->
  bson_iter_type target = BSON_TYPE_DECIMAL128 ->
  bson_iter_decimal128 target = Some val ->
  bson_decimal128_to_string val = Decimal128.to_string words ->
  Z.of_nat (String.length (bson_decimal128_to_string val)) + 1 <= 43
  /\ decimal128_strbuf val = cstring_ptr (bson_decimal128_to_string val)
  /\ bson_get_decimal128 b_uninit aa dotpath
     = PG_RETURN (numeric_in (bson_decimal128_to_string val) 0 (-1))
  /\ (forall other, (List.length (decimal128_strbuf other) <= 43)%nat).
Proof.
  intros Hres Hty Hdec Htext.
  assert (Hlen : Z.of_nat (String.length (bson_decimal128_to_string val)) + 1
                 <= 43)
    by (rewrite Htext; apply Decimal128Facts.length_to_string).
  assert (Hnf : nul_free (bson_decimal128_to_string val) = true)
    by (rewrite Htext; apply Decimal128Facts.nul_free_to_string).
  split; [exact Hlen|]. split; [|split].
  - unfold decimal128_strbuf, strbuf_size. apply firstn_all2.
    unfold cstring_ptr. rewrite length_app, length_list_byte_of_string.
    cbn [List.length]. lia.
  - open_accessor. rewrite (get_bson_iter_found _ _ _ _ Hres Hty).
    cbn [bind]. rewrite Hdec.
    rewrite (decimal128_strbuf_holds val Hlen Hnf). reflexivity.
  - intros other. unfold decimal128_strbuf, strbuf_size.
    rewrite length_firstn. lia.
Qed.

Lemma bson_header_ok_length (data : bytes) (len : Z) :
  bson_header_ok data len = true ->
  5 <= len /\ (Z.to_nat len <= List.length data)%nat.
Proof.
  unfold bson_header_ok. intros Hok.
  apply andb_prop in Hok as [Hok Hlast]. apply andb_prop in Hok as [Hrange _].
  apply negb_true_iff, orb_false_iff in Hrange as [Hlo _].
  split; [lia|].
  unfold byte_at in Hlast. destruct (len - 1 <? 0) eqn:Hneg; [discriminate|].
  destruct (nth_error data (Z.to_nat (len - 1))) eqn:Hnth; [|discriminate].
  assert (Z.to_nat (len - 1) < List.length data)%nat
    by (apply nth_error_Some; congruence).
  lia.
Qed.

(** The first [len] bytes of a buffer that starts with a document of [len]
    bytes are a document on their own. *)
Lemma embedded_document_standalone (data : bytes) (len : Z) :
  bson_header_ok data len = true ->
  is_document (firstn (Z.to_nat len) data).
Proof.
  intros Hok. pose proof (bson_header_ok_length data len Hok) as [Hlen Hfit].
  unfold is_document, VARSIZE_ANY_EXHDR, BSON_VARDATA.
  rewrite length_firstn, Nat.min_l by exact Hfit.
  rewrite Z2Nat.id by lia.
  unfold bson_header_ok in *.
  apply andb_prop in Hok as [Hok Hlast]. apply andb_prop in Hok as [Hrange Hhead].
  rewrite Hrange. cbn [andb].
  rewrite firstn_firstn, Nat.min_l by lia. rewrite Hhead. cbn [andb].
  unfold byte_at in *. destruct (len - 1 <? 0); [discriminate|].
  rewrite nth_error_firstn.
  destruct (Nat.ltb_spec (Z.to_nat (len - 1)) (Z.to_nat len)); [exact Hlast|lia].
Qed.

(** C10.  On a buffer that can be iterated: when the path leads to an
    embedded Document or Array whose bytes, [len] of them at [data], form
    a document, [bson_get_bson] returns a new value holding exactly these
    bytes, a document on its own; when it leads to an element of another
    type, or nowhere, it returns SQL NULL. *)
Theorem bson_get_bson_embedded (b_uninit b2_uninit : bson_t) (aa : bytea)
  (dotpath : text) (iter : bson_iter_t) :
  bson_iter_init (stored_view b_uninit aa) = Some iter ->
  (forall target len data,
     bson_iter_find_descendant iter (text_to_cstring dotpath) = Some target ->
     (bson_iter_type target = BSON_TYPE_DOCUMENT
      /\ bson_iter_document target = (len, Some data)
      \/ bson_iter_type target = BSON_TYPE_ARRAY
         /\ bson_iter_array target = (len, Some data)) ->
     bson_header_ok data len = true ->
     bson_get_bson b_uninit b2_uninit aa dotpath
     = PG_RETURN (firstn (Z.to_nat len) data)
     /\ is_document (firstn (Z.to_nat len) data))
  /\ (forall target,
        bson_iter_find_descendant iter (text_to_cstring dotpath) = Some target ->
        bson_iter_type target <> BSON_TYPE_DOCUMENT ->
        bson_iter_type target <> BSON_TYPE_ARRAY ->
        bson_get_bson b_uninit b2_uninit aa dotpath = PG_RETURN_NULL)
  /\ (bson_iter_find_descendant iter (text_to_cstring dotpath) = None ->
      bson_get_bson b_uninit b2_uninit aa dotpath = PG_RETURN_NULL).
Proof.
  unfold bson_get_bson, stored_view.
  destruct (bson_init_static b_uninit _ _) as [rc b]. cbn [snd]. intros ->.
  split; [|split].
  - intros target len data -> Hsub Hok.
    split; [|apply embedded_document_standalone; exact Hok].
    destruct Hsub as [[-> ->]|[-> ->]];
      unfold bson_init_static; rewrite Hok; reflexivity.
  - intros target -> Hdoc Harr.
    destruct (bson_iter_type target); try reflexivity; contradiction.
  - intros ->. reflexivity.
Qed.

End AccessorFacts.

(* ===================================================================== *)
(** * The wire form *)
(* ===================================================================== *)

(** X1.  [bson_send] returns the stored bytes and nothing but them: the
    buffer it fills holds them after the header the transport reserved. *)
Lemma bson_send_emits_stored_bytes (arg : bytea) :
  bson_send arg = PG_RETURN arg
  /\ si_data (pq_sendbytes pq_begintypsend (BSON_VARDATA arg) (VARSIZE_ANY_EXHDR arg))
     = repeat x00 4 ++ arg.
Proof.
  unfold bson_send, pq_endtypsend, pq_sendbytes, pq_begintypsend, memcpy,
    VARSIZE_ANY_EXHDR, BSON_VARDATA, VARHDRSZ.
  cbn [si_data si_len]. rewrite Nat2Z.id, firstn_all.
  split; [|reflexivity].
  f_equal. f_equal.
  replace (Z.to_nat (4 + Z.of_nat (List.length arg) - 4)) with (List.length arg) by lia.
  change (Z.to_nat 4) with 4%nat. cbn [repeat app skipn].
  apply firstn_all.
Qed.

(** [bson_recv] never looks at the bytes received: two messages that
    differ only by their bytes yield the same value. *)
Lemma bson_recv_ignores_message (b_uninit : bson_t) (s : StringInfoData)
  (mem received : bytes) :
  bson_recv b_uninit (mkStringInfo s mem)
  = bson_recv b_uninit
      (mkStringInfo (mkStringInfoData received (si_len s) (si_maxlen s) (si_cursor s)) mem).
Proof. reflexivity. Qed.

(** X2.  [bson_recv] hands the address of the [StringInfoData] itself to
    [bson_init_static].  On an LP64 little-endian machine the four bytes
    taken for the length are the low half of the [data] pointer; when they
    do not spell [buf->len], the value returned is built from the
    uninitialised [bson_t], whatever the message holds. *)
Lemma bson_recv_reads_the_struct (b_uninit : bson_t) (s : StringInfoData)
  (data_addr : Z) (rest : bytes) :
  data_addr mod 2 ^ 32 <> si_len s ->
  bson_recv b_uninit (mkStringInfo s (StringInfoData_image data_addr s rest))
  = PG_RETURN (mk_palloc_bytea b_uninit).
Proof.
  intros Hlow. unfold bson_recv, bson_init_static, bson_header_ok.
  cbn [buf_mem buf_struct].
  assert (Hhead : le_combine (firstn 4 (StringInfoData_image data_addr s rest))
                  = data_addr mod 2 ^ 32).
  { unfold StringInfoData_image.
    rewrite firstn_app, length_le_split.
    change (firstn (4 - 8) _) with (@nil byte). rewrite app_nil_r.
    rewrite le_combine_firstn, le_combine_split.
    change (8 * Z.of_nat 4) with 32. change (Z.of_nat 8 * 8) with 64.
    apply Z.mod_mod_divide. exists (2 ^ 32). reflexivity. }
  rewrite Hhead.
  destruct (Z.eqb_spec (data_addr mod 2 ^ 32) (si_len s)); [contradiction|].
  rewrite andb_false_r. reflexivity.
Qed.

Local Open Scope string_scope.
Local Open Scope Z_scope.

(* ===================================================================== *)
(** * The statements at work on the reference library *)
(* ===================================================================== *)

Import Samples.

Lemma typed_accessor_absent_is_null_witness :
  no_element_of_type (L := Ref.lib) (stored_view Ref.stack_junk nested)
    "a.b.1" (requested_type GetString)
  /\ returns_null (L := Ref.lib) (P := Ref.host) GetString Ref.stack_junk
       nested "a.b.1"
  /\ no_element_of_type (L := Ref.lib) (stored_view Ref.stack_junk nested)
       "a.b.9" (requested_type GetInt32)
  /\ returns_null (L := Ref.lib) (P := Ref.host) GetInt32 Ref.stack_junk
       nested "a.b.9".
Proof.
  assert (H1 : no_element_of_type (L := Ref.lib)
                 (stored_view Ref.stack_junk nested) "a.b.1"
                 (requested_type GetString)).
  { exists nested_start. split; [vm_compute; reflexivity|].
    vm_compute. discriminate. }
  assert (H2 : no_element_of_type (L := Ref.lib)
                 (stored_view Ref.stack_junk nested) "a.b.9"
                 (requested_type GetInt32)).
  { exists nested_start. split; [vm_compute; reflexivity|].
    vm_compute. exact I. }
  split; [exact H1|]. split.
  - exact (proj1 (typed_accessor_absent_is_null GetString _ _ _ H1)).
  - split; [exact H2|].
    exact (proj1 (typed_accessor_absent_is_null GetInt32 _ _ _ H2)).
Defined.

(** C2 as worded fails at -500 milliseconds: the code splits into second
    0, the epoch, and a remainder of -500000 microseconds, where the floor
    split is second -1 and +500000 microseconds. *)
Lemma datetime_split_truncates_at_minus_500 :
  cvt_t_unix (-500) = 0 /\ cvt_fsec (-500) = -500000
  /\ cvt_pg_tm (-500) = mk_tm 0 0 0 1 1 1970
  /\ (-500) / 1000 = -1 /\ ((-500) mod 1000) * 1000 = 500000
  /\ ~ (cvt_t_unix (-500) = (-500) / 1000
        /\ cvt_fsec (-500) = ((-500) mod 1000) * 1000).
Proof.
  repeat split; try (vm_compute; reflexivity).
  intros [Hq _]. vm_compute in Hq. discriminate Hq.
Qed.

(** Past the range of the server's timestamps [tm2timestamp] fails; its
    return code is dropped and what it left in [ts] is returned. *)
Lemma cvt_datetime_to_ts_outside_range :
  ~ timestamp_in_range (2 ^ 63 - 1)
  /\ _cvt_datetime_to_ts (2 ^ 63 - 1) = 0
  /\ floor_split_timestamp (2 ^ 63 - 1) <> 0.
Proof.
  split; [|split].
  - unfold timestamp_in_range, Calendar.MIN_TIMESTAMP, Calendar.END_TIMESTAMP.
    change (2 ^ 63) with 9223372036854775808. lia.
  - vm_compute. reflexivity.
  - vm_compute. discriminate.
Qed.

Lemma bson_get_datetime_timestamp_witness :
  resolves_to (L := Ref.lib) (stored_view Ref.stack_junk dated) "d" dated_target
  /\ bson_iter_type (LibBson := Ref.lib) dated_target = BSON_TYPE_DATE_TIME
  /\ bson_iter_date_time (LibBson := Ref.lib) dated_target = -500
  /\ timestamp_in_range (-500)
  /\ bson_get_datetime (L := Ref.lib) Ref.stack_junk dated "d"
     = PG_RETURN (-946684800500000).
Proof.
  assert (H1 : resolves_to (L := Ref.lib) (stored_view Ref.stack_junk dated)
                 "d" dated_target).
  { exists (RefBson.mk_iter dated 16 0 0 0 0 4).
    split; vm_compute; reflexivity. }
  assert (H2 : bson_iter_type (LibBson := Ref.lib) dated_target
               = BSON_TYPE_DATE_TIME) by (vm_compute; reflexivity).
  assert (H3 : bson_iter_date_time (LibBson := Ref.lib) dated_target = -500)
    by (vm_compute; reflexivity).
  assert (H4 : timestamp_in_range (-500)).
  { unfold timestamp_in_range, Calendar.MIN_TIMESTAMP, Calendar.END_TIMESTAMP.
    lia. }
  repeat (split; [assumption|]).
  exact (proj1 (bson_get_datetime_timestamp (L := Ref.lib) _ _ _ _ _ H1 H2 H3 H4)).
Defined.

Lemma bson_in_diagnostic_not_verbatim_witness :
  bson_new_from_json (LibBson := Ref.lib) percent_text
    (Z.of_nat (String.length percent_text)) = inr percent_diagnostic
  /\ no_percent (message percent_diagnostic) = false
  /\ exists e, bson_in (L := Ref.lib) percent_text = Raise e
       /\ err_code e = ERRCODE_INVALID_JSON_TEXT
       /\ err_message e = errmsg (message percent_diagnostic)
       /\ err_message e <> Some (message percent_diagnostic).
Proof.
  assert (H1 : bson_new_from_json (LibBson := Ref.lib) percent_text
                 (Z.of_nat (String.length percent_text))
               = inr percent_diagnostic) by (vm_compute; reflexivity).
  assert (H2 : no_percent (message percent_diagnostic) = false)
    by (vm_compute; reflexivity).
  split; [exact H1|]. split; [exact H2|].
  exact (bson_in_diagnostic_not_verbatim (L := Ref.lib) _ _ H1 H2).
Defined.

Lemma equal_documents_hash_alike_witness :
  is_document nested /\ is_document nested_bytes
  /\ bson_binary_equal Ref.stack_junk Ref.stack_junk nested nested_bytes
     = PG_RETURN true
  /\ bson_hash nested = bson_hash nested_bytes.
Proof.
  assert (H1 : is_document nested) by (vm_compute; reflexivity).
  assert (H2 : is_document nested_bytes) by (vm_compute; reflexivity).
  assert (H3 : bson_binary_equal Ref.stack_junk Ref.stack_junk nested nested_bytes
               = PG_RETURN true) by (vm_compute; reflexivity).
  repeat (split; [assumption|]).
  exact (equal_documents_hash_alike _ _ _ _ H1 H2 H3).
Defined.

(** C6, where the code departs from it.  The empty document waits in the
    message; [bson_recv] reads the [StringInfoData] instead, finds no
    document there, and returns what the uninitialised [bson_t] describes,
    not the bytes received.  [bson_send] does emit the stored bytes. *)
Theorem bson_recv_loses_the_document :
  is_document empty_document
  /\ si_data (buf_struct waiting) = empty_document
  /\ si_len (buf_struct waiting) = VARSIZE_ANY_EXHDR empty_document
  /\ bson_recv Ref.stack_junk waiting = PG_RETURN []
  /\ bson_recv Ref.stack_junk waiting <> PG_RETURN empty_document
  /\ bson_send empty_document = PG_RETURN empty_document.
Proof.
  repeat split; try (vm_compute; reflexivity).
  vm_compute. discriminate.
Qed.

Lemma pgbson_compare_is_an_order_witness :
  is_document one /\ is_document two /\ is_document three
  /\ pgbson_compare Ref.stack_junk Ref.stack_junk one one = PG_RETURN 0
  /\ bson_binary_equal Ref.stack_junk Ref.stack_junk one one = PG_RETURN true.
Proof.
  assert (H1 : is_document one) by (vm_compute; reflexivity).
  assert (H2 : is_document two) by (vm_compute; reflexivity).
  assert (H3 : is_document three) by (vm_compute; reflexivity).
  repeat (split; [assumption|]).
  pose proof (pgbson_compare_is_an_order (fun _ => Ref.stack_junk)
                one two three H1 H2 H3) as (Heq & Hrefl & _).
  split; [exact Hrefl|exact Heq].
Defined.

Lemma bson_get_binary_payload_witness :
  resolves_to (L := Ref.lib) (stored_view Ref.stack_junk blob) "k" blob_target
  /\ bson_iter_type (LibBson := Ref.lib) blob_target = BSON_TYPE_BINARY
  /\ bson_iter_binary (LibBson := Ref.lib) blob_target
     = (128, 3, (blob_payload ++ [x00])%list)
  /\ bson_get_binary (L := Ref.lib) Ref.stack_junk blob "k"
     = PG_RETURN blob_payload.
Proof.
  assert (H1 : resolves_to (L := Ref.lib) (stored_view Ref.stack_junk blob)
                 "k" blob_target).
  { exists (RefBson.mk_iter blob 16 0 0 0 0 4).
    split; vm_compute; reflexivity. }
  assert (H2 : bson_iter_type (LibBson := Ref.lib) blob_target
               = BSON_TYPE_BINARY) by (vm_compute; reflexivity).
  assert (H3 : bson_iter_binary (LibBson := Ref.lib) blob_target
               = (128, 3, (blob_payload ++ [x00])%list)) by (vm_compute; reflexivity).
  repeat (split; [assumption|]).
  exact (bson_get_binary_payload (L := Ref.lib) _ _ _ _ _ _ _ H1 H2 H3).
Defined.

Lemma bson_get_decimal128_through_text_witness :
  resolves_to (L := Ref.lib) (stored_view Ref.stack_junk price) "p" price_target
  /\ bson_iter_type (LibBson := Ref.lib) price_target = BSON_TYPE_DECIMAL128
  /\ bson_iter_decimal128 (LibBson := Ref.lib) price_target
     = Some (15, 3476215962376601600)
  /\ bson_decimal128_to_string (LibBson := Ref.lib) (15, 3476215962376601600)
     = Decimal128.to_string (15, 3476215962376601600)
  /\ bson_decimal128_to_string (LibBson := Ref.lib) (15, 3476215962376601600)
     = "1.5"%string
  /\ bson_get_decimal128 (L := Ref.lib) (P := Ref.host) Ref.stack_junk price "p"
     = PG_RETURN "1.5"%string.
Proof.
  assert (H1 : resolves_to (L := Ref.lib) (stored_view Ref.stack_junk price)
                 "p" price_target).
  { exists (RefBson.mk_iter price 24 0 0 0 0 4).
    split; vm_compute; reflexivity. }
  assert (H2 : bson_iter_type (LibBson := Ref.lib) price_target
               = BSON_TYPE_DECIMAL128) by (vm_compute; reflexivity).
  assert (H3 : bson_iter_decimal128 (LibBson := Ref.lib) price_target
               = Some (15, 3476215962376601600)) by (vm_compute; reflexivity).
  assert (H4 : bson_decimal128_to_string (LibBson := Ref.lib)
                 (15, 3476215962376601600)
               = Decimal128.to_string (15, 3476215962376601600))
    by reflexivity.
  assert (H5 : bson_decimal128_to_string (LibBson := Ref.lib)
                 (15, 3476215962376601600) = "1.5"%string)
    by (vm_compute; reflexivity).
  repeat (split; [assumption|]).
  exact (proj1 (proj2 (proj2
           (bson_get_decimal128_through_text (L := Ref.lib) (P := Ref.host)
              _ _ _ _ _ _ H1 H2 H3 H4)))).
Defined.

Lemma bson_get_bson_embedded_witness :
  bson_iter_init (LibBson := Ref.lib) (stored_view Ref.stack_junk nested)
  = Some nested_start
  /\ bson_get_bson (L := Ref.lib) Ref.stack_junk Ref.stack_junk nested "a.b"
     = PG_RETURN nested_array
  /\ is_document nested_array
  /\ bson_get_bson (L := Ref.lib) Ref.stack_junk Ref.stack_junk nested "a.b.1"
     = PG_RETURN_NULL.
Proof.
  assert (H1 : bson_iter_init (LibBson := Ref.lib)
                 (stored_view Ref.stack_junk nested) = Some nested_start)
    by (vm_compute; reflexivity).
  split; [exact H1|].
  destruct (bson_get_bson_embedded (L := Ref.lib) Ref.stack_junk Ref.stack_junk
              nested "a.b" nested_start H1) as (Hsub & _ & _).
  destruct (Hsub nested_array_target 26 (RefBson.at_off nested 14))
    as [Hget Hdoc].
  { vm_compute. reflexivity. }
  { right. split; vm_compute; reflexivity. }
  { vm_compute. reflexivity. }
  split; [exact Hget|]. split; [exact Hdoc|].
  destruct (bson_get_bson_embedded (L := Ref.lib) Ref.stack_junk Ref.stack_junk
              nested "a.b.1" nested_start H1) as (_ & Hother & _).
  apply (Hother (RefBson.mk_iter (RefBson.at_off nested 14) 26 11 14 0 0 18)).
  - vm_compute. reflexivity.
  - vm_compute. discriminate.
  - vm_compute. discriminate.
Defined.

(* ===================================================================== *)
(** * The examples of the specification, run *)
(* ===================================================================== *)

(** Section 8, path resolution: in [{"a": {"b": [10, 20, 30]}}] the path
    [a.b.1] holds the int32 20, [a.b.9] nothing, and [a.b.1] no string. *)
Example path_resolution :
  bson_in (L := Ref.lib) (json "{'a': {'b': [10, 20, 30]}}") = PG_RETURN nested
  /\ bson_get_int32 (L := Ref.lib) Ref.stack_junk nested "a.b.1" = PG_RETURN 20
  /\ bson_get_int32 (L := Ref.lib) Ref.stack_junk nested "a.b.9" = PG_RETURN_NULL
  /\ bson_get_string (L := Ref.lib) Ref.stack_junk nested "a.b.1"
     = PG_RETURN_NULL.
Proof. repeat split; vm_compute; reflexivity. Qed.

(** Section 8, round trip through the relaxed rendering.  Rendered on its
    own, an array shows as a document keyed by its indices. *)
Example round_trip :
  bson_out (L := Ref.lib) Ref.stack_junk nested
  = PG_RETURN (json "{ 'a' : { 'b' : [ 10, 20, 30 ] } }")
  /\ bson_as_text (L := Ref.lib) (P := Ref.host) Ref.stack_junk Ref.stack_junk
       nested "a.b" = PG_RETURN (json "{ '0' : 10, '1' : 20, '2' : 30 }").
Proof. repeat split; vm_compute; reflexivity. Qed.

(** Section 8, order and hash on three documents. *)
Example increasing_documents :
  pgbson_compare Ref.stack_junk Ref.stack_junk one two = PG_RETURN (-1)
  /\ pgbson_compare Ref.stack_junk Ref.stack_junk two three = PG_RETURN (-1)
  /\ pgbson_compare Ref.stack_junk Ref.stack_junk one three = PG_RETURN (-1)
  /\ pgbson_compare Ref.stack_junk Ref.stack_junk three one = PG_RETURN 1
  /\ bson_binary_equal Ref.stack_junk Ref.stack_junk one two = PG_RETURN false
  /\ bson_hash one = PG_RETURN (-1827958589).
Proof. repeat split; vm_compute; reflexivity. Qed.

(** A buffer that [bson_init_static] rejects, here a document cut short by
    one byte, is iterated through whatever the stack slot held: over an
    empty slot the accessor raises the corruption error, over the view a
    former call left there it answers from that other document. *)
Lemma rejected_buffer_reads_the_stack_slot :
  ~ is_document truncated
  /\ bson_get_int32 (L := Ref.lib) Ref.stack_junk truncated "a"
     = Raise corrupt_error
  /\ bson_get_int32 (L := Ref.lib) (view one) truncated "a" = PG_RETURN 1.
Proof.
  split; [|split]; try (vm_compute; reflexivity).
  vm_compute. discriminate.
Qed.

(* ===================================================================== *)
(* ===================================================================== *)
(** * Part III: further properties of the code *)
(* ===================================================================== *)
(* ===================================================================== *)

(* ===================================================================== *)
(** * bson_hash: what it tells apart *)
(* ===================================================================== *)

(** 33 is odd: one turn of the loop loses nothing of the hash it starts
    from. *)
Lemma spec_hash_step_injective (h1 h2 : Z) (c : byte) :
  CInt.is_int32 h1 -> CInt.is_int32 h2 ->
  spec_hash_step h1 c = spec_hash_step h2 c -> h1 = h2.
Proof.
  unfold spec_hash_step, CInt.is_int32. intros H1 H2 Heq.
  destruct (int32_congruent (h1 * 33 + byte.unsigned c)) as [q1 E1].
  destruct (int32_congruent (h2 * 33 + byte.unsigned c)) as [q2 E2].
  rewrite E1, E2 in Heq.
  change (2 ^ 32) with 4294967296 in *. change (2 ^ 31) with 2147483648 in *.
  assert (Hdiv : h1 - h2 = 4294967296 * (1041204193 * (q2 - q1) - 8 * (h1 - h2)))
    by lia.
  lia.
Qed.

(** Two different bytes read from the same hash give different hashes. *)
Lemma spec_hash_step_separates (h : Z) (a b : byte) :
  a <> b -> spec_hash_step h a <> spec_hash_step h b.
Proof.
  unfold spec_hash_step. intros Hab Heq.
  destruct (int32_congruent (h * 33 + byte.unsigned a)) as [q1 E1].
  destruct (int32_congruent (h * 33 + byte.unsigned b)) as [q2 E2].
  rewrite E1, E2 in Heq.
  pose proof (byte.unsigned_range a) as Ha.
  pose proof (byte.unsigned_range b) as Hb.
  change (2 ^ 32) with 4294967296 in *. change (2 ^ 8) with 256 in *.
  assert (byte.unsigned a = byte.unsigned b) by lia.
  apply Hab, byte.unsigned_inj. assumption.
Qed.

Lemma spec_hash_fold_range (data : bytes) (h : Z) :
  CInt.is_int32 h -> CInt.is_int32 (fold_left spec_hash_step data h).
Proof.
  revert h. induction data as [|c data IH]; intros h Hh; cbn [fold_left].
  - exact Hh.
  - apply IH. apply int32_range.
Qed.

Lemma spec_hash_fold_injective (data : bytes) (h1 h2 : Z) :
  CInt.is_int32 h1 -> CInt.is_int32 h2 -> h1 <> h2 ->
  fold_left spec_hash_step data h1 <> fold_left spec_hash_step data h2.
Proof.
  revert h1 h2. induction data as [|c data IH]; intros h1 h2 H1 H2 Hne;
    cbn [fold_left].
  - exact Hne.
  - apply IH; try apply int32_range.
    intros Heq. apply Hne. eapply spec_hash_step_injective; eassumption.
Qed.

Lemma bson_hash_fold (aa : bytea) :
  bson_hash aa = PG_RETURN (fold_left spec_hash_step aa 5381).
Proof.
  unfold bson_hash, VARSIZE_ANY_EXHDR, BSON_VARDATA.
  rewrite Nat2Z.id, bson_hash_loop_fold. reflexivity.
Qed.

(** X3.  Two stored values of the same length that differ in exactly one
    byte never have the same hash: the multiplier 33 is odd, so no byte is
    shifted out of the 32 bits. *)
Theorem bson_hash_separates_one_byte (front back : bytes) (a b : byte) :
  a <> b ->
  bson_hash (front ++ a :: back)%list <> bson_hash (front ++ b :: back)%list.
Proof.
  intros Hab Heq. rewrite !bson_hash_fold in Heq.
  injection Heq as Heq. rewrite !fold_left_app in Heq. cbn [fold_left] in Heq.
  revert Heq. apply spec_hash_fold_injective; try apply int32_range.
  apply spec_hash_step_separates. exact Hab.
Qed.

(* ===================================================================== *)
(** * pgbson_compare and bson_binary_equal: zero means the same bytes *)
(* ===================================================================== *)

Lemma compare_bytes_refl (p : bytes) : compare_bytes p p = 0.
Proof.
  apply Z.compare_eq. rewrite compare_bytes_sign. apply lex_compare_refl.
Qed.

(** X4.  On documents, [pgbson_compare] returns 0 exactly when the two
    values hold the same bytes, and [bson_binary_equal] is true exactly
    when [pgbson_compare] returns 0: the order and the equality agree. *)
Theorem pgbson_compare_zero_iff_same_bytes (u1 u2 u3 u4 : bson_t)
  (a b : bytea) :
  is_document a -> is_document b ->
  (pgbson_compare u1 u2 a b = PG_RETURN 0 <-> a = b)
  /\ (bson_binary_equal u3 u4 a b = PG_RETURN true
      <-> pgbson_compare u1 u2 a b = PG_RETURN 0).
Proof.
  intros Ha Hb.
  rewrite (pgbson_compare_documents u1 u2 a b Ha Hb).
  rewrite (bson_binary_equal_documents u3 u4 a b Ha Hb).
  pose proof (compare_zero_same_bytes a b Ha Hb) as Hsame.
  pose proof (compare_bytes_refl (skipn 4 a)) as Hrefl.
  set (c := compare_bytes (skipn 4 a) (skipn 4 b)) in *.
  unfold PG_RETURN. split; split.
  - intros Hz. apply Hsame. congruence.
  - intros ->. subst c. rewrite Hrefl. reflexivity.
  - intros Hz. assert (Hc : (c =? 0) = true) by congruence.
    apply Z.eqb_eq in Hc. rewrite Hc. reflexivity.
  - intros Hz. assert (Hc : c = 0) by congruence. rewrite Hc. reflexivity.
Qed.

(** X5.  On documents, [pgbson_compare] orders by the bytes that follow
    the length header, compared one by one as unsigned numbers, a proper
    prefix first: its sign is the one of that lexicographic comparison.
    For documents of different lengths the value is -1 or 1. *)
Theorem pgbson_compare_is_lexicographic (u1 u2 : bson_t) (a b : bytea) :
  is_document a -> is_document b ->
  exists x,
    pgbson_compare u1 u2 a b = PG_RETURN x
    /\ (x ?= 0) = lex_compare (skipn 4 a) (skipn 4 b)
    /\ (List.length a <> List.length b -> x = -1 \/ x = 1).
Proof.
  intros Ha Hb. exists (compare_bytes (skipn 4 a) (skipn 4 b)).
  split; [apply pgbson_compare_documents; assumption|].
  split; [apply compare_bytes_sign|].
  intros Hlen. unfold compare_bytes. rewrite !length_skipn.
  pose proof (is_document_length a Ha). pose proof (is_document_length b Hb).
  destruct (Z.eqb_spec (Z.of_nat (List.length a - 4)) (Z.of_nat (List.length b - 4)));
    [lia|].
  destruct (Z.eqb_spec (memcmp (skipn 4 a) (skipn 4 b)
              (Z.to_nat (Z.min (Z.of_nat (List.length a - 4))
                               (Z.of_nat (List.length b - 4))))) 0).
  - destruct (Z.ltb_spec (Z.of_nat (List.length a - 4) - Z.of_nat (List.length b - 4)) 0);
      [left; reflexivity|].
    destruct (Z.ltb_spec 0 (Z.of_nat (List.length a - 4) - Z.of_nat (List.length b - 4)));
      [right; reflexivity|lia].
  - match goal with |- context [?m <? 0] => destruct (Z.ltb_spec m 0) end;
      [left; reflexivity|].
    match goal with |- context [0 <? ?m] => destruct (Z.ltb_spec 0 m) end;
      [right; reflexivity|lia].
Qed.

(* ===================================================================== *)
(** * C strings: mk_text and mk_cstring *)
(* ===================================================================== *)

Lemma strlen_nat_cut (l rest : bytes) :
  forallb (fun c => negb (Byte.eqb c x00)) l = true ->
  strlen_nat (l ++ x00 :: rest)%list = List.length l.
Proof.
  induction l as [|c l IH]; cbn [forallb app strlen_nat List.length].
  - intros _. rewrite byte_eqb_refl. reflexivity.
  - intros Hnf. apply andb_prop in Hnf as [Hc Hl].
    apply negb_true_iff in Hc. rewrite Hc. f_equal. apply IH. exact Hl.
Qed.

(** Reading a C string stops at the first NUL, whatever follows it. *)
Lemma cstring_at_cut (s : string) (rest : bytes) :
  nul_free s = true ->
  cstring_at (list_byte_of_string s ++ x00 :: rest)%list = s.
Proof.
  intros Hnf. unfold cstring_at. rewrite strlen_nat_cut by exact Hnf.
  rewrite firstn_app, Nat.sub_diag, firstn_all. cbn [firstn].
  rewrite app_nil_r. apply string_of_list_byte_of_string.
Qed.

(** X6.  [mk_text] and [mk_cstring] copy the C string they are given: the
    characters before the first NUL, all of them and nothing of what
    follows the NUL; [strlen] counts exactly these. *)
Theorem mk_text_copies_the_c_string (s : string) (rest : bytes) :
  nul_free s = true ->
  mk_text (list_byte_of_string s ++ x00 :: rest)%list = s
  /\ mk_cstring (list_byte_of_string s ++ x00 :: rest)%list = s
  /\ strlen (list_byte_of_string s ++ x00 :: rest)%list
     = Z.of_nat (String.length s).
Proof.
  intros Hnf. unfold mk_text, mk_cstring, strlen.
  rewrite cstring_at_cut by exact Hnf. repeat split.
  rewrite strlen_nat_cut by exact Hnf.
  rewrite length_list_byte_of_string. reflexivity.
Qed.

(** The C string read back from [valbuf] is the text written there, when
    the text and its NUL fit the 64 bytes. *)
Lemma valbuf_holding_holds (s : string) :
  fits_valbuf s -> nul_free s = true -> cstring_at (valbuf_holding s) = s.
Proof.
  unfold fits_valbuf, valbuf_holding, valbuf_size. intros Hfit Hnf.
  rewrite firstn_all2.
  - apply cstring_at_cstring_ptr. exact Hnf.
  - unfold cstring_ptr. rewrite length_app, length_list_byte_of_string.
    cbn [List.length]. lia.
Qed.

Lemma without_last_bytes (s : string) :
  list_byte_of_string (without_last s)
  = firstn (String.length s - 1) (list_byte_of_string s).
Proof.
  induction s as [|c s IH]; [reflexivity|].
  destruct s as [|c' s']; [reflexivity|].
  change (without_last (String c (String c' s')))
    with (String c (without_last (String c' s'))).
  change (list_byte_of_string (String c (without_last (String c' s'))))
    with (byte_of_ascii c :: list_byte_of_string (without_last (String c' s'))).
  rewrite IH.
  change (list_byte_of_string (String c (String c' s')))
    with (byte_of_ascii c :: list_byte_of_string (String c' s')).
  replace (String.length (String c (String c' s')) - 1)%nat
    with (S (String.length (String c' s') - 1))
    by (cbn [String.length]; lia).
  reflexivity.
Qed.

Lemma forallb_firstn {A : Type} (f : A -> bool) (n : nat) (l : list A) :
  forallb f l = true -> forallb f (firstn n l) = true.
Proof.
  revert n. induction l as [|a l IH]; intros [|n] Hall; cbn [firstn forallb] in *;
    try reflexivity.
  apply andb_prop in Hall as [Ha Hl]. rewrite Ha. cbn [andb]. apply IH. exact Hl.
Qed.

Lemma nul_free_without_last (s : string) :
  nul_free s = true -> nul_free (without_last s) = true.
Proof.
  unfold nul_free. rewrite without_last_bytes. apply forallb_firstn.
Qed.

(** [strncpy] of a whole C string, without room for its NUL. *)
Lemma strncpy_whole (s : string) :
  nul_free s = true ->
  strncpy (cstring_ptr s) (Z.of_nat (String.length s)) = list_byte_of_string s.
Proof.
  intros Hnf. unfold strncpy.
  rewrite strlen_nat_cstring_ptr by exact Hnf. rewrite Nat2Z.id.
  unfold cstring_ptr. rewrite <- (length_list_byte_of_string s).
  rewrite (firstn_app (List.length (list_byte_of_string s))
             (list_byte_of_string s) [x00]).
  rewrite Nat.sub_diag, firstn_all. cbn [firstn]. rewrite app_nil_r.
  rewrite firstn_app, Nat.sub_diag, firstn_all. cbn [firstn].
  apply app_nil_r.
Qed.

(** What is left in [valbuf] of a text copied by [bson_strncpy] with the
    length of the text for size: the text without its last character. *)
Lemma valbuf_after_strncpy_holds (s : string) :
  fits_valbuf s -> nul_free s = true ->
  cstring_at (valbuf_after_strncpy s) = without_last s.
Proof.
  unfold fits_valbuf, valbuf_after_strncpy, valbuf_size, bson_strncpy.
  intros Hfit Hnf.
  destruct (Z.eqb_spec (Z.of_nat (String.length s)) 0) as [Hz|Hnz].
  - destruct s; [reflexivity|cbn [String.length] in Hz; lia].
  - rewrite strncpy_whole by exact Hnf.
    replace (Z.to_nat (Z.of_nat (String.length s) - 1))
      with (String.length s - 1)%nat by lia.
    rewrite <- without_last_bytes.
    rewrite firstn_all2.
    + rewrite <- app_assoc. cbn [app]. apply cstring_at_cut.
      apply nul_free_without_last. exact Hnf.
    + rewrite !length_app, without_last_bytes, length_firstn,
        length_list_byte_of_string. cbn [List.length]. lia.
Qed.

(* ===================================================================== *)
(** * The functions that take a path *)
(* ===================================================================== *)

Section FurtherAccessorFacts.

Context {L : LibBson} {P : PgHost}.

(** Decide the type tests of [_get_bson_iter] once the type is known. *)
Ltac decide_type_tests :=
  repeat match goal with
  | |- context [bson_type_eqb ?a ?b] =>
      let r := eval vm_compute in (bson_type_eqb a b) in
      change (bson_type_eqb a b) with r
  end;
  cbn [negb bind].

(** Name what the unchecked [bson_init_static] left in the stack slot. *)
Ltac open_stored :=
  unfold bson_get_string, bson_get_int32, bson_get_int64, bson_get_double,
    bson_get_decimal128, bson_get_datetime, bson_get_binary, stored_view in *;
  match goal with
  | |- context [bson_init_static ?u ?d ?n] =>
      destruct (bson_init_static u d n) as [rc b]; cbn [snd] in *
  | H : context [bson_init_static ?u ?d ?n] |- _ =>
      destruct (bson_init_static u d n) as [rc b]; cbn [snd] in *
  end.

(** X7.  What [bson_in] stores for a text the parser accepts is a
    document: the [b->len] bytes of the parsed [bson_t], which
    [bson_init_static] accepts in every later call whatever the stack slot
    held. *)
Theorem bson_in_stores_a_document (jsons : string) (b : bson_t) :
  bson_new_from_json jsons (Z.of_nat (String.length jsons)) = inl b ->
  bson_header_ok (bson_get_data b) (bson_len b) = true ->
  exists d,
    bson_in jsons = PG_RETURN d
    /\ d = firstn (Z.to_nat (bson_len b)) (bson_get_data b)
    /\ is_document d
    /\ forall u, stored_view u d = view d.
Proof.
  intros Hparse Hok. exists (mk_palloc_bytea b).
  pose proof (embedded_document_standalone _ _ Hok) as Hdoc.
  unfold bson_in. rewrite Hparse. unfold mk_palloc_bytea, memcpy.
  repeat split; try assumption.
  intros u. unfold stored_view.
  rewrite (bson_init_static_document u _ Hdoc). reflexivity.
Qed.

(** X8.  [bson_in] never returns SQL NULL (line 143 is not reached): it
    returns a value, or it reports an error; its [ereport] is reached
    exactly when the parser fails, always in the class "invalid JSON
    text", and a diagnostic without percent sign is the message of the
    error, verbatim.  (What [palloc] may raise is the server's.) *)
Theorem bson_in_value_or_error (jsons : string) :
  bson_in jsons <> PG_RETURN_NULL
  /\ (forall e, bson_in jsons = Raise e ->
        err_code e = ERRCODE_INVALID_JSON_TEXT
        /\ exists err,
             bson_new_from_json jsons (Z.of_nat (String.length jsons)) = inr err
             /\ err_message e = errmsg (message err))
  /\ (forall err,
        bson_new_from_json jsons (Z.of_nat (String.length jsons)) = inr err ->
        exists e, bson_in jsons = Raise e
          /\ (no_percent (message err) = true ->
              err_message e = Some (message err))).
Proof.
  unfold bson_in, ereport_ERROR.
  destruct (bson_new_from_json jsons _) as [b|err].
  - split; [discriminate|]. split; [discriminate|]. discriminate.
  - split; [discriminate|]. split.
    + intros e He. injection He as <-. split; [reflexivity|].
      exists err. split; reflexivity.
    + intros err' Herr. injection Herr as <-.
      eexists. split; [reflexivity|]. cbn [err_message].
      apply errmsg_verbatim_iff.
Qed.

(** X9.  Text in, text out: for a text the parser accepts, [bson_out] on
    what [bson_in] stored returns the rendering of the parsed document, or
    SQL NULL when the renderer gives none; the stack slot plays no part.
    The renderer is taken to read the document and nothing behind it. *)
Theorem bson_out_after_bson_in (u : bson_t) (jsons : string) (b : bson_t) :
  bson_new_from_json jsons (Z.of_nat (String.length jsons)) = inl b ->
  bson_header_ok (bson_get_data b) (bson_len b) = true ->
  renders_its_own_bytes b ->
  exists d,
    bson_in jsons = PG_RETURN d
    /\ (forall rendered,
          bson_as_relaxed_extended_json b = Some rendered ->
          nul_free rendered = true -> bson_out u d = PG_RETURN rendered)
    /\ (bson_as_relaxed_extended_json b = None ->
        bson_out u d = PG_RETURN_NULL).
Proof.
  intros Hparse Hok Hown. exists (mk_palloc_bytea b).
  assert (Hdoc : is_document (mk_palloc_bytea b))
    by (apply embedded_document_standalone; exact Hok).
  unfold renders_its_own_bytes in Hown.
  split.
  - unfold bson_in. rewrite Hparse. reflexivity.
  - unfold bson_out. rewrite (bson_init_static_document u _ Hdoc), <- Hown.
    split.
    + intros rendered -> Hnf. unfold mk_cstring.
      rewrite cstring_at_cstring_ptr by exact Hnf. reflexivity.
    + intros ->. reflexivity.
Qed.

(** X10.  Each of the nine functions that take a path reports an error of
    its own in one case only: [bson_iter_init] rejects the buffer; the
    error is then the one of the class "invalid binary representation"
    with the message "BSON bytes corrupted".  An unresolved path, another
    type, a failing extractor lead to no [ereport].  (What [palloc] or
    [numeric_in] may raise is the server's.) *)
Theorem path_functions_raise_iff_corrupt (u u2 : bson_t) (aa : bytea)
  (dotpath : text) (e : ErrorData) :
  (forall acc,
     accessor_raised acc u aa dotpath = Some e
     <-> e = corrupt_error /\ bson_iter_init (stored_view u aa) = None)
  /\ (bson_get_bson u u2 aa dotpath = Raise e
      <-> e = corrupt_error /\ bson_iter_init (stored_view u aa) = None)
  /\ (bson_as_text u u2 aa dotpath = Raise e
      <-> e = corrupt_error /\ bson_iter_init (stored_view u aa) = None)
  /\ err_code corrupt_error = ERRCODE_INVALID_BINARY_REPRESENTATION
  /\ err_message corrupt_error = Some "BSON bytes corrupted".
Proof.
  split; [|split; [|split; [|split; reflexivity]]].
  - intros acc. split.
    + apply typed_accessor_raise.
    + intros [-> Hinit]. apply typed_accessor_corrupt. exact Hinit.
  - split.
    + apply bson_get_bson_raise.
    + intros [-> Hinit]. apply bson_get_bson_corrupt. exact Hinit.
  - split.
    + apply bson_as_text_raise.
    + intros [-> Hinit]. apply bson_as_text_corrupt. exact Hinit.
Qed.

(** X11.  [bson_get_string] returns the characters of the element up to its
    first NUL: the length libbson reports is not used, so a string with a
    NUL inside is cut there. *)
Theorem bson_get_string_stops_at_nul (u : bson_t) (aa : bytea)
  (dotpath : text) (target : bson_iter_t) (len : Z) (s : string)
  (rest : bytes) :
  resolves_to (stored_view u aa) dotpath target ->
  bson_iter_type target = BSON_TYPE_UTF8 ->
  bson_iter_utf8 target = (len, (list_byte_of_string s ++ x00 :: rest)%list) ->
  nul_free s = true ->
  bson_get_string u aa dotpath = PG_RETURN s.
Proof.
  intros Hres Hty Hval Hnf.
  open_stored. rewrite (get_bson_iter_found _ _ _ _ Hres Hty).
  cbn [bind]. rewrite Hval. unfold mk_text.
  rewrite cstring_at_cut by exact Hnf. reflexivity.
Qed.

(** X12.  No numeric conversion: on an element of type int32, int64 or
    double, the accessor of that very type returns the number as stored and
    the other two return SQL NULL. *)
Theorem scalar_accessors_do_not_convert (u : bson_t) (aa : bytea)
  (dotpath : text) (target : bson_iter_t) :
  resolves_to (stored_view u aa) dotpath target ->
  (bson_iter_type target = BSON_TYPE_INT32 ->
   bson_get_int32 u aa dotpath = PG_RETURN (bson_iter_int32 target)
   /\ bson_get_int64 u aa dotpath = PG_RETURN_NULL
   /\ bson_get_double u aa dotpath = PG_RETURN_NULL)
  /\ (bson_iter_type target = BSON_TYPE_INT64 ->
      bson_get_int64 u aa dotpath = PG_RETURN (bson_iter_int64 target)
      /\ bson_get_int32 u aa dotpath = PG_RETURN_NULL
      /\ bson_get_double u aa dotpath = PG_RETURN_NULL)
  /\ (bson_iter_type target = BSON_TYPE_DOUBLE ->
      bson_get_double u aa dotpath = PG_RETURN (bson_iter_double target)
      /\ bson_get_int32 u aa dotpath = PG_RETURN_NULL
      /\ bson_get_int64 u aa dotpath = PG_RETURN_NULL).
Proof.
  intros (iter & Hinit & Hfind).
  unfold bson_get_int32, bson_get_int64, bson_get_double, _get_bson_iter,
    stored_view in *.
  destruct (bson_init_static u _ _) as [rc b]. cbn [snd] in Hinit.
  rewrite Hinit, Hfind.
  repeat split; match goal with H : bson_iter_type _ = _ |- _ => rewrite H end;
    reflexivity.
Qed.

(** X13.  [bson_as_text] returns SQL NULL, and raises nothing, when the
    path leads nowhere, when it leads to an element of a type the function
    has no case for (bool, null, ObjectId, regex, ...), and when the
    decimal128 extractor fails. *)
Theorem bson_as_text_null_cases (u u2 : bson_t) (aa : bytea) (dotpath : text)
  (iter : bson_iter_t) :
  bson_iter_init (stored_view u aa) = Some iter ->
  match bson_iter_find_descendant iter (text_to_cstring dotpath) with
  | None => True
  | Some target =>
      as_text_renders (bson_iter_type target) = false
      \/ (bson_iter_type target = BSON_TYPE_DECIMAL128
          /\ bson_iter_decimal128 target = None)
  end ->
  bson_as_text u u2 aa dotpath = PG_RETURN_NULL.
Proof.
  unfold bson_as_text, stored_view.
  destruct (bson_init_static u _ _) as [rc b]. cbn [snd].
  intros -> Hcase.
  destruct (bson_iter_find_descendant iter _) as [target|]; [|reflexivity].
  destruct Hcase as [Hnone|[Hty Hdec]].
  - destruct (bson_iter_type target); try discriminate; reflexivity.
  - rewrite Hty, Hdec. reflexivity.
Qed.

(** X14.  Where [bson_get_string] returns a text, [bson_as_text] returns
    the same text. *)
Theorem bson_as_text_of_a_string (u u2 : bson_t) (aa : bytea) (dotpath : text)
  (t : text) :
  bson_get_string u aa dotpath = PG_RETURN t ->
  bson_as_text u u2 aa dotpath = PG_RETURN t.
Proof.
  unfold bson_get_string, bson_as_text, _get_bson_iter.
  destruct (bson_init_static u _ _) as [rc b].
  destruct (bson_iter_init b) as [iter|]; [|discriminate].
  destruct (bson_iter_find_descendant iter _) as [target|]; [|discriminate].
  destruct (bson_iter_type target); decide_type_tests; try discriminate.
  destruct (bson_iter_utf8 target) as [len val]. intros Ht. exact Ht.
Qed.

(** X15.  Where [bson_get_int32], [bson_get_int64] or [bson_get_double]
    returns a number, [bson_as_text] returns that number as [sprintf]
    prints it with [%d], [%lld] or [%lf], provided the text and its NUL fit
    the 64 bytes of [valbuf]. *)
Theorem bson_as_text_prints_the_number (u u2 : bson_t) (aa : bytea)
  (dotpath : text) (v : Z) :
  (bson_get_int32 u aa dotpath = PG_RETURN v ->
   fits_valbuf (sprintf_d v) -> nul_free (sprintf_d v) = true ->
   bson_as_text u u2 aa dotpath = PG_RETURN (sprintf_d v))
  /\ (bson_get_int64 u aa dotpath = PG_RETURN v ->
      fits_valbuf (sprintf_lld v) -> nul_free (sprintf_lld v) = true ->
      bson_as_text u u2 aa dotpath = PG_RETURN (sprintf_lld v))
  /\ (bson_get_double u aa dotpath = PG_RETURN v ->
      fits_valbuf (sprintf_lf v) -> nul_free (sprintf_lf v) = true ->
      bson_as_text u u2 aa dotpath = PG_RETURN (sprintf_lf v)).
Proof.
  unfold bson_get_int32, bson_get_int64, bson_get_double, bson_as_text,
    _get_bson_iter.
  destruct (bson_init_static u _ _) as [rc b].
  destruct (bson_iter_init b) as [iter|]; [|repeat split; discriminate].
  destruct (bson_iter_find_descendant iter _) as [target|];
    [|repeat split; discriminate].
  repeat split; destruct (bson_iter_type target);
    decide_type_tests; try discriminate;
    intros Hv Hfit Hnf; injection Hv as ->; unfold mk_text;
    rewrite valbuf_holding_holds by assumption; reflexivity.
Qed.

Lemma hex_digits_shape (payload : bytes) :
  two_digits_each payload = true ->
  nul_free (hex_digits payload) = true
  /\ String.length (hex_digits payload) = (2 * List.length payload)%nat.
Proof.
  unfold two_digits_each, hex_digits.
  induction payload as [|c payload IH]; cbn [forallb fold_right List.length].
  - intros _. split; reflexivity.
  - intros Hall. apply andb_prop in Hall as [Hc Hall].
    apply andb_prop in Hc as [Hnf Hlen]. apply Nat.eqb_eq in Hlen.
    destruct (IH Hall) as [IHnf IHlen].
    rewrite nul_free_app, Hnf, IHnf.
    split; [reflexivity|].
    rewrite string_length_app, Hlen, IHlen. lia.
Qed.

(** X16.  Where [bson_get_binary] returns a payload, [bson_as_text] returns
    a backslash, an x and the two hexadecimal digits of every byte of that
    payload, in order; with its NUL the text fills the [2 + len*2 + 1]
    bytes the code allocates for it. *)
Theorem bson_as_text_dumps_the_payload (u u2 : bson_t) (aa : bytea)
  (dotpath : text) (payload : bytea) :
  bson_get_binary u aa dotpath = PG_RETURN payload ->
  two_digits_each payload = true ->
  bson_as_text u u2 aa dotpath
  = PG_RETURN (String "\" (String "x" (hex_digits payload)))
  /\ Z.of_nat (String.length (String "\" (String "x" (hex_digits payload)))) + 1
     = 2 + Z.of_nat (List.length payload) * 2 + 1.
Proof.
  unfold bson_get_binary, bson_as_text, _get_bson_iter.
  destruct (bson_init_static u _ _) as [rc b].
  destruct (bson_iter_init b) as [iter|]; [|discriminate].
  destruct (bson_iter_find_descendant iter _) as [target|]; [|discriminate].
  destruct (bson_iter_type target); decide_type_tests; try discriminate.
  destruct (bson_iter_binary target) as [[subtype len] data].
  intros Hv Hall. injection Hv as <-.
  destruct (hex_digits_shape _ Hall) as [Hnf Hlen].
  split.
  - unfold mk_text, hex_dump. fold (hex_digits (memcpy data len)).
    rewrite cstring_at_cstring_ptr; [reflexivity|].
    unfold nul_free in *. cbn [list_byte_of_string list_ascii_of_string map forallb].
    exact Hnf.
  - cbn [String.length]. rewrite Hlen. lia.
Qed.

(** X17.  On a DateTime element, [bson_as_text] returns the ISO-8601 text
    of [_bson_iso8601_date_format] without its last character:
    [bson_strncpy] is given the length of the text for size, and libbson's
    [bson_strncpy] ends what it copies with a NUL inside that size. *)
Theorem bson_as_text_cuts_the_date (u u2 : bson_t) (aa : bytea)
  (dotpath : text) (target : bson_iter_t) :
  resolves_to (stored_view u aa) dotpath target ->
  bson_iter_type target = BSON_TYPE_DATE_TIME ->
  fits_valbuf (_bson_iso8601_date_format (bson_iter_date_time target)) ->
  nul_free (_bson_iso8601_date_format (bson_iter_date_time target)) = true ->
  bson_as_text u u2 aa dotpath
  = PG_RETURN (without_last
                 (_bson_iso8601_date_format (bson_iter_date_time target))).
Proof.
  intros (iter & Hinit & Hfind) Hty Hfit Hnf.
  unfold bson_as_text, stored_view in *.
  destruct (bson_init_static u _ _) as [rc b]. cbn [snd] in Hinit.
  rewrite Hinit, Hfind, Hty. unfold mk_text.
  rewrite valbuf_after_strncpy_holds by assumption. reflexivity.
Qed.

(** X18.  On a decimal128 element whose text fits the 43 bytes,
    [bson_as_text] returns the text of [bson_decimal128_to_string] and
    [bson_get_decimal128] returns what [numeric_in] reads from that same
    text. *)
Theorem bson_get_decimal128_reads_bson_as_text (u u2 : bson_t) (aa : bytea)
  (dotpath : text) (target : bson_iter_t) (val : bson_decimal128_t) :
  resolves_to (stored_view u aa) dotpath target ->
  bson_iter_type target = BSON_TYPE_DECIMAL128 ->
  bson_iter_decimal128 target = Some val ->
  Z.of_nat (String.length (bson_decimal128_to_string val)) + 1 <= 43 ->
  nul_free (bson_decimal128_to_string val) = true ->
  bson_as_text u u2 aa dotpath = PG_RETURN (bson_decimal128_to_string val)
  /\ bson_get_decimal128 u aa dotpath
     = PG_RETURN (numeric_in (bson_decimal128_to_string val) 0 (-1)).
Proof.
  intros Hres Hty Hval Hfit Hnf. split.
  - destruct Hres as (iter & Hinit & Hfind).
    unfold bson_as_text, stored_view in *.
    destruct (bson_init_static u _ _) as [rc b]. cbn [snd] in Hinit.
    rewrite Hinit, Hfind, Hty, Hval. unfold mk_text.
    rewrite valbuf_holding_holds; [reflexivity| |exact Hnf].
    unfold fits_valbuf, valbuf_size. lia.
  - open_stored. rewrite (get_bson_iter_found _ _ _ _ Hres Hty).
    cbn [bind]. rewrite Hval.
    rewrite (decimal128_strbuf_holds val Hfit Hnf). reflexivity.
Qed.

(** X19.  On an embedded document or array, [bson_as_text] returns what
    [bson_out] returns on the value [bson_get_bson] extracts, provided the
    renderer reads the embedded document and nothing behind it. *)
Theorem bson_as_text_is_bson_out_of_bson_get_bson (u u2 u3 : bson_t)
  (aa : bytea) (dotpath : text) (iter target : bson_iter_t) (len : Z)
  (data : bytes) :
  bson_iter_init (stored_view u aa) = Some iter ->
  bson_iter_find_descendant iter (text_to_cstring dotpath) = Some target ->
  (bson_iter_type target = BSON_TYPE_DOCUMENT
   /\ bson_iter_document target = (len, Some data)
   \/ bson_iter_type target = BSON_TYPE_ARRAY
      /\ bson_iter_array target = (len, Some data)) ->
  bson_header_ok data len = true ->
  renders_its_own_bytes (mk_bson_t len data) ->
  exists sub,
    bson_get_bson u u2 aa dotpath = PG_RETURN sub
    /\ bson_as_text u u2 aa dotpath = bson_out u3 sub.
Proof.
  intros Hinit Hfind Hkind Hok Hown.
  exists (firstn (Z.to_nat len) data).
  pose proof (embedded_document_standalone _ _ Hok) as Hdoc.
  unfold renders_its_own_bytes, mk_palloc_bytea, memcpy, bson_get_data in Hown.
  cbn [bson_data bson_len] in Hown.
  assert (Hout : bson_out u3 (firstn (Z.to_nat len) data)
                 = match bson_as_relaxed_extended_json (mk_bson_t len data) with
                   | Some rendered => PG_RETURN (mk_cstring (cstring_ptr rendered))
                   | None => PG_RETURN_NULL
                   end).
  { unfold bson_out. rewrite (bson_init_static_document u3 _ Hdoc), <- Hown.
    reflexivity. }
  rewrite Hout.
  unfold bson_get_bson, bson_as_text, stored_view in *.
  destruct (bson_init_static u _ _) as [rc b]. cbn [snd] in Hinit.
  rewrite Hinit, Hfind. unfold bson_init_static.
  destruct Hkind as [[Hty Hsub]|[Hty Hsub]]; rewrite Hty, Hsub;
    decide_type_tests; rewrite ?Hsub, Hok;
    (split; [reflexivity|]);
    destruct (bson_as_relaxed_extended_json (mk_bson_t len data));
    reflexivity.
Qed.

(* ===================================================================== *)
(** * The unchecked bson_init_static *)
(* ===================================================================== *)

Lemma bson_init_static_rejected (u : bson_t) (d : bytea) :
  ~ is_document d ->
  bson_init_static u (BSON_VARDATA d) (VARSIZE_ANY_EXHDR d) = (false, u).
Proof.
  unfold is_document, bson_init_static. intros Hno.
  destruct (bson_header_ok _ _); [contradiction Hno|]; reflexivity.
Qed.

Lemma embedded_accepted_one_slot (u w w' : bson_t) (a : bytea)
  (dotpath : text) :
  embedded_accepted (stored_view u a) dotpath ->
  bson_get_bson u w a dotpath = bson_get_bson u w' a dotpath
  /\ bson_as_text u w a dotpath = bson_as_text u w' a dotpath.
Proof.
  unfold embedded_accepted, bson_get_bson, bson_as_text, stored_view.
  destruct (bson_init_static u _ _) as [rc b]. cbn [snd]. intros Hacc.
  destruct (bson_iter_init b) as [iter|]; [|split; reflexivity].
  destruct (bson_iter_find_descendant iter _) as [target|] eqn:Hfind;
    [|split; reflexivity].
  specialize (Hacc iter target eq_refl Hfind).
  destruct (bson_iter_type target); try (split; reflexivity);
    destruct Hacc as (len & data & Hsub & Hok); decide_type_tests;
    rewrite Hsub; unfold bson_init_static; rewrite Hok; split; reflexivity.
Qed.

(** X20.  On documents the content of the stack slot that receives the
    stored value plays no part: every function that goes through
    [bson_init_static] returns the same result whatever that [bson_t]
    held before the call.  [bson_get_bson] and [bson_as_text] have a
    second slot, for the embedded document or array; it plays no part
    either when that embedded value is one [bson_init_static] accepts. *)
Theorem documents_hide_the_stack_slot (u1 u2 v1 v2 w w' : bson_t)
  (a b : bytea) (dotpath : text) :
  is_document a -> is_document b ->
  bson_out u1 a = bson_out v1 a
  /\ pgbson_compare u1 u2 a b = pgbson_compare v1 v2 a b
  /\ bson_binary_equal u1 u2 a b = bson_binary_equal v1 v2 a b
  /\ bson_get_string u1 a dotpath = bson_get_string v1 a dotpath
  /\ bson_get_int32 u1 a dotpath = bson_get_int32 v1 a dotpath
  /\ bson_get_int64 u1 a dotpath = bson_get_int64 v1 a dotpath
  /\ bson_get_double u1 a dotpath = bson_get_double v1 a dotpath
  /\ bson_get_decimal128 u1 a dotpath = bson_get_decimal128 v1 a dotpath
  /\ bson_get_datetime u1 a dotpath = bson_get_datetime v1 a dotpath
  /\ bson_get_binary u1 a dotpath = bson_get_binary v1 a dotpath
  /\ bson_get_bson u1 w a dotpath = bson_get_bson v1 w a dotpath
  /\ bson_as_text u1 w a dotpath = bson_as_text v1 w a dotpath
  /\ (embedded_accepted (view a) dotpath ->
      bson_get_bson u1 w a dotpath = bson_get_bson v1 w' a dotpath
      /\ bson_as_text u1 w a dotpath = bson_as_text v1 w' a dotpath).
Proof.
  intros Ha Hb.
  assert (Hfirst :
    bson_get_bson u1 w a dotpath = bson_get_bson v1 w a dotpath
    /\ bson_as_text u1 w a dotpath = bson_as_text v1 w a dotpath).
  { unfold bson_get_bson, bson_as_text.
    rewrite !(bson_init_static_document u1 a Ha),
      !(bson_init_static_document v1 a Ha). split; reflexivity. }
  assert (Hsecond : embedded_accepted (view a) dotpath ->
    bson_get_bson v1 w a dotpath = bson_get_bson v1 w' a dotpath
    /\ bson_as_text v1 w a dotpath = bson_as_text v1 w' a dotpath).
  { intros Hacc. apply embedded_accepted_one_slot.
    unfold stored_view. rewrite (bson_init_static_document v1 a Ha).
    exact Hacc. }
  unfold bson_out, pgbson_compare, bson_binary_equal, bson_get_string,
    bson_get_int32, bson_get_int64, bson_get_double, bson_get_decimal128,
    bson_get_datetime, bson_get_binary.
  rewrite !(bson_init_static_document u1 a Ha), !(bson_init_static_document v1 a Ha),
    !(bson_init_static_document u2 b Hb), !(bson_init_static_document v2 b Hb).
  repeat (split; [reflexivity|]).
  destruct Hfirst as [Hb1 Ht1].
  split; [exact Hb1|]. split; [exact Ht1|].
  intros Hacc. destruct (Hsecond Hacc) as [Hb2 Ht2].
  split; congruence.
Qed.

(** X21.  A stored value that [bson_init_static] rejects is never read by
    the functions that go through it: their result is the same for any
    two rejected values, being computed from the stack slots alone;
    [pgbson_compare] and [bson_binary_equal] then compare the two slots. *)
Theorem rejected_values_are_not_read (u u2 w : bson_t) (a a' : bytea)
  (dotpath : text) :
  ~ is_document a -> ~ is_document a' ->
  bson_out u a = bson_out u a'
  /\ pgbson_compare u u2 a a' = PG_RETURN (bson_compare u u2)
  /\ bson_binary_equal u u2 a a' = PG_RETURN (bson_equal u u2)
  /\ bson_get_string u a dotpath = bson_get_string u a' dotpath
  /\ bson_get_int32 u a dotpath = bson_get_int32 u a' dotpath
  /\ bson_get_int64 u a dotpath = bson_get_int64 u a' dotpath
  /\ bson_get_double u a dotpath = bson_get_double u a' dotpath
  /\ bson_get_decimal128 u a dotpath = bson_get_decimal128 u a' dotpath
  /\ bson_get_datetime u a dotpath = bson_get_datetime u a' dotpath
  /\ bson_get_binary u a dotpath = bson_get_binary u a' dotpath
  /\ bson_get_bson u w a dotpath = bson_get_bson u w a' dotpath
  /\ bson_as_text u w a dotpath = bson_as_text u w a' dotpath.
Proof.
  intros Ha Ha'.
  unfold bson_out, pgbson_compare, bson_binary_equal, bson_get_string,
    bson_get_int32, bson_get_int64, bson_get_double, bson_get_decimal128,
    bson_get_datetime, bson_get_binary, bson_get_bson, bson_as_text.
  rewrite !(bson_init_static_rejected u a Ha), !(bson_init_static_rejected u a' Ha'),
    !(bson_init_static_rejected u2 a' Ha').
  repeat split.
Qed.

End FurtherAccessorFacts.

(* ===================================================================== *)
(** * bson_get_datetime over all of int64 *)
(* ===================================================================== *)

Lemma int64_range (z : Z) : CInt.is_int64 (CInt.int64 z).
Proof.
  unfold CInt.is_int64, CInt.int64, CInt.swrap.
  change (2 ^ (64 - 1)) with 9223372036854775808.
  change (2 ^ 63) with 9223372036854775808.
  change (2 ^ 64) with 18446744073709551616.
  pose proof (Z.mod_pos_bound (z + 9223372036854775808) 18446744073709551616).
  lia.
Qed.

Lemma int64_congruent (a : Z) : exists q, CInt.int64 a = a + 2 ^ 64 * q.
Proof.
  unfold CInt.int64, CInt.swrap.
  exists (- ((a + 2 ^ (64 - 1)) / 2 ^ 64)).
  pose proof (Z.div_mod (a + 2 ^ (64 - 1)) (2 ^ 64)) as Hdm.
  assert (Hnz : 2 ^ 64 <> 0) by (cbv; discriminate).
  specialize (Hdm Hnz). lia.
Qed.

Lemma int64_sub_l (a b : Z) :
  CInt.int64 (CInt.int64 a - b) = CInt.int64 (a - b).
Proof.
  unfold CInt.int64, CInt.swrap. f_equal.
  replace ((a + 2 ^ (64 - 1)) mod 2 ^ 64 - 2 ^ (64 - 1) - b + 2 ^ (64 - 1))
    with ((a + 2 ^ (64 - 1)) mod 2 ^ 64 + (- b)) by lia.
  rewrite Z.add_mod_idemp_l by (cbv; discriminate).
  f_equal. lia.
Qed.

(** [tm2timestamp] in one line: the exact count of microseconds when the
    date passes [IS_VALID_JULIAN] and the count passes
    [IS_VALID_TIMESTAMP]; failure and 0 otherwise.  The two overflow tests
    never reject a count that is in range, and let no wrapped count
    through. *)
Lemma tm2timestamp_exact (t : tm) (fsec : fsec_t) :
  let date := Calendar.date2j (tm_year t) (tm_mon t) (tm_mday t)
              - Calendar.POSTGRES_EPOCH_JDATE in
  let time := Calendar.time2t (tm_hour t) (tm_min t) (tm_sec t) fsec in
  - Calendar.USECS_PER_DAY < time < 2 * Calendar.USECS_PER_DAY ->
  Calendar.tm2timestamp t fsec
  = if Calendar.IS_VALID_JULIAN (tm_year t) (tm_mon t) (tm_mday t)
       && Calendar.IS_VALID_TIMESTAMP (date * Calendar.USECS_PER_DAY + time)
    then (0, date * Calendar.USECS_PER_DAY + time)
    else (-1, 0).
Proof.
  cbv zeta. unfold Calendar.tm2timestamp.
  destruct (Calendar.IS_VALID_JULIAN _ _ _); cbn [negb andb]; [|reflexivity].
  generalize (Calendar.date2j (tm_year t) (tm_mon t) (tm_mday t)
              - Calendar.POSTGRES_EPOCH_JDATE) as date.
  generalize (Calendar.time2t (tm_hour t) (tm_min t) (tm_sec t) fsec) as time.
  intros time date Htime.
  rewrite int64_sub_l.
  replace (date * Calendar.USECS_PER_DAY + time - time)
    with (date * Calendar.USECS_PER_DAY) by lia.
  destruct (int64_congruent (date * Calendar.USECS_PER_DAY + time)) as [q Hq].
  destruct (int64_congruent (date * Calendar.USECS_PER_DAY)) as [q2 Hq2].
  pose proof (int64_range (date * Calendar.USECS_PER_DAY + time)) as Hr.
  pose proof (int64_range (date * Calendar.USECS_PER_DAY)) as Hr2.
  set (r := CInt.int64 (date * Calendar.USECS_PER_DAY + time)) in *.
  set (w := CInt.int64 (date * Calendar.USECS_PER_DAY)) in *.
  pose proof (Z.quot_rem' w Calendar.USECS_PER_DAY) as Hqr.
  pose proof (Z.rem_bound_abs w Calendar.USECS_PER_DAY ltac:(discriminate))
    as Hrem.
  unfold Calendar.IS_VALID_TIMESTAMP, Calendar.MIN_TIMESTAMP,
    Calendar.END_TIMESTAMP, CInt.is_int64 in *.
  unfold Calendar.USECS_PER_DAY in *.
  change (2 ^ 63) with 9223372036854775808 in *.
  change (2 ^ 64) with 18446744073709551616 in *.
  change (Z.abs 86400000000) with 86400000000 in Hrem.
  set (k := Z.quot w 86400000000) in *.
  set (e := Z.rem w 86400000000) in *.
  destruct (Z.eqb_spec k date) as [Hk|Hk]; cbn [negb].
  - assert (Hq20 : q2 = 0) by lia.
    destruct (Z.ltb_spec r 0); destruct (Z.ltb_spec 0 date);
      destruct (Z.ltb_spec 0 r); destruct (Z.ltb_spec date (-1));
      cbn [andb orb];
      destruct (Z.leb_spec (-211813488000000000) r);
      destruct (Z.ltb_spec r 9223371331200000000);
      destruct (Z.leb_spec (-211813488000000000) (date * 86400000000 + time));
      destruct (Z.ltb_spec (date * 86400000000 + time) 9223371331200000000);
      cbn [andb negb]; try lia; try reflexivity;
      f_equal; lia.
  - destruct (Z.leb_spec (-211813488000000000) (date * 86400000000 + time));
      destruct (Z.ltb_spec (date * 86400000000 + time) 9223371331200000000);
      cbn [andb]; try reflexivity.
    exfalso. apply Hk.
    assert (Hq20 : q2 = 0) by lia.
    unfold k. rewrite Hq2, Hq20, Z.mul_0_r, Z.add_0_r.
    apply Z.quot_mul. discriminate.
Qed.

(** The parts of the date [civil_from_days] computes: the year of the era,
    the month and the day, and the day of the era they stand for. *)
Lemma civil_from_days_parts (z : Z) :
  exists yoe m d,
    Calendar.civil_from_days z
    = (yoe + (z + 719468) / 146097 * 400 + (if m <=? 2 then 1 else 0), m, d)
    /\ 0 <= yoe <= 399 /\ 1 <= m <= 12
    /\ CalendarCheck.julian_of yoe m d = (z + 719468) mod 146097 - 32044.
Proof.
  rewrite civil_from_days_eq. cbv zeta.
  pose proof (Z.mod_pos_bound (z + 719468) 146097 ltac:(lia)) as Hdoe.
  pose proof (era_day_ok_at _ Hdoe) as Hok. unfold CalendarCheck.era_day_ok in Hok.
  destruct (CalendarCheck.civil_of_doe ((z + 719468) mod 146097)) as [[yoe m] d].
  exists yoe, m, d.
  repeat (apply andb_prop in Hok as [Hok ?]).
  repeat split; try lia.
Qed.

(** From the first era the server knows on, [date2j] inverts
    [civil_from_days]. *)
Lemma date2j_civil_from_days_late (z : Z) :
  -2472632 <= z ->
  let '(y, m, d) := Calendar.civil_from_days z in
  Calendar.date2j y m d = z + Calendar.UNIX_EPOCH_JDATE.
Proof.
  intros Hz. destruct (civil_from_days_parts z) as (yoe & m & d & -> & Hy & Hm & Hj).
  pose proof (Z.mod_pos_bound (z + 719468) 146097 ltac:(lia)) as Hdoe.
  pose proof (Z.div_mod (z + 719468) 146097 ltac:(lia)) as Hdm.
  set (era := (z + 719468) / 146097) in *.
  assert (Hera : -12 <= era) by lia.
  replace (yoe + era * 400) with (yoe + (era + 12 - 12) * 400) by lia.
  rewrite date2j_era by lia. unfold Calendar.UNIX_EPOCH_JDATE. lia.
Qed.

(** Before that era every date fails [IS_VALID_JULIAN]. *)
Lemma civil_from_days_early (z : Z) :
  z < -2472632 ->
  let '(y, m, d) := Calendar.civil_from_days z in
  Calendar.IS_VALID_JULIAN y m d = false.
Proof.
  intros Hz. destruct (civil_from_days_parts z) as (yoe & m & d & -> & Hy & Hm & Hj).
  pose proof (Z.mod_pos_bound (z + 719468) 146097 ltac:(lia)) as Hdoe.
  pose proof (Z.div_mod (z + 719468) 146097 ltac:(lia)) as Hdm.
  set (era := (z + 719468) / 146097) in *.
  assert (Hera : era <= -13) by lia.
  assert (Hadj : 0 <= (if m <=? 2 then 1 else 0) <= 1)
    by (destruct (m <=? 2); lia).
  unfold Calendar.IS_VALID_JULIAN.
  destruct (Z.ltb_spec (-4713) (yoe + era * 400 + (if m <=? 2 then 1 else 0)));
    [lia|].
  destruct (Z.eqb_spec (yoe + era * 400 + (if m <=? 2 then 1 else 0)) (-4713));
    [lia|].
  reflexivity.
Qed.

(** Outside the range of the server's timestamps, [tm2timestamp] fails and
    the 0 it leaves in [ts] is what [_cvt_datetime_to_ts] returns. *)
Lemma cvt_datetime_to_ts_unrepresentable (m : Z) :
  ~ timestamp_in_range m -> _cvt_datetime_to_ts m = 0.
Proof.
  unfold timestamp_in_range. intros Hout.
  unfold _cvt_datetime_to_ts, cvt_pg_tm.
  change (mk_tm _ _ _ _ _ _)
    with (CalendarCheck.shifted (Calendar.gmtime (cvt_t_unix m))).
  pose proof (trunc_split_is_floor_split m) as Hsplit.
  rewrite floor_split_timestamp_eq in Hsplit.
  pose proof (cvt_fsec_rem m) as Hfsec.
  pose proof (Z.rem_bound_abs m 1000 ltac:(lia)) as Hrem.
  set (t := cvt_t_unix m) in *. set (fsec := cvt_fsec m) in *.
  assert (Hf : -1000000 < fsec < 1000000) by lia.
  clearbody t fsec. clear Hfsec Hrem.
  pose proof (Z.mod_pos_bound t 86400 ltac:(lia)) as Hr.
  pose proof (Z.div_mod t 86400 ltac:(lia)) as Hdm.
  destruct (Z_lt_ge_dec (t / 86400) (-2472632)) as [Hearly|Hlate].
  - pose proof (civil_from_days_early _ Hearly) as Hbad.
    unfold Calendar.tm2timestamp, CalendarCheck.shifted, Calendar.gmtime.
    destruct (Calendar.civil_from_days (t / 86400)) as [[y mo] d].
    cbn [tm_year tm_mon tm_mday].
    replace (mo - 1 + 1) with mo by lia.
    replace (y - 1900 + 1900) with y by lia.
    rewrite Hbad. reflexivity.
  - pose proof (date2j_civil_from_days_late (t / 86400) ltac:(lia)) as Hdate.
    pose proof (time2t_gmtime t fsec) as Htime. cbv zeta in Htime.
    rewrite tm2timestamp_exact.
    + unfold CalendarCheck.shifted.
      cbn [tm_year tm_mon tm_mday tm_hour tm_min tm_sec].
      rewrite Htime. clear Htime.
      unfold Calendar.gmtime.
      destruct (Calendar.civil_from_days (t / 86400)) as [[y mo] d].
      cbn [tm_year tm_mon tm_mday].
      replace (mo - 1 + 1) with mo by lia.
      replace (y - 1900 + 1900) with y by lia.
      rewrite Hdate.
      unfold Calendar.UNIX_EPOCH_JDATE, Calendar.POSTGRES_EPOCH_JDATE,
        Calendar.USECS_PER_DAY, Calendar.USECS_PER_SEC.
      replace ((t / 86400 + 2440588 - 2451545) * 86400000000
               + (t mod 86400 * 1000000 + fsec))
        with (1000 * m - 946684800000000) by lia.
      unfold Calendar.IS_VALID_TIMESTAMP.
      destruct (Z.leb_spec Calendar.MIN_TIMESTAMP (1000 * m - 946684800000000));
        destruct (Z.ltb_spec (1000 * m - 946684800000000) Calendar.END_TIMESTAMP);
        cbn [andb]; rewrite ?andb_false_r; try reflexivity.
      exfalso. apply Hout. split; assumption.
    + unfold CalendarCheck.shifted.
      cbn [tm_hour tm_min tm_sec]. rewrite Htime.
      unfold Calendar.USECS_PER_DAY, Calendar.USECS_PER_SEC. lia.
Qed.

(** X22.  [_cvt_datetime_to_ts] over every millisecond count: inside the
    range of the server's timestamps it returns the microseconds from
    2000-01-01, [1000 * m - 946684800000000]; outside, [tm2timestamp]
    fails, its return code is dropped, and the result is 0, the timestamp
    of 2000-01-01 00:00:00. *)
Theorem cvt_datetime_to_ts_whole_range (m : Z) :
  (timestamp_in_range m -> _cvt_datetime_to_ts m = 1000 * m - 946684800000000)
  /\ (~ timestamp_in_range m -> _cvt_datetime_to_ts m = 0).
Proof.
  split.
  - intros Hin. rewrite cvt_datetime_to_ts_floor by exact Hin.
    apply floor_split_timestamp_eq.
  - apply cvt_datetime_to_ts_unrepresentable.
Qed.

(** X23.  Inside the range the conversion keeps the order and the
    distances: a later instant gives a later timestamp, one millisecond
    being a thousand microseconds. *)
Theorem cvt_datetime_to_ts_keeps_order (m1 m2 : Z) :
  timestamp_in_range m1 -> timestamp_in_range m2 ->
  _cvt_datetime_to_ts m2 - _cvt_datetime_to_ts m1 = 1000 * (m2 - m1)
  /\ (m1 < m2 <-> _cvt_datetime_to_ts m1 < _cvt_datetime_to_ts m2)
  /\ (_cvt_datetime_to_ts m1 = _cvt_datetime_to_ts m2 -> m1 = m2).
Proof.
  intros H1 H2.
  rewrite !cvt_datetime_to_ts_floor by assumption.
  rewrite !floor_split_timestamp_eq. lia.
Qed.

Section DatetimeRange.

Context {L : LibBson} {P : PgHost}.

(** X24.  On a DateTime element whose instant the server's timestamp cannot
    hold, [bson_get_datetime] returns neither SQL NULL nor an error: it
    returns the timestamp 0, that is 2000-01-01 00:00:00. *)
Theorem bson_get_datetime_out_of_range (u : bson_t) (aa : bytea)
  (dotpath : text) (target : bson_iter_t) :
  resolves_to (stored_view u aa) dotpath target ->
  bson_iter_type target = BSON_TYPE_DATE_TIME ->
  ~ timestamp_in_range (bson_iter_date_time target) ->
  bson_get_datetime u aa dotpath = PG_RETURN 0.
Proof.
  intros Hres Hty Hout.
  unfold bson_get_datetime, stored_view in *.
  destruct (bson_init_static u _ _) as [rc b]. cbn [snd] in Hres.
  rewrite (get_bson_iter_found _ _ _ _ Hres Hty). cbn [bind].
  rewrite cvt_datetime_to_ts_unrepresentable by exact Hout. reflexivity.
Qed.

End DatetimeRange.

(* ===================================================================== *)
(** * The further statements at work on the reference library *)
(* ===================================================================== *)

(** [{"a": 1}] and [{"a": 2}] differ in one byte, the lowest of the
    number. *)
Lemma bson_hash_separates_one_byte_witness :
  Byte.x01 <> Byte.x02 /\ bson_hash one <> bson_hash two.
Proof.
  assert (H1 : Byte.x01 <> Byte.x02) by discriminate.
  split; [exact H1|].
  exact (bson_hash_separates_one_byte
           (map byte.of_Z [12; 0; 0; 0; 16; 97; 0]) (map byte.of_Z [0; 0; 0; 0])
           Byte.x01 Byte.x02 H1).
Defined.

Lemma pgbson_compare_zero_iff_same_bytes_witness :
  is_document one /\ is_document two
  /\ pgbson_compare Ref.stack_junk Ref.stack_junk one one = PG_RETURN 0
  /\ (pgbson_compare Ref.stack_junk Ref.stack_junk one two = PG_RETURN 0
      <-> one = two)
  /\ (bson_binary_equal Ref.stack_junk Ref.stack_junk one two = PG_RETURN true
      <-> pgbson_compare Ref.stack_junk Ref.stack_junk one two = PG_RETURN 0).
Proof.
  assert (H1 : is_document one) by (vm_compute; reflexivity).
  assert (H2 : is_document two) by (vm_compute; reflexivity).
  repeat (split; [assumption|]).
  split.
  - exact (proj2 (proj1 (pgbson_compare_zero_iff_same_bytes
                           Ref.stack_junk Ref.stack_junk Ref.stack_junk
                           Ref.stack_junk one one H1 H1)) eq_refl).
  - exact (pgbson_compare_zero_iff_same_bytes
             Ref.stack_junk Ref.stack_junk Ref.stack_junk Ref.stack_junk
             one two H1 H2).
Defined.

(** The order is the one of the bytes, not of the numbers: an int32 is
    stored lowest byte first, so [{"a": 256}] comes before [{"a": 1}]. *)
Lemma pgbson_compare_is_lexicographic_witness :
  is_document big /\ is_document one
  /\ pgbson_compare Ref.stack_junk Ref.stack_junk big one = PG_RETURN (-1)
  /\ exists x,
       pgbson_compare Ref.stack_junk Ref.stack_junk big one = PG_RETURN x
       /\ (x ?= 0) = lex_compare (skipn 4 big) (skipn 4 one)
       /\ (List.length big <> List.length one -> x = -1 \/ x = 1).
Proof.
  assert (H1 : is_document big) by (vm_compute; reflexivity).
  assert (H2 : is_document one) by (vm_compute; reflexivity).
  repeat (split; [assumption|]).
  split; [vm_compute; reflexivity|].
  exact (pgbson_compare_is_lexicographic Ref.stack_junk Ref.stack_junk
           big one H1 H2).
Defined.

Lemma mk_text_copies_the_c_string_witness :
  nul_free "ab" = true
  /\ mk_text (list_byte_of_string cut_text ++ [x00])%list = "ab"
  /\ strlen (list_byte_of_string cut_text ++ [x00])%list = 2.
Proof.
  assert (H1 : nul_free "ab" = true) by (vm_compute; reflexivity).
  split; [exact H1|].
  destruct (mk_text_copies_the_c_string "ab"
              (list_byte_of_string "cd" ++ [x00])%list H1) as (Ht & _ & Hlen).
  split; [exact Ht|exact Hlen].
Defined.

Lemma bson_in_stores_a_document_witness :
  bson_new_from_json (LibBson := Ref.lib) (json "{'a': {'b': [10, 20, 30]}}")
    (Z.of_nat (String.length (json "{'a': {'b': [10, 20, 30]}}")))
  = inl (view nested)
  /\ bson_header_ok (bson_get_data (view nested)) (bson_len (view nested)) = true
  /\ exists d,
       bson_in (L := Ref.lib) (json "{'a': {'b': [10, 20, 30]}}") = PG_RETURN d
       /\ d = firstn (Z.to_nat (bson_len (view nested)))
                (bson_get_data (view nested))
       /\ is_document d
       /\ forall u, stored_view u d = view d.
Proof.
  assert (H1 : bson_new_from_json (LibBson := Ref.lib)
                 (json "{'a': {'b': [10, 20, 30]}}")
                 (Z.of_nat (String.length (json "{'a': {'b': [10, 20, 30]}}")))
               = inl (view nested)) by (vm_compute; reflexivity).
  assert (H2 : bson_header_ok (bson_get_data (view nested))
                 (bson_len (view nested)) = true) by (vm_compute; reflexivity).
  repeat (split; [assumption|]).
  exact (bson_in_stores_a_document (L := Ref.lib) _ _ H1 H2).
Defined.

(** An unfinished text: the diagnostic has no percent sign and is the
    message of the error. *)
Lemma bson_in_value_or_error_witness :
  bson_new_from_json (LibBson := Ref.lib) "{" 1
  = inr (mk_bson_error_t 1 1 "Incomplete JSON")
  /\ exists e,
       bson_in (L := Ref.lib) "{" = Raise e
       /\ (no_percent "Incomplete JSON" = true ->
           err_message e = Some "Incomplete JSON").
Proof.
  assert (H1 : bson_new_from_json (LibBson := Ref.lib) "{"
                 (Z.of_nat (String.length "{"))
               = inr (mk_bson_error_t 1 1 "Incomplete JSON"))
    by (vm_compute; reflexivity).
  split; [exact H1|].
  exact (proj2 (proj2 (bson_in_value_or_error (L := Ref.lib) "{")) _ H1).
Defined.

Lemma bson_out_after_bson_in_witness :
  bson_new_from_json (LibBson := Ref.lib) (json "{'a': {'b': [10, 20, 30]}}")
    (Z.of_nat (String.length (json "{'a': {'b': [10, 20, 30]}}")))
  = inl (view nested)
  /\ bson_header_ok (bson_get_data (view nested)) (bson_len (view nested)) = true
  /\ renders_its_own_bytes (L := Ref.lib) (view nested)
  /\ bson_as_relaxed_extended_json (LibBson := Ref.lib) (view nested)
     = Some (json "{ 'a' : { 'b' : [ 10, 20, 30 ] } }")
  /\ exists d,
       bson_in (L := Ref.lib) (json "{'a': {'b': [10, 20, 30]}}") = PG_RETURN d
       /\ bson_out (L := Ref.lib) (view one) d
          = PG_RETURN (json "{ 'a' : { 'b' : [ 10, 20, 30 ] } }").
Proof.
  assert (H1 : bson_new_from_json (LibBson := Ref.lib)
                 (json "{'a': {'b': [10, 20, 30]}}")
                 (Z.of_nat (String.length (json "{'a': {'b': [10, 20, 30]}}")))
               = inl (view nested)) by (vm_compute; reflexivity).
  assert (H2 : bson_header_ok (bson_get_data (view nested))
                 (bson_len (view nested)) = true) by (vm_compute; reflexivity).
  assert (H3 : renders_its_own_bytes (L := Ref.lib) (view nested))
    by (vm_compute; reflexivity).
  assert (H4 : bson_as_relaxed_extended_json (LibBson := Ref.lib) (view nested)
               = Some (json "{ 'a' : { 'b' : [ 10, 20, 30 ] } }"))
    by (vm_compute; reflexivity).
  repeat (split; [assumption|]).
  destruct (bson_out_after_bson_in (L := Ref.lib) (view one) _ _ H1 H2 H3)
    as (d & Hin & Hout & _).
  exists d. split; [exact Hin|].
  apply (Hout _ H4). vm_compute. reflexivity.
Defined.

(** A document cut short by one byte, seen through an empty stack slot. *)
Lemma path_functions_raise_iff_corrupt_witness :
  bson_iter_init (LibBson := Ref.lib) (stored_view Ref.stack_junk truncated)
  = None
  /\ bson_get_int32 (L := Ref.lib) Ref.stack_junk truncated "a"
     = Raise corrupt_error
  /\ bson_get_bson (L := Ref.lib) Ref.stack_junk Ref.stack_junk truncated "a"
     = Raise corrupt_error
  /\ bson_as_text (L := Ref.lib) (P := Ref.host) Ref.stack_junk Ref.stack_junk
       truncated "a" = Raise corrupt_error.
Proof.
  assert (H1 : bson_iter_init (LibBson := Ref.lib)
                 (stored_view Ref.stack_junk truncated) = None)
    by (vm_compute; reflexivity).
  split; [exact H1|].
  destruct (path_functions_raise_iff_corrupt (L := Ref.lib) (P := Ref.host)
              Ref.stack_junk Ref.stack_junk truncated "a" corrupt_error)
    as (Hacc & Hbson & Htext & _).
  split; [|split].
  - pose proof (proj2 (Hacc GetInt32) (conj eq_refl H1)) as Hr.
    cbn [accessor_raised] in Hr.
    destruct (bson_get_int32 Ref.stack_junk truncated "a") as [v|e];
      [discriminate Hr|].
    cbn [raised] in Hr. injection Hr as ->. reflexivity.
  - exact (proj2 Hbson (conj eq_refl H1)).
  - exact (proj2 Htext (conj eq_refl H1)).
Defined.

(** The string [ab], NUL, [cd] has five characters; [bson_get_string]
    returns the first two. *)
Lemma bson_get_string_stops_at_nul_witness :
  resolves_to (L := Ref.lib) (stored_view Ref.stack_junk cut) "s" cut_target
  /\ bson_iter_type (LibBson := Ref.lib) cut_target = BSON_TYPE_UTF8
  /\ bson_iter_utf8 (LibBson := Ref.lib) cut_target
     = (5, (list_byte_of_string "ab"
            ++ x00 :: list_byte_of_string "cd" ++ [x00; x00])%list)
  /\ nul_free "ab" = true
  /\ bson_get_string (L := Ref.lib) Ref.stack_junk cut "s" = PG_RETURN "ab".
Proof.
  assert (H1 : resolves_to (L := Ref.lib) (stored_view Ref.stack_junk cut)
                 "s" cut_target).
  { exists (RefBson.mk_iter cut 18 0 0 0 0 4). split; vm_compute; reflexivity. }
  assert (H2 : bson_iter_type (LibBson := Ref.lib) cut_target = BSON_TYPE_UTF8)
    by (vm_compute; reflexivity).
  assert (H3 : bson_iter_utf8 (LibBson := Ref.lib) cut_target
               = (5, (list_byte_of_string "ab"
                      ++ x00 :: list_byte_of_string "cd" ++ [x00; x00])%list))
    by (vm_compute; reflexivity).
  assert (H4 : nul_free "ab" = true) by (vm_compute; reflexivity).
  repeat (split; [assumption|]).
  exact (bson_get_string_stops_at_nul (L := Ref.lib) _ _ _ _ _ _ _ H1 H2 H3 H4).
Defined.

Lemma scalar_accessors_do_not_convert_witness :
  resolves_to (L := Ref.lib) (stored_view Ref.stack_junk wide) "n"
    (RefBson.mk_iter wide 27 4 7 0 0 15)
  /\ bson_iter_type (LibBson := Ref.lib) (RefBson.mk_iter wide 27 4 7 0 0 15)
     = BSON_TYPE_INT64
  /\ bson_get_int64 (L := Ref.lib) Ref.stack_junk wide "n"
     = PG_RETURN 1099511627776
  /\ bson_get_int32 (L := Ref.lib) Ref.stack_junk wide "n" = PG_RETURN_NULL
  /\ bson_get_double (L := Ref.lib) Ref.stack_junk wide "n" = PG_RETURN_NULL.
Proof.
  assert (H1 : resolves_to (L := Ref.lib) (stored_view Ref.stack_junk wide) "n"
                 (RefBson.mk_iter wide 27 4 7 0 0 15)).
  { exists wide_start. split; vm_compute; reflexivity. }
  assert (H2 : bson_iter_type (LibBson := Ref.lib)
                 (RefBson.mk_iter wide 27 4 7 0 0 15) = BSON_TYPE_INT64)
    by (vm_compute; reflexivity).
  repeat (split; [assumption|]).
  exact (proj1 (proj2 (scalar_accessors_do_not_convert (L := Ref.lib)
                         _ _ _ _ H1)) H2).
Defined.

(** A boolean has no case in [bson_as_text]. *)
Lemma bson_as_text_null_cases_witness :
  bson_iter_init (LibBson := Ref.lib) (stored_view Ref.stack_junk flags)
  = Some (RefBson.mk_iter flags 12 0 0 0 0 4)
  /\ bson_as_text (L := Ref.lib) (P := Ref.host) Ref.stack_junk Ref.stack_junk
       flags "t" = PG_RETURN_NULL
  /\ bson_as_text (L := Ref.lib) (P := Ref.host) Ref.stack_junk Ref.stack_junk
       flags "missing" = PG_RETURN_NULL.
Proof.
  assert (H1 : bson_iter_init (LibBson := Ref.lib)
                 (stored_view Ref.stack_junk flags)
               = Some (RefBson.mk_iter flags 12 0 0 0 0 4))
    by (vm_compute; reflexivity).
  split; [exact H1|]. split.
  - apply (bson_as_text_null_cases (L := Ref.lib) (P := Ref.host) _ _ _ _ _ H1).
    vm_compute. left. reflexivity.
  - apply (bson_as_text_null_cases (L := Ref.lib) (P := Ref.host) _ _ _ _ _ H1).
    vm_compute. exact I.
Defined.

Lemma bson_as_text_of_a_string_witness :
  bson_get_string (L := Ref.lib) Ref.stack_junk cut "s" = PG_RETURN "ab"
  /\ bson_as_text (L := Ref.lib) (P := Ref.host) Ref.stack_junk Ref.stack_junk
       cut "s" = PG_RETURN "ab".
Proof.
  assert (H1 : bson_get_string (L := Ref.lib) Ref.stack_junk cut "s"
               = PG_RETURN "ab") by (vm_compute; reflexivity).
  split; [exact H1|].
  exact (bson_as_text_of_a_string (L := Ref.lib) (P := Ref.host) _ _ _ _ _ H1).
Defined.

Lemma bson_as_text_prints_the_number_witness :
  bson_get_int32 (L := Ref.lib) Ref.stack_junk nested "a.b.1" = PG_RETURN 20
  /\ fits_valbuf (sprintf_d (PgHost := Ref.host) 20)
  /\ nul_free (sprintf_d (PgHost := Ref.host) 20) = true
  /\ bson_as_text (L := Ref.lib) (P := Ref.host) Ref.stack_junk Ref.stack_junk
       nested "a.b.1" = PG_RETURN "20"
  /\ bson_get_int64 (L := Ref.lib) Ref.stack_junk wide "n"
     = PG_RETURN 1099511627776
  /\ bson_as_text (L := Ref.lib) (P := Ref.host) Ref.stack_junk Ref.stack_junk
       wide "n" = PG_RETURN "1099511627776".
Proof.
  assert (H1 : bson_get_int32 (L := Ref.lib) Ref.stack_junk nested "a.b.1"
               = PG_RETURN 20) by (vm_compute; reflexivity).
  assert (H2 : fits_valbuf (sprintf_d (PgHost := Ref.host) 20))
    by (vm_compute; discriminate).
  assert (H3 : nul_free (sprintf_d (PgHost := Ref.host) 20) = true)
    by (vm_compute; reflexivity).
  assert (H4 : bson_get_int64 (L := Ref.lib) Ref.stack_junk wide "n"
               = PG_RETURN 1099511627776) by (vm_compute; reflexivity).
  repeat (split; [assumption|]).
  split; [|split; [exact H4|]].
  - exact (proj1 (bson_as_text_prints_the_number (L := Ref.lib) (P := Ref.host)
                    Ref.stack_junk Ref.stack_junk nested "a.b.1" 20) H1 H2 H3).
  - apply (proj1 (proj2 (bson_as_text_prints_the_number (L := Ref.lib)
                           (P := Ref.host) Ref.stack_junk Ref.stack_junk
                           wide "n" 1099511627776)) H4).
    + vm_compute. discriminate.
    + vm_compute. reflexivity.
Defined.

(** 2022-01-01T12:00:00.123Z comes back without its Z. *)
Lemma bson_as_text_cuts_the_date_witness :
  resolves_to (L := Ref.lib) (stored_view Ref.stack_junk stamped) "d"
    stamped_target
  /\ bson_iter_type (LibBson := Ref.lib) stamped_target = BSON_TYPE_DATE_TIME
  /\ _bson_iso8601_date_format (LibBson := Ref.lib)
       (bson_iter_date_time (LibBson := Ref.lib) stamped_target)
     = "2022-01-01T12:00:00.123Z"
  /\ bson_as_text (L := Ref.lib) (P := Ref.host) Ref.stack_junk Ref.stack_junk
       stamped "d" = PG_RETURN "2022-01-01T12:00:00.123".
Proof.
  assert (H1 : resolves_to (L := Ref.lib) (stored_view Ref.stack_junk stamped)
                 "d" stamped_target).
  { exists (RefBson.mk_iter stamped 16 0 0 0 0 4).
    split; vm_compute; reflexivity. }
  assert (H2 : bson_iter_type (LibBson := Ref.lib) stamped_target
               = BSON_TYPE_DATE_TIME) by (vm_compute; reflexivity).
  assert (H3 : _bson_iso8601_date_format (LibBson := Ref.lib)
                 (bson_iter_date_time (LibBson := Ref.lib) stamped_target)
               = "2022-01-01T12:00:00.123Z") by (vm_compute; reflexivity).
  repeat (split; [assumption|]).
  pose proof (bson_as_text_cuts_the_date (L := Ref.lib) (P := Ref.host)
                Ref.stack_junk Ref.stack_junk stamped "d" stamped_target
                H1 H2) as Hcut.
  rewrite H3 in Hcut. apply Hcut.
  - vm_compute. discriminate.
  - vm_compute. reflexivity.
Defined.

Lemma bson_as_text_dumps_the_payload_witness :
  bson_get_binary (L := Ref.lib) Ref.stack_junk blob "k" = PG_RETURN blob_payload
  /\ two_digits_each (P := Ref.host) blob_payload = true
  /\ bson_as_text (L := Ref.lib) (P := Ref.host) Ref.stack_junk Ref.stack_junk
       blob "k" = PG_RETURN "\x010203".
Proof.
  assert (H1 : bson_get_binary (L := Ref.lib) Ref.stack_junk blob "k"
               = PG_RETURN blob_payload) by (vm_compute; reflexivity).
  assert (H2 : two_digits_each (P := Ref.host) blob_payload = true)
    by (vm_compute; reflexivity).
  repeat (split; [assumption|]).
  exact (proj1 (bson_as_text_dumps_the_payload (L := Ref.lib) (P := Ref.host)
                  Ref.stack_junk Ref.stack_junk blob "k" blob_payload H1 H2)).
Defined.

Lemma bson_get_decimal128_reads_bson_as_text_witness :
  resolves_to (L := Ref.lib) (stored_view Ref.stack_junk price) "p" price_target
  /\ bson_iter_type (LibBson := Ref.lib) price_target = BSON_TYPE_DECIMAL128
  /\ bson_iter_decimal128 (LibBson := Ref.lib) price_target
     = Some (15, 3476215962376601600)
  /\ Z.of_nat (String.length
        (bson_decimal128_to_string (LibBson := Ref.lib)
           (15, 3476215962376601600))) + 1 <= 43
  /\ nul_free (bson_decimal128_to_string (LibBson := Ref.lib)
                 (15, 3476215962376601600)) = true
  /\ bson_as_text (L := Ref.lib) (P := Ref.host) Ref.stack_junk
       Ref.stack_junk price "p" = PG_RETURN "1.5"
  /\ bson_get_decimal128 (L := Ref.lib) (P := Ref.host) Ref.stack_junk
       price "p" = PG_RETURN (numeric_in (PgHost := Ref.host) "1.5" 0 (-1)).
Proof.
  assert (H1 : resolves_to (L := Ref.lib) (stored_view Ref.stack_junk price)
                 "p" price_target).
  { exists (RefBson.mk_iter price 24 0 0 0 0 4).
    split; vm_compute; reflexivity. }
  assert (H2 : bson_iter_type (LibBson := Ref.lib) price_target
               = BSON_TYPE_DECIMAL128) by (vm_compute; reflexivity).
  assert (H3 : bson_iter_decimal128 (LibBson := Ref.lib) price_target
               = Some (15, 3476215962376601600)) by (vm_compute; reflexivity).
  assert (H4 : Z.of_nat (String.length
                 (bson_decimal128_to_string (LibBson := Ref.lib)
                    (15, 3476215962376601600))) + 1 <= 43)
    by (vm_compute; discriminate).
  assert (H5 : nul_free (bson_decimal128_to_string (LibBson := Ref.lib)
                 (15, 3476215962376601600)) = true) by (vm_compute; reflexivity).
  repeat (split; [assumption|]).
  exact (bson_get_decimal128_reads_bson_as_text (L := Ref.lib) (P := Ref.host)
           Ref.stack_junk Ref.stack_junk _ _ _ _ H1 H2 H3 H4 H5).
Defined.

(** The array [a.b] of the nested document: the text of [bson_as_text] is
    the text [bson_out] gives for the extracted array. *)
Lemma bson_as_text_is_bson_out_of_bson_get_bson_witness :
  bson_iter_init (LibBson := Ref.lib) (stored_view Ref.stack_junk nested)
  = Some nested_start
  /\ bson_header_ok (RefBson.at_off nested 14) 26 = true
  /\ renders_its_own_bytes (L := Ref.lib)
       (mk_bson_t 26 (RefBson.at_off nested 14))
  /\ exists sub,
       bson_get_bson (L := Ref.lib) Ref.stack_junk Ref.stack_junk nested "a.b"
       = PG_RETURN sub
       /\ bson_as_text (L := Ref.lib) (P := Ref.host) Ref.stack_junk
            Ref.stack_junk nested "a.b"
          = bson_out (L := Ref.lib) (view one) sub.
Proof.
  assert (H1 : bson_iter_init (LibBson := Ref.lib)
                 (stored_view Ref.stack_junk nested) = Some nested_start)
    by (vm_compute; reflexivity).
  assert (H2 : bson_header_ok (RefBson.at_off nested 14) 26 = true)
    by (vm_compute; reflexivity).
  assert (H3 : renders_its_own_bytes (L := Ref.lib)
                 (mk_bson_t 26 (RefBson.at_off nested 14)))
    by (vm_compute; reflexivity).
  repeat (split; [assumption|]).
  apply (bson_as_text_is_bson_out_of_bson_get_bson (L := Ref.lib)
           (P := Ref.host) Ref.stack_junk Ref.stack_junk (view one) nested
           "a.b" nested_start nested_array_target 26
           (RefBson.at_off nested 14) H1).
  - vm_compute. reflexivity.
  - right. split; vm_compute; reflexivity.
  - exact H2.
  - exact H3.
Defined.

(** The same calls with empty stack slots and with slots that hold the
    views of other documents; the array [a.b] of the nested document is
    one [bson_init_static] accepts. *)
Lemma documents_hide_the_stack_slot_witness :
  is_document one /\ is_document two /\ is_document nested
  /\ embedded_accepted (L := Ref.lib) (view nested) "a.b"
  /\ bson_get_int32 (L := Ref.lib) Ref.stack_junk one "a"
     = bson_get_int32 (L := Ref.lib) (view nested) one "a"
  /\ pgbson_compare Ref.stack_junk Ref.stack_junk one two
     = pgbson_compare (view nested) (view one) one two
  /\ bson_get_bson (L := Ref.lib) Ref.stack_junk Ref.stack_junk nested "a.b"
     = bson_get_bson (L := Ref.lib) (view one) (view two) nested "a.b"
  /\ bson_as_text (L := Ref.lib) (P := Ref.host) Ref.stack_junk Ref.stack_junk
       nested "a.b"
     = bson_as_text (L := Ref.lib) (P := Ref.host) (view one) (view two)
         nested "a.b".
Proof.
  assert (H1 : is_document one) by (vm_compute; reflexivity).
  assert (H2 : is_document two) by (vm_compute; reflexivity).
  assert (H3 : is_document nested) by (vm_compute; reflexivity).
  assert (H4 : embedded_accepted (L := Ref.lib) (view nested) "a.b").
  { intros iter target Hinit Hfind.
    vm_compute in Hinit. injection Hinit as <-.
    vm_compute in Hfind. injection Hfind as <-.
    vm_compute. eexists. eexists. split; reflexivity. }
  repeat (split; [assumption|]).
  destruct (documents_hide_the_stack_slot (L := Ref.lib) (P := Ref.host)
              Ref.stack_junk Ref.stack_junk (view nested) (view one)
              Ref.stack_junk Ref.stack_junk one two "a" H1 H2)
    as (_ & Hcmp & _ & _ & Hint & _).
  split; [exact Hint|]. split; [exact Hcmp|].
  destruct (documents_hide_the_stack_slot (L := Ref.lib) (P := Ref.host)
              Ref.stack_junk Ref.stack_junk (view one) (view one)
              Ref.stack_junk (view two) nested nested "a.b" H3 H3)
    as (_ & _ & _ & _ & _ & _ & _ & _ & _ & _ & _ & _ & Hboth).
  exact (Hboth H4).
Defined.

(** Two values that are no documents: the nested document without its
    last byte, and no bytes at all.  What is read is the stack slot, here
    the view of [{"a": 1}]. *)
Lemma rejected_values_are_not_read_witness :
  ~ is_document truncated /\ ~ is_document []
  /\ bson_get_int32 (L := Ref.lib) (view one) truncated "a"
     = bson_get_int32 (L := Ref.lib) (view one) [] "a"
  /\ bson_get_int32 (L := Ref.lib) (view one) [] "a" = PG_RETURN 1
  /\ pgbson_compare (view one) (view two) truncated []
     = PG_RETURN (bson_compare (view one) (view two)).
Proof.
  assert (H1 : ~ is_document truncated) by (vm_compute; discriminate).
  assert (H2 : ~ is_document []) by (vm_compute; discriminate).
  repeat (split; [assumption|]).
  destruct (rejected_values_are_not_read (L := Ref.lib) (P := Ref.host)
              (view one) (view two) Ref.stack_junk truncated [] "a" H1 H2)
    as (_ & Hcmp & _ & _ & Hint & _).
  split; [exact Hint|]. split; [vm_compute; reflexivity|exact Hcmp].
Defined.

(** Half a second before the epoch is inside the range; [2 ^ 62]
    milliseconds, some 146 million years ahead, is not. *)
Lemma cvt_datetime_to_ts_whole_range_witness :
  timestamp_in_range (-500) /\ ~ timestamp_in_range (2 ^ 62)
  /\ _cvt_datetime_to_ts (-500) = -946684800500000
  /\ _cvt_datetime_to_ts (2 ^ 62) = 0.
Proof.
  assert (H1 : timestamp_in_range (-500))
    by (unfold timestamp_in_range, Calendar.MIN_TIMESTAMP,
          Calendar.END_TIMESTAMP; lia).
  assert (H2 : ~ timestamp_in_range (2 ^ 62)).
  { unfold timestamp_in_range, Calendar.END_TIMESTAMP.
    change (2 ^ 62) with 4611686018427387904. lia. }
  repeat (split; [assumption|]).
  split.
  - exact (proj1 (cvt_datetime_to_ts_whole_range (-500)) H1).
  - exact (proj2 (cvt_datetime_to_ts_whole_range (2 ^ 62)) H2).
Defined.

Lemma cvt_datetime_to_ts_keeps_order_witness :
  timestamp_in_range (-500) /\ timestamp_in_range 0
  /\ _cvt_datetime_to_ts 0 - _cvt_datetime_to_ts (-500) = 500000
  /\ _cvt_datetime_to_ts (-500) < _cvt_datetime_to_ts 0.
Proof.
  assert (H1 : timestamp_in_range (-500))
    by (unfold timestamp_in_range, Calendar.MIN_TIMESTAMP,
          Calendar.END_TIMESTAMP; lia).
  assert (H2 : timestamp_in_range 0)
    by (unfold timestamp_in_range, Calendar.MIN_TIMESTAMP,
          Calendar.END_TIMESTAMP; lia).
  repeat (split; [assumption|]).
  destruct (cvt_datetime_to_ts_keeps_order (-500) 0 H1 H2) as (Hd & Ho & _).
  split; [exact Hd|]. apply Ho. reflexivity.
Defined.

Lemma bson_get_datetime_out_of_range_witness :
  resolves_to (L := Ref.lib) (stored_view Ref.stack_junk far) "d" far_target
  /\ bson_iter_type (LibBson := Ref.lib) far_target = BSON_TYPE_DATE_TIME
  /\ bson_iter_date_time (LibBson := Ref.lib) far_target = 2 ^ 62
  /\ ~ timestamp_in_range (2 ^ 62)
  /\ bson_get_datetime (L := Ref.lib) Ref.stack_junk far "d" = PG_RETURN 0.
Proof.
  assert (H1 : resolves_to (L := Ref.lib) (stored_view Ref.stack_junk far)
                 "d" far_target).
  { exists (RefBson.mk_iter far 16 0 0 0 0 4). split; vm_compute; reflexivity. }
  assert (H2 : bson_iter_type (LibBson := Ref.lib) far_target
               = BSON_TYPE_DATE_TIME) by (vm_compute; reflexivity).
  assert (H3 : bson_iter_date_time (LibBson := Ref.lib) far_target = 2 ^ 62)
    by (vm_compute; reflexivity).
  assert (H4 : ~ timestamp_in_range (2 ^ 62)).
  { unfold timestamp_in_range, Calendar.END_TIMESTAMP.
    change (2 ^ 62) with 4611686018427387904. lia. }
  repeat (split; [assumption|]).
  apply (bson_get_datetime_out_of_range (L := Ref.lib) _ _ _ _ H1 H2).
  rewrite H3. exact H4.
Defined.

(** The message of the empty document, waiting at an aligned address. *)
Lemma bson_recv_reads_the_struct_witness :
  139905871352376 mod 2 ^ 32 <> si_len waiting_struct
  /\ bson_recv (view one) waiting = PG_RETURN one.
Proof.
  assert (H1 : 139905871352376 mod 2 ^ 32 <> si_len waiting_struct)
    by (vm_compute; discriminate).
  split; [exact H1|].
  exact (bson_recv_reads_the_struct (view one) waiting_struct 139905871352376
           (repeat x00 4) H1).
Defined.

(** The version the extension reports. *)
Example pgbson_version_text : pgbson_version = PG_RETURN "2.1".
Proof. vm_compute. reflexivity. Qed.
